(** * Sale transaction engine of the pharmacy point of sale

    A shallow embedding of the sale engine ([services/sale_service.py]),
    the loyalty engine ([services/loyalty_service.py]), the stock service
    ([services/stock_service.py]) and the repository operations they call
    ([database/*_repository.py]), followed by the properties of the
    specification that concern them.

    Conventions of the embedding.
    - Python [int] is [Z].  The store keeps integers in 64 bits: the model
      describes it as long as the stored quantities stay below 2^63.
    - Python [float] amounts are exact rationals [Q]: binary representation
      error is outside the model.  The two rounding operations of the source
      are kept apart: the built-in [round(x, 2)] and
      [FormatUtils.round_currency] (decimal ROUND_HALF_UP).  A float product
      can fall on the other side of a half hundredth than the exact product,
      so what is proved of a rounded product holds for either neighbouring
      hundredth.
    - A table with an integer primary key is a [gmap Z row]; the key of the
      map is the [id] column.  Where Python holds an object whose [id] is
      set, the embedding keeps the id next to the row.
    - The two-table storage of a sale (header and lines, written together by
      [SaleRepository.create]) is one row that carries its lines.
    - Methods are state-passing functions [World -> World * result]; the
      [(bool, str)] results keep the success flag and carry the message as a
      constructor of [Msg] together with the values formatted into it.
    - The [ValueError]s raised by the constructors of [Sale] and [SaleLine]
      inside the [try] of [validate_sale] are modelled ([build_sale]).  Rows
      read back from the store are taken to pass the checks of their
      constructor, and the storage calls themselves do not fail. *)

From Stdlib Require Import ZArith QArith Qround Lqa Lia.
From stdpp Require Import base option list gmap strings.

Local Open Scope Z_scope.

(** ** Amounts and rounding *)

Module Money.

Definition Qltb (x y : Q) : bool := negb (Qle_bool y x).

(** [Decimal(str(amount)).quantize(Decimal('0.01'), ROUND_HALF_UP)],
    as a number of hundredths: ties go away from zero. *)
Definition half_up_cents (x : Q) : Z :=
  if Qle_bool 0 x then Qfloor (x * 100 + (1 # 2))
  else - Qfloor (- x * 100 + (1 # 2)).

(** [FormatUtils.round_currency]. *)
Definition round_currency (amount : Q) : Q := (half_up_cents amount # 100)%Q.

(** The built-in [round(x, 2)], as a number of hundredths: the nearest
    one, the even neighbour at a half.  Amounts are exact rationals here,
    and the half is decided on the exact value; the code rounds the binary
    float it has computed, which can lie on the other side of a half
    hundredth than the exact value (0.35 * 0.5 is below 0.175 as a float).
    The properties that rest on this rounding are stated for either
    neighbouring hundredth. *)
Definition half_even_cents (x : Q) : Z :=
  let f := Qfloor (x * 100) in
  match (x * 100 - inject_Z f ?= 1 # 2)%Q with
  | Lt => f
  | Gt => f + 1
  | Eq => if Z.even f then f else f + 1
  end.

Definition py_round2 (x : Q) : Q := (half_even_cents x # 100)%Q.

End Money.
Export Money.

(** ** Data model ([models/*.py], [config.py]) *)

Record Medicament := mkMedicament {
  med_name : string;
  selling_price : Q;
  quantity_in_stock : Z;
  med_is_active : bool
}.

Record Client := mkClient {
  loyalty_points : Z;
  total_spent : Q;
  client_is_active : bool
}.

Record LoyaltyTier := mkLoyaltyTier {
  tier_name : string;
  min_points : Z;
  discount_percentage : Q;
  tier_is_active : bool
}.

Record User := mkUser { user_id : Z }.

Inductive SaleStatus := completed | cancelled.

Inductive MovementType := ENTRY | EXIT | ADJUSTMENT.

(** [VNT-YYYYMMDD-XXX]: the date and the sequence number of the day. *)
Record SaleNumber := mkSaleNumber { sn_date : Z; sn_seq : Z }.

Record SaleLine := mkSaleLine {
  line_medicament_id : Z;
  line_quantity : Z;
  line_unit_price : Q;
  line_line_total : Q
}.

Record Sale := mkSale {
  sale_number : SaleNumber;
  sale_user_id : Z;
  sale_client_id : option Z;
  sale_date : Z;
  sale_subtotal : Q;
  sale_discount_percentage : Q;
  sale_discount_amount : Q;
  sale_total : Q;
  loyalty_points_earned : Z;
  loyalty_points_used : Z;
  status : SaleStatus;
  lines : list SaleLine
}.

Inductive Reason :=
| ReasonVente
| ReasonAnnulation (n : SaleNumber)
| ReasonText (s : string).

Record StockMovement := mkStockMovement {
  mv_medicament_id : Z;
  mv_user_id : Z;
  mv_type : MovementType;
  mv_quantity : Z;
  mv_reference_id : option Z;
  mv_reason : Reason
}.

Record LoyaltyConfig := mkLoyaltyConfig { points_per_unit : Z }.

Definition LOYALTY_CONFIG : LoyaltyConfig := {| points_per_unit := 10 |}.

(** ** Cart ([CartItem], [Cart]) *)

Record CartItem := mkCartItem {
  item_medicament_id : Z;
  item_medicament : Medicament;
  item_quantity : Z;
  item_unit_price : Q
}.

(** [CartItem.line_total]: the rounding of the exact product; the float
    product the code rounds is that product for unit prices with at most two
    decimals. *)
Definition line_total (it : CartItem) : Q :=
  round_currency (inject_Z (item_quantity it) * item_unit_price it).

Record Cart := mkCart {
  items : list CartItem;
  cart_client : option (Z * Client)
}.

Definition subtotal (c : Cart) : Q :=
  round_currency (fold_left (fun acc it => (acc + line_total it)%Q) (items c) 0%Q).

Definition items_count (c : Cart) : Z :=
  fold_left (fun acc it => acc + item_quantity it) (items c) 0.

Definition is_empty (c : Cart) : bool :=
  match items c with [] => true | _ => false end.

Definition empty_cart : Cart := {| items := []; cart_client := None |}.

(** ** Store and ambient state *)

Record Db := mkDb {
  medicaments : gmap Z Medicament;
  clients : gmap Z Client;
  users : gmap Z User;
  loyalty_tiers : list LoyaltyTier;
  sales : gmap Z Sale;
  stock_movements : list StockMovement
}.

Record World := mkWorld {
  db : Db;
  cart : Cart;
  current_user : option User;
  today : Z;
  config : LoyaltyConfig
}.

Definition with_db (w : World) (d : Db) : World :=
  {| db := d; cart := cart w; current_user := current_user w;
     today := today w; config := config w |}.

Definition with_cart (w : World) (c : Cart) : World :=
  {| db := db w; cart := c; current_user := current_user w;
     today := today w; config := config w |}.

Definition with_medicaments (d : Db) (m : gmap Z Medicament) : Db :=
  {| medicaments := m; clients := clients d; users := users d;
     loyalty_tiers := loyalty_tiers d; sales := sales d;
     stock_movements := stock_movements d |}.

Definition with_clients (d : Db) (c : gmap Z Client) : Db :=
  {| medicaments := medicaments d; clients := c; users := users d;
     loyalty_tiers := loyalty_tiers d; sales := sales d;
     stock_movements := stock_movements d |}.

Definition with_sales (d : Db) (s : gmap Z Sale) : Db :=
  {| medicaments := medicaments d; clients := clients d; users := users d;
     loyalty_tiers := loyalty_tiers d; sales := s;
     stock_movements := stock_movements d |}.

Definition with_stock_movements (d : Db) (l : list StockMovement) : Db :=
  {| medicaments := medicaments d; clients := clients d; users := users d;
     loyalty_tiers := loyalty_tiers d; sales := sales d;
     stock_movements := l |}.

Definition set_quantity (m : Medicament) (q : Z) : Medicament :=
  {| med_name := med_name m; selling_price := selling_price m;
     quantity_in_stock := q; med_is_active := med_is_active m |}.

Definition set_loyalty_points (c : Client) (p : Z) : Client :=
  {| loyalty_points := p; total_spent := total_spent c;
     client_is_active := client_is_active c |}.

Definition set_total_spent (c : Client) (a : Q) : Client :=
  {| loyalty_points := loyalty_points c; total_spent := a;
     client_is_active := client_is_active c |}.

Definition set_status (s : Sale) (st : SaleStatus) : Sale :=
  {| sale_number := sale_number s; sale_user_id := sale_user_id s;
     sale_client_id := sale_client_id s; sale_date := sale_date s;
     sale_subtotal := sale_subtotal s;
     sale_discount_percentage := sale_discount_percentage s;
     sale_discount_amount := sale_discount_amount s;
     sale_total := sale_total s;
     loyalty_points_earned := loyalty_points_earned s;
     loyalty_points_used := loyalty_points_used s;
     status := st; lines := lines s |}.

Definition set_item_quantity (it : CartItem) (q : Z) : CartItem :=
  {| item_medicament_id := item_medicament_id it;
     item_medicament := item_medicament it;
     item_quantity := q; item_unit_price := item_unit_price it |}.

(** ** Results *)

(** The messages of the services; a number or a name formatted into the
    message is the argument of its constructor. *)
Inductive Msg :=
| MsgQuantityPositive            (* "La quantité doit être positive" *)
| MsgMedicamentNotFound          (* "Médicament non trouvé" *)
| MsgMedicamentUnavailable       (* "Ce médicament n'est plus disponible" *)
| MsgStockInsufficient (available : Z)
                                 (* "Stock insuffisant. Disponible: {n}" *)
| MsgAddedToCart (name : string) (* "{name} ajouté au panier" *)
| MsgRemovedFromCart (name : string)
| MsgItemNotInCart               (* "Article non trouvé dans le panier" *)
| MsgQuantityUpdated             (* "Quantité mise à jour" *)
| MsgClientNotFound              (* "Client non trouvé" *)
| MsgClientDisabled              (* "Ce client est désactivé" *)
| MsgClientAttached
| MsgStockAdded (new_stock : Z)  (* "Stock ajouté. Nouveau stock: {n}" *)
| MsgStockRemoved (new_stock : Z)
| MsgStockUpdateError            (* "Erreur lors de la mise à jour du stock" *)
| MsgNegativeQuantity            (* "La quantité ne peut pas être négative" *)
| MsgStockAlreadyAtValue
| MsgStockAdjusted (new_stock : Z)
| MsgAdjustError
| MsgPointsAdded (points total : Z)
| MsgPointsAddError
| MsgNoPointEarned               (* "Aucun point gagné" *)
| MsgPointsPositive              (* "Le nombre de points doit être positif" *)
| MsgPointsInsufficient (available : Z)
                                 (* "Points insuffisants. Disponible: {n}" *)
| MsgPointsUsed (points : Z)
| MsgPointsUseError
| MsgCartEmpty                   (* "Le panier est vide" *)
| MsgNotConnected                (* "Utilisateur non connecté" *)
| MsgStockInsufficientFor (name : string)
                                 (* "Stock insuffisant pour {name}" *)
| MsgSaleRecorded (n : SaleNumber)
                                 (* "Vente {n} enregistrée" *)
| MsgValidationError             (* "Erreur lors de la validation: {e}" *)
| MsgSaleNotFound                (* "Vente non trouvée" *)
| MsgAlreadyCancelled            (* "Cette vente est déjà annulée" *)
| MsgSaleCancelled               (* "Vente annulée avec succès" *)
| MsgCancelError.                (* "Erreur lors de l'annulation" *)

(** ** Repositories *)

(** [MedicamentRepository.get_by_id]. *)
Definition medicament_get_by_id (w : World) (medicament_id : Z)
  : option Medicament :=
  medicaments (db w) !! medicament_id.

(** [MedicamentRepository.update_stock]:
    [UPDATE medicaments SET quantity_in_stock = quantity_in_stock + ?
     WHERE id = ? AND (quantity_in_stock + ?) >= 0], then [rowcount > 0].
    Quantities are in [Z]: this is the UPDATE as long as the sum stays below
    2^63; from there on SQLite leaves 64-bit integers and stores a REAL. *)
Definition update_stock (w : World) (medicament_id quantity_change : Z)
  : World * bool :=
  match medicaments (db w) !! medicament_id with
  | Some m =>
      if 0 <=? quantity_in_stock m + quantity_change then
        (with_db w (with_medicaments (db w)
           (<[medicament_id :=
                set_quantity m (quantity_in_stock m + quantity_change)]>
              (medicaments (db w)))), true)
      else (w, false)
  | None => (w, false)
  end.

(** [MedicamentRepository.update], restricted to the column the stock
    service writes through it. *)
Definition medicament_update (w : World) (medicament_id : Z) (m : Medicament)
  : World * bool :=
  match medicaments (db w) !! medicament_id with
  | Some _ =>
      (with_db w (with_medicaments (db w)
         (<[medicament_id := m]> (medicaments (db w)))), true)
  | None => (w, false)
  end.

(** [StockMovementRepository.create]: the ledger is appended to. *)
Definition movement_create (w : World) (mv : StockMovement) : World :=
  with_db w (with_stock_movements (db w) (stock_movements (db w) ++ [mv])).

(** [ClientRepository.get_by_id]. *)
Definition client_get_by_id (w : World) (client_id : Z) : option Client :=
  clients (db w) !! client_id.

(** [ClientRepository.update_loyalty_points]:
    [UPDATE clients SET loyalty_points = loyalty_points + ?
     WHERE id = ? AND (loyalty_points + ?) >= 0]. *)
Definition update_loyalty_points (w : World) (client_id points_change : Z)
  : World * bool :=
  match clients (db w) !! client_id with
  | Some c =>
      if 0 <=? loyalty_points c + points_change then
        (with_db w (with_clients (db w)
           (<[client_id :=
                set_loyalty_points c (loyalty_points c + points_change)]>
              (clients (db w)))), true)
      else (w, false)
  | None => (w, false)
  end.

(** [ClientRepository.update_total_spent]. *)
Definition update_total_spent (w : World) (client_id : Z) (amount : Q)
  : World * bool :=
  match clients (db w) !! client_id with
  | Some c =>
      (with_db w (with_clients (db w)
         (<[client_id := set_total_spent c (total_spent c + amount)%Q]>
            (clients (db w)))), true)
  | None => (w, false)
  end.

(** [LoyaltyTierRepository.get_tier_for_points]:
    [WHERE is_active = 1 AND min_points <= ? ORDER BY min_points DESC
     LIMIT 1].  Among rows of equal [min_points] SQL leaves the choice open;
    the first one in table order is taken. *)
Definition better_tier (points : Z) (best : option LoyaltyTier)
  (t : LoyaltyTier) : option LoyaltyTier :=
  if tier_is_active t && (min_points t <=? points) then
    match best with
    | Some b => if min_points b <? min_points t then Some t else Some b
    | None => Some t
    end
  else best.

Definition get_tier_for_points (w : World) (points : Z) : option LoyaltyTier :=
  fold_left (better_tier points) (loyalty_tiers (db w)) None.

(** The largest key of a table; [0] for an empty one. *)
Definition max_key {A} (m : gmap Z A) : Z :=
  foldr Z.max 0 (map_to_list m).*1.

(** [SaleRepository.generate_sale_number]:
    [SELECT MAX(seq) FROM sales WHERE sale_number LIKE 'VNT-<today>-%'],
    then one more than that maximum, or [1] when it is null or zero. *)
Definition max_seq_of_day (w : World) : option Z :=
  foldr (fun x acc => Some (match acc with Some a => Z.max x a | None => x end))
    None
    (omap (fun kv : Z * Sale =>
             if sn_date (sale_number kv.2) =? today w
             then Some (sn_seq (sale_number kv.2)) else None)
          (map_to_list (sales (db w)))).

Definition generate_sale_number (w : World) : SaleNumber :=
  {| sn_date := today w;
     sn_seq := match max_seq_of_day w with
               | Some n => if n =? 0 then 1 else n + 1
               | None => 1
               end |}.

(** [SaleRepository.create]: the header and its lines are inserted and the
    row id of the insertion becomes the sale's id. *)
Definition sale_create (w : World) (s : Sale) : World * Z :=
  let new_id := max_key (sales (db w)) + 1 in
  (with_db w (with_sales (db w) (<[new_id := s]> (sales (db w)))), new_id).

(** [SaleRepository.get_lines]: the lines of a sale whose medicine row
    exists ([INNER JOIN medicaments]). *)
Definition get_lines (w : World) (s : Sale) : list SaleLine :=
  filter (fun l => is_Some (medicaments (db w) !! line_medicament_id l))
         (lines s).

(** [SaleRepository.get_by_id]: the sale row, when the row of its seller
    exists ([INNER JOIN users]), with its lines. *)
Definition sale_get_by_id (w : World) (sale_id : Z) : option Sale :=
  match sales (db w) !! sale_id with
  | Some s =>
      match users (db w) !! sale_user_id s with
      | Some _ =>
          Some {| sale_number := sale_number s;
                  sale_user_id := sale_user_id s;
                  sale_client_id := sale_client_id s;
                  sale_date := sale_date s;
                  sale_subtotal := sale_subtotal s;
                  sale_discount_percentage := sale_discount_percentage s;
                  sale_discount_amount := sale_discount_amount s;
                  sale_total := sale_total s;
                  loyalty_points_earned := loyalty_points_earned s;
                  loyalty_points_used := loyalty_points_used s;
                  status := status s;
                  lines := get_lines w s |}
      | None => None
      end
  | None => None
  end.

(** [SaleRepository.cancel]:
    [UPDATE sales SET status = 'cancelled' WHERE id = ?]. *)
Definition sale_cancel (w : World) (sale_id : Z) : World * bool :=
  match sales (db w) !! sale_id with
  | Some s =>
      (with_db w (with_sales (db w)
         (<[sale_id := set_status s cancelled]> (sales (db w)))), true)
  | None => (w, false)
  end.

(** ** Stock service ([services/stock_service.py]) *)

(** [StockService._record_movement]: the acting user is the current user,
    or user 1 when nobody is logged in.  The [StockMovement] constructor
    rejects a null quantity; every caller below passes a non-null one. *)
Definition record_movement (w : World) (medicament_id : Z)
  (movement_type : MovementType) (quantity : Z) (reason : Reason)
  (reference_id : option Z) : World :=
  let uid := match current_user w with Some u => user_id u | None => 1 end in
  movement_create w
    {| mv_medicament_id := medicament_id; mv_user_id := uid;
       mv_type := movement_type; mv_quantity := quantity;
       mv_reference_id := reference_id; mv_reason := reason |}.

(** [StockService.add_stock]. *)
Definition add_stock (w : World) (medicament_id quantity : Z) (reason : Reason)
  : World * (bool * Msg) :=
  if quantity <=? 0 then (w, (false, MsgQuantityPositive))
  else
    match medicament_get_by_id w medicament_id with
    | None => (w, (false, MsgMedicamentNotFound))
    | Some medicament =>
        let '(w1, success) := update_stock w medicament_id quantity in
        if success then
          (record_movement w1 medicament_id ENTRY quantity reason None,
           (true, MsgStockAdded (quantity_in_stock medicament + quantity)))
        else (w1, (false, MsgStockUpdateError))
    end.

(** [StockService.remove_stock]. *)
Definition remove_stock (w : World) (medicament_id quantity : Z)
  (reason : Reason) (reference_id : option Z) : World * (bool * Msg) :=
  if quantity <=? 0 then (w, (false, MsgQuantityPositive))
  else
    match medicament_get_by_id w medicament_id with
    | None => (w, (false, MsgMedicamentNotFound))
    | Some medicament =>
        if quantity_in_stock medicament <? quantity then
          (w, (false, MsgStockInsufficient (quantity_in_stock medicament)))
        else
          let '(w1, success) := update_stock w medicament_id (- quantity) in
          if success then
            (record_movement w1 medicament_id EXIT (- quantity) reason
               reference_id,
             (true, MsgStockRemoved (quantity_in_stock medicament - quantity)))
          else (w1, (false, MsgStockUpdateError))
    end.

(** [StockService.adjust_stock]. *)
Definition adjust_stock (w : World) (medicament_id new_quantity : Z)
  (reason : Reason) : World * (bool * Msg) :=
  if new_quantity <? 0 then (w, (false, MsgNegativeQuantity))
  else
    match medicament_get_by_id w medicament_id with
    | None => (w, (false, MsgMedicamentNotFound))
    | Some medicament =>
        let difference := new_quantity - quantity_in_stock medicament in
        if difference =? 0 then (w, (true, MsgStockAlreadyAtValue))
        else
          let '(w1, success) :=
            medicament_update w medicament_id
              (set_quantity medicament new_quantity) in
          if success then
            (record_movement w1 medicament_id ADJUSTMENT difference reason
               None,
             (true, MsgStockAdjusted new_quantity))
          else (w1, (false, MsgAdjustError))
    end.

(** [StockService.check_stock_availability]. *)
Definition check_stock_availability (w : World) (medicament_id quantity : Z)
  : bool * Z :=
  match medicament_get_by_id w medicament_id with
  | None => (false, 0)
  | Some medicament =>
      (quantity <=? quantity_in_stock medicament, quantity_in_stock medicament)
  end.

(** ** Loyalty service ([services/loyalty_service.py]) *)

(** [LoyaltyService.calculate_points_earned]:
    [int(amount // points_per_unit)] after the guard. *)
Definition calculate_points_earned (w : World) (amount : Q) : Z :=
  let ppu := points_per_unit (config w) in
  if Qle_bool amount 0 || (ppu <=? 0) then 0
  else Qfloor (amount / inject_Z ppu).

(** [LoyaltyService.get_client_tier], for a client that is not [None]. *)
Definition get_client_tier (w : World) (client : Client)
  : option LoyaltyTier :=
  get_tier_for_points w (loyalty_points client).

(** [LoyaltyService.get_client_discount]. *)
Definition get_client_discount (w : World) (client : Client) : Q :=
  match get_client_tier w client with
  | None => 0%Q
  | Some tier => discount_percentage tier
  end.

(** [LoyaltyService.apply_discount]; the result is
    [(final_amount, discount_percentage, discount_amount)].  The two
    roundings are the built-in [round(x, 2)], not [round_currency]. *)
Definition apply_discount (w : World) (amount : Q) (client : option Client)
  : Q * Q * Q :=
  match client with
  | None => (amount, 0%Q, 0%Q)
  | Some c =>
      if Qle_bool amount 0 then (amount, 0%Q, 0%Q)
      else
        let discount_percentage := get_client_discount w c in
        if Qle_bool discount_percentage 0 then (amount, 0%Q, 0%Q)
        else
          let discount_amount := (amount * (discount_percentage / 100))%Q in
          let final_amount := (amount - discount_amount)%Q in
          (py_round2 final_amount, discount_percentage,
           py_round2 discount_amount)
  end.

(** [LoyaltyService.add_points_to_client]; the result is
    [(success, points_added, message)]. *)
Definition add_points_to_client (w : World) (client_id : Z) (amount : Q)
  : World * (bool * Z * Msg) :=
  match client_get_by_id w client_id with
  | None => (w, (false, 0, MsgClientNotFound))
  | Some client =>
      let points := calculate_points_earned w amount in
      if 0 <? points then
        let '(w1, success) := update_loyalty_points w client_id points in
        if success then
          (w1, (true, points,
                MsgPointsAdded points (loyalty_points client + points)))
        else (w1, (false, 0, MsgPointsAddError))
      else (w, (true, 0, MsgNoPointEarned))
  end.

(** [LoyaltyService.use_client_points]. *)
Definition use_client_points (w : World) (client_id points : Z)
  : World * (bool * Msg) :=
  if points <=? 0 then (w, (false, MsgPointsPositive))
  else
    match client_get_by_id w client_id with
    | None => (w, (false, MsgClientNotFound))
    | Some client =>
        if loyalty_points client <? points then
          (w, (false, MsgPointsInsufficient (loyalty_points client)))
        else
          let '(w1, success) := update_loyalty_points w client_id (- points) in
          if success then (w1, (true, MsgPointsUsed points))
          else (w1, (false, MsgPointsUseError))
    end.

(** ** Sale service ([services/sale_service.py]) *)

(** The loop [for item in self._cart.items: if item.medicament.id == id:
    ...; break]: the first line of the cart for that medicine. *)
Definition find_item (medicament_id : Z) (its : list CartItem)
  : option CartItem :=
  List.find (fun it => item_medicament_id it =? medicament_id) its.

(** [current_in_cart] of [add_to_cart]: the quantity of that line, [0]
    when the medicine is not in the cart. *)
Definition quantity_in_cart (medicament_id : Z) (its : list CartItem) : Z :=
  match find_item medicament_id its with
  | Some it => item_quantity it
  | None => 0
  end.

(** The in-place update of the first line for that medicine. *)
Fixpoint update_first (medicament_id : Z) (f : CartItem -> CartItem)
  (its : list CartItem) : list CartItem :=
  match its with
  | [] => []
  | it :: rest =>
      if item_medicament_id it =? medicament_id then f it :: rest
      else it :: update_first medicament_id f rest
  end.

(** [self._cart.items.pop(i)] for the first line for that medicine. *)
Fixpoint remove_first (medicament_id : Z) (its : list CartItem)
  : list CartItem :=
  match its with
  | [] => []
  | it :: rest =>
      if item_medicament_id it =? medicament_id then rest
      else it :: remove_first medicament_id rest
  end.

Definition with_items (c : Cart) (its : list CartItem) : Cart :=
  {| items := its; cart_client := cart_client c |}.

(** [SaleService.new_cart]. *)
Definition new_cart (w : World) : World := with_cart w empty_cart.

(** [SaleService.add_to_cart]. *)
Definition add_to_cart (w : World) (medicament_id quantity : Z)
  : World * (bool * Msg) :=
  if quantity <=? 0 then (w, (false, MsgQuantityPositive))
  else
    match medicament_get_by_id w medicament_id with
    | None => (w, (false, MsgMedicamentNotFound))
    | Some medicament =>
        if negb (med_is_active medicament) then
          (w, (false, MsgMedicamentUnavailable))
        else
          let existing_item := find_item medicament_id (items (cart w)) in
          let current_in_cart :=
            quantity_in_cart medicament_id (items (cart w)) in
          let total_needed := current_in_cart + quantity in
          if quantity_in_stock medicament <? total_needed then
            let available := quantity_in_stock medicament - current_in_cart in
            (w, (false, MsgStockInsufficient (Z.max 0 available)))
          else
            let its :=
              match existing_item with
              | Some _ =>
                  update_first medicament_id
                    (fun it => set_item_quantity it (item_quantity it + quantity))
                    (items (cart w))
              | None =>
                  items (cart w) ++
                  [{| item_medicament_id := medicament_id;
                      item_medicament := medicament;
                      item_quantity := quantity;
                      item_unit_price := selling_price medicament |}]
              end in
            (with_cart w (with_items (cart w) its),
             (true, MsgAddedToCart (med_name medicament)))
    end.

(** [SaleService.remove_from_cart]. *)
Definition remove_from_cart (w : World) (medicament_id : Z)
  : World * (bool * Msg) :=
  match find_item medicament_id (items (cart w)) with
  | Some removed =>
      (with_cart w (with_items (cart w)
         (remove_first medicament_id (items (cart w)))),
       (true, MsgRemovedFromCart (med_name (item_medicament removed))))
  | None => (w, (false, MsgItemNotInCart))
  end.

(** [SaleService.update_cart_quantity]: the stock compared with is the one
    remembered by the line, not the live one. *)
Definition update_cart_quantity (w : World) (medicament_id quantity : Z)
  : World * (bool * Msg) :=
  if quantity <=? 0 then remove_from_cart w medicament_id
  else
    match find_item medicament_id (items (cart w)) with
    | Some it =>
        if quantity_in_stock (item_medicament it) <? quantity then
          (w, (false,
               MsgStockInsufficient (quantity_in_stock (item_medicament it))))
        else
          (with_cart w (with_items (cart w)
             (update_first medicament_id
                (fun it => set_item_quantity it quantity) (items (cart w)))),
           (true, MsgQuantityUpdated))
    | None => (w, (false, MsgItemNotInCart))
    end.

(** [SaleService.set_client]. *)
Definition set_client (w : World) (client_id : Z) : World * (bool * Msg) :=
  match client_get_by_id w client_id with
  | None => (w, (false, MsgClientNotFound))
  | Some client =>
      if negb (client_is_active client) then (w, (false, MsgClientDisabled))
      else
        (with_cart w {| items := items (cart w);
                        cart_client := Some (client_id, client) |},
         (true, MsgClientAttached))
  end.

(** [SaleService.remove_client]. *)
Definition remove_client (w : World) : World :=
  with_cart w {| items := items (cart w); cart_client := None |}.

(** The dictionary returned by [SaleService.calculate_totals]. *)
Record Totals := mkTotals {
  t_subtotal : Q;
  t_discount_percentage : Q;
  t_discount_amount : Q;
  t_total : Q;
  t_points_earned : Z;
  t_items_count : Z
}.

(** [SaleService.calculate_totals]. *)
Definition calculate_totals (w : World) : Totals :=
  let subtotal := subtotal (cart w) in
  match cart_client (cart w) with
  | Some (_, client) =>
      let '(final, discount_percentage, discount_amount) :=
        apply_discount w subtotal (Some client) in
      {| t_subtotal := subtotal;
         t_discount_percentage := discount_percentage;
         t_discount_amount := discount_amount;
         t_total := round_currency final;
         t_points_earned := calculate_points_earned w final;
         t_items_count := items_count (cart w) |}
  | None =>
      {| t_subtotal := subtotal;
         t_discount_percentage := 0%Q;
         t_discount_amount := 0%Q;
         t_total := round_currency subtotal;
         t_points_earned := 0;
         t_items_count := items_count (cart w) |}
  end.

(** The re-check of [validate_sale]: the first line of the cart that the
    live stock does not cover. *)
Definition first_unavailable (w : World) : option CartItem :=
  List.find
    (fun it =>
       negb (check_stock_availability w (item_medicament_id it)
               (item_quantity it)).1)
    (items (cart w)).

(** [Sale.__post_init__]: the checks that raise [ValueError]. *)
Definition sale_valid (s : Sale) : bool :=
  (0 <? sale_user_id s) && Qle_bool 0 (sale_subtotal s)
  && Qle_bool 0 (sale_total s).

(** [SaleLine.__post_init__]. *)
Definition sale_line_valid (l : SaleLine) : bool :=
  (0 <? line_quantity l) && Qle_bool 0 (line_unit_price l)
  && Qle_bool 0 (line_line_total l).

Definition line_of_item (it : CartItem) : SaleLine :=
  {| line_medicament_id := item_medicament_id it;
     line_quantity := item_quantity it;
     line_unit_price := item_unit_price it;
     line_line_total := line_total it |}.

(** The construction of the [Sale] and of its lines inside the [try] of
    [validate_sale]; [None] when a constructor raises. *)
Definition build_sale (w : World) (current : User) (totals : Totals)
  : option Sale :=
  let header :=
    {| sale_number := generate_sale_number w;
       sale_user_id := user_id current;
       sale_client_id := fst <$> cart_client (cart w);
       sale_date := today w;
       sale_subtotal := t_subtotal totals;
       sale_discount_percentage := t_discount_percentage totals;
       sale_discount_amount := t_discount_amount totals;
       sale_total := t_total totals;
       loyalty_points_earned := t_points_earned totals;
       loyalty_points_used := 0;
       status := completed;
       lines := List.map line_of_item (items (cart w)) |} in
  if sale_valid header && forallb sale_line_valid (lines header)
  then Some header else None.

(** The loop "Mettre à jour les stocks" of [validate_sale]: the result of
    each [remove_stock] is dropped. *)
Definition commit_stock (w : World) (sale_id : Z) : World :=
  fold_left
    (fun acc it =>
       (remove_stock acc (item_medicament_id it) (item_quantity it)
          ReasonVente (Some sale_id)).1)
    (items (cart w)) w.

(** The block "Mettre à jour le client si associé" of [validate_sale]. *)
Definition update_client_after_sale (w : World) (totals : Totals) : World :=
  match cart_client (cart w) with
  | Some (client_id, _) =>
      let w1 := (add_points_to_client w client_id (t_total totals)).1 in
      (update_total_spent w1 client_id (t_total totals)).1
  | None => w
  end.

(** The part of [validate_sale] that follows [self._sale_repo.create]:
    stock, customer, cart, result. *)
Definition finish_sale (w : World) (totals : Totals) (sale_id : Z)
  (created_sale : Sale) : World * (bool * Msg * option (Z * Sale)) :=
  let w1 := commit_stock w sale_id in
  let w2 := update_client_after_sale w1 totals in
  (with_cart w2 empty_cart,
   (true, MsgSaleRecorded (sale_number created_sale),
    Some (sale_id, created_sale))).

(** [SaleService.validate_sale]. *)
Definition validate_sale (w : World)
  : World * (bool * Msg * option (Z * Sale)) :=
  if is_empty (cart w) then (w, (false, MsgCartEmpty, None))
  else
    match current_user w with
    | None => (w, (false, MsgNotConnected, None))
    | Some current =>
        match first_unavailable w with
        | Some it =>
            (w, (false,
                 MsgStockInsufficientFor (med_name (item_medicament it)),
                 None))
        | None =>
            let totals := calculate_totals w in
            match build_sale w current totals with
            | None => (w, (false, MsgValidationError, None))
            | Some sale =>
                let '(w1, sale_id) := sale_create w sale in
                finish_sale w1 totals sale_id sale
            end
        end
    end.

(** The loop "Remettre le stock" of [cancel_sale]. *)
Definition restock (w : World) (sale : Sale) : World :=
  fold_left
    (fun acc l =>
       (add_stock acc (line_medicament_id l) (line_quantity l)
          (ReasonAnnulation (sale_number sale))).1)
    (lines sale) w.

(** The block "Retirer les points si client associé" of [cancel_sale];
    [sale.client_id] is tested for truth, so [None] and [0] both skip it. *)
Definition take_back_points (w : World) (sale : Sale) : World :=
  match sale_client_id sale with
  | Some client_id =>
      if negb (client_id =? 0) && (0 <? loyalty_points_earned sale) then
        (use_client_points w client_id (loyalty_points_earned sale)).1
      else w
  | None => w
  end.

(** [SaleService.cancel_sale]. *)
Definition cancel_sale (w : World) (sale_id : Z) : World * (bool * Msg) :=
  match sale_get_by_id w sale_id with
  | None => (w, (false, MsgSaleNotFound))
  | Some sale =>
      match status sale with
      | cancelled => (w, (false, MsgAlreadyCancelled))
      | completed =>
          let '(w1, success) := sale_cancel w sale_id in
          if success then
            (take_back_points (restock w1 sale) sale, (true, MsgSaleCancelled))
          else (w1, (false, MsgCancelError))
      end
  end.

(** [ClientRepository.update], restricted to the row it overwrites: the
    customer form saves the whole row, points included. *)
Definition client_update (w : World) (client_id : Z) (c : Client)
  : World * bool :=
  match clients (db w) !! client_id with
  | Some _ =>
      (with_db w (with_clients (db w) (<[client_id := c]> (clients (db w)))),
       true)
  | None => (w, false)
  end.

(** ** Vocabulary of the properties *)

Definition meds (w : World) : gmap Z Medicament := medicaments (db w).

(** The world after the stock of medicine [i], whose row is [m], is set to
    [q]. *)
Definition stock_set (w : World) (i : Z) (m : Medicament) (q : Z) : World :=
  with_db w (with_medicaments (db w) (<[i := set_quantity m q]> (meds w))).

(** What the stock operations leave alone. *)
Definition untouched_by_stock (w w' : World) : Prop :=
  clients (db w') = clients (db w) /\ users (db w') = users (db w) /\
  sales (db w') = sales (db w) /\ loyalty_tiers (db w') = loyalty_tiers (db w) /\
  cart w' = cart w /\ current_user w' = current_user w /\
  today w' = today w /\ config w' = config w.

(** What the customer operations leave alone. *)
Definition untouched_by_loyalty (w w' : World) : Prop :=
  meds w' = meds w /\ users (db w') = users (db w) /\
  sales (db w') = sales (db w) /\
  stock_movements (db w') = stock_movements (db w) /\
  cart w' = cart w /\ current_user w' = current_user w /\
  config w' = config w.

(** The medicines of the lines of a cart, in order. *)
Definition cart_ids (c : Cart) : list Z :=
  List.map item_medicament_id (items c).

(** The first element of a list filed under key [i]. *)
Definition find_key {X : Type} (key : X -> Z) (i : Z) (xs : list X)
  : option X :=
  List.find (fun x => key x =? i) xs.

Definition find_line (i : Z) (ls : list SaleLine) : option SaleLine :=
  List.find (fun l => line_medicament_id l =? i) ls.

(** No medicine has a negative quantity in stock. *)
Definition stock_nonneg (w : World) : Prop :=
  forall i m, medicaments (db w) !! i = Some m -> 0 <= quantity_in_stock m.

(** The three refusals of [validate_sale] that come from its checks. *)
Definition validation_failure (msg : Msg) : Prop :=
  msg = MsgCartEmpty \/ msg = MsgNotConnected \/
  exists name, msg = MsgStockInsufficientFor name.

(** ** A small pharmacy

    The concrete states on which the properties are exercised. *)

Definition pharmacy_tiers : list LoyaltyTier :=
  [ {| tier_name := "Bronze"; min_points := 0;
       discount_percentage := 0%Q; tier_is_active := true |};
    {| tier_name := "Argent"; min_points := 200;
       discount_percentage := 5%Q; tier_is_active := true |};
    {| tier_name := "Or"; min_points := 500;
       discount_percentage := 8%Q; tier_is_active := true |};
    {| tier_name := "Platine"; min_points := 1000;
       discount_percentage := 50%Q; tier_is_active := true |} ].

Definition para500 : Medicament :=
  {| med_name := "PARA500"; selling_price := 1000%Q;
     quantity_in_stock := 20; med_is_active := true |}.

Definition gold_client : Client :=
  {| loyalty_points := 600; total_spent := 0%Q; client_is_active := true |}.

Definition pharmacy_db : Db :=
  {| medicaments :=
       {[ 1 := para500;
          2 := {| med_name := "PASTILLE"; selling_price := (1 # 4)%Q;
                  quantity_in_stock := 10; med_is_active := true |};
          3 := {| med_name := "AMOX250"; selling_price := 500%Q;
                  quantity_in_stock := 1; med_is_active := true |} ]};
     clients :=
       {[ 1 := gold_client;
          2 := {| loyalty_points := 1200; total_spent := 0%Q;
                  client_is_active := true |} ]};
     users := {[ 1 := {| user_id := 1 |} ]};
     loyalty_tiers := pharmacy_tiers;
     sales := ∅;
     stock_movements := [] |}.

(** The till at opening: user 1 logged in, empty cart. *)
Definition opening_world : World :=
  {| db := pharmacy_db; cart := empty_cart;
     current_user := Some {| user_id := 1 |};
     today := 20250115; config := LOYALTY_CONFIG |}.

(** One PARA500 in the cart, no customer. *)
Definition anonymous_world : World := (add_to_cart opening_world 1 1).1.

(** One PARA500 in the cart, for the customer with 600 points (tier "Or"). *)
Definition gold_world : World := (set_client anonymous_world 1).1.

(** The sale that [validate_sale] records in [gold_world]. *)
Definition gold_sale : Sale :=
  {| sale_number := {| sn_date := 20250115; sn_seq := 1 |};
     sale_user_id := 1;
     sale_client_id := Some 1;
     sale_date := 20250115;
     sale_subtotal := (100000 # 100)%Q;
     sale_discount_percentage := 8%Q;
     sale_discount_amount := (8000 # 100)%Q;
     sale_total := (92000 # 100)%Q;
     loyalty_points_earned := 92;
     loyalty_points_used := 0;
     status := completed;
     lines := [ {| line_medicament_id := 1; line_quantity := 1;
                   line_unit_price := 1000%Q;
                   line_line_total := (100000 # 100)%Q |} ] |}.

(** [gold_world] after its sale is committed. *)
Definition sold_world : World := (validate_sale gold_world).1.

(** After the sale, the customer form is saved with a balance of 5 points. *)
Definition spent_client : Client :=
  {| loyalty_points := 5; total_spent := (92000 # 100)%Q;
     client_is_active := true |}.

Definition spent_world : World := (client_update sold_world 1 spent_client).1.

(** [sold_world] after its sale is cancelled. *)
Definition cancelled_world : World := (cancel_sale sold_world 1).1.

(** One PASTILLE at 0.25 in the cart, for the customer with 1200 points
    (tier "Platine", 50%). *)
Definition quarter_world : World :=
  (set_client (add_to_cart opening_world 2 1).1 2).1.

(** Ten PASTILLE in the cart, then an inventory adjustment that brings the
    stock of PASTILLE down to 3. *)
Definition adjusted_world : World :=
  (adjust_stock (add_to_cart opening_world 2 10).1 2 3
     (ReasonText "Ajustement inventaire")).1.

(** The last AMOX250 in the cart. *)
Definition last_unit_world : World := (add_to_cart opening_world 3 1).1.

(** Without a logged-in user. *)
Definition logged_out_world : World :=
  {| db := db anonymous_world; cart := cart anonymous_world;
     current_user := None; today := today anonymous_world;
     config := config anonymous_world |}.

(** ** Further operations of the same files *)

Definition set_med_active (m : Medicament) (b : bool) : Medicament :=
  {| med_name := med_name m; selling_price := selling_price m;
     quantity_in_stock := quantity_in_stock m; med_is_active := b |}.

Definition set_client_active (c : Client) (b : bool) : Client :=
  {| loyalty_points := loyalty_points c; total_spent := total_spent c;
     client_is_active := b |}.

(** [MedicamentRepository.delete]:
    [UPDATE medicaments SET is_active = 0 WHERE id = ?]. *)
Definition medicament_delete (w : World) (medicament_id : Z) : World * bool :=
  match medicaments (db w) !! medicament_id with
  | Some m =>
      (with_db w (with_medicaments (db w)
         (<[medicament_id := set_med_active m false]> (medicaments (db w)))),
       true)
  | None => (w, false)
  end.

(** The messages of [StockService.delete_medicament]. *)
Inductive DeleteMsg :=
| MsgDeleteNotFound              (* "Médicament non trouvé" *)
| MsgDeleted                     (* "Médicament supprimé avec succès" *)
| MsgDeleteError.                (* "Erreur lors de la suppression" *)

(** [StockService.delete_medicament]. *)
Definition delete_medicament (w : World) (medicament_id : Z)
  : World * (bool * DeleteMsg) :=
  match medicament_get_by_id w medicament_id with
  | None => (w, (false, MsgDeleteNotFound))
  | Some _ =>
      let '(w1, success) := medicament_delete w medicament_id in
      if success then (w1, (true, MsgDeleted))
      else (w1, (false, MsgDeleteError))
  end.

(** [ClientRepository.delete]:
    [UPDATE clients SET is_active = 0 WHERE id = ?]. *)
Definition client_delete (w : World) (client_id : Z) : World * bool :=
  match clients (db w) !! client_id with
  | Some c =>
      (with_db w (with_clients (db w)
         (<[client_id := set_client_active c false]> (clients (db w)))),
       true)
  | None => (w, false)
  end.

(** [ORDER BY min_points]: insertion of a row before the first row whose
    threshold is not smaller, so rows of equal threshold keep the order of
    the table. *)
Fixpoint insert_tier (t : LoyaltyTier) (l : list LoyaltyTier)
  : list LoyaltyTier :=
  match l with
  | [] => [t]
  | x :: rest =>
      if min_points t <=? min_points x then t :: x :: rest
      else x :: insert_tier t rest
  end.

Definition sort_tiers (l : list LoyaltyTier) : list LoyaltyTier :=
  foldr insert_tier [] l.

(** [LoyaltyTierRepository.get_all]:
    [SELECT * FROM loyalty_tiers WHERE is_active = 1 ORDER BY min_points]. *)
Definition tier_get_all (w : World) : list LoyaltyTier :=
  sort_tiers (List.filter tier_is_active (loyalty_tiers (db w))).

(** [LoyaltyService.get_next_tier]. *)
Definition get_next_tier (w : World) (client : option Client)
  : option LoyaltyTier * Z :=
  match client with
  | None => (None, 0)
  | Some c =>
      let current_points := loyalty_points c in
      match List.find (fun tier => current_points <? min_points tier)
              (tier_get_all w) with
      | Some tier => (Some tier, min_points tier - current_points)
      | None => (None, 0)
      end
  end.

(** [SaleRepository.get_daily_count]:
    [SELECT COUNT( * ) FROM sales WHERE DATE(sale_date) = ? AND
     status = 'completed']. *)
Definition counted_on (target_date : Z) (kv : Z * Sale) : Prop :=
  Is_true ((sale_date kv.2 =? target_date)
           && match status kv.2 with completed => true | cancelled => false end).

Definition get_daily_count (w : World) (target_date : Z) : Z :=
  Z.of_nat (size (filter (counted_on target_date) (sales (db w)))).

(** [Sale.get_items_count]. *)
Definition get_items_count (s : Sale) : Z :=
  fold_left (fun acc l => acc + line_quantity l) (lines s) 0.

(** ** Further vocabulary *)

(** The user recorded on a stock movement. *)
Definition acting_user (w : World) : Z :=
  match current_user w with Some u => user_id u | None => 1 end.

(** The sign convention of the ledger: entries are positive, exits are
    negative, adjustments are not null. *)
Definition movement_well_formed (mv : StockMovement) : Prop :=
  match mv_type mv with
  | ENTRY => 0 < mv_quantity mv
  | EXIT => mv_quantity mv < 0
  | ADJUSTMENT => mv_quantity mv <> 0
  end.

Definition ledger (w : World) : list StockMovement := stock_movements (db w).

(** The sum of the movements of the ledger for one medicine. *)
Definition ledger_sum (i : Z) (l : list StockMovement) : Z :=
  foldr (fun mv acc =>
           (if mv_medicament_id mv =? i then mv_quantity mv else 0) + acc)
        0 l.

(** The quantity in stock of a medicine, [0] for a medicine that is not in
    the catalogue. *)
Definition stock_of (w : World) (i : Z) : Z :=
  match medicaments (db w) !! i with
  | Some m => quantity_in_stock m
  | None => 0
  end.

(** The part of the stock of a medicine that the ledger does not explain. *)
Definition unaccounted (w : World) (i : Z) : Z :=
  stock_of w i - ledger_sum i (ledger w).

(** No customer has a negative balance of points. *)
Definition points_nonneg (w : World) : Prop :=
  forall i c, clients (db w) !! i = Some c -> 0 <= loyalty_points c.

(** Every line of the cart has a quantity of at least one. *)
Definition cart_quantities_positive (c : Cart) : Prop :=
  forall it, In it (items c) -> 0 < item_quantity it.

(** The movement recorded by the commit for a line of the cart. *)
Definition exit_of_item (uid sale_id : Z) (it : CartItem) : StockMovement :=
  {| mv_medicament_id := item_medicament_id it; mv_user_id := uid;
     mv_type := EXIT; mv_quantity := - item_quantity it;
     mv_reference_id := Some sale_id; mv_reason := ReasonVente |}.


(** The exact amount of a cart: the sum of quantity times unit price. *)
Definition exact_amount (its : list CartItem) : Q :=
  fold_left (fun acc it => (acc + inject_Z (item_quantity it)
                                   * item_unit_price it)%Q) its 0%Q.

(** A unit price with at most two decimals. *)
Definition whole_cents (x : Q) : Prop := exists n : Z, (x == n # 100)%Q.

(** The thresholds of a list of tiers never decrease. *)
Fixpoint ascending_thresholds (l : list LoyaltyTier) : Prop :=
  match l with
  | [] => True
  | x :: rest =>
      (forall y, In y rest -> min_points x <= min_points y) /\
      ascending_thresholds rest
  end.

(** An active tier whose threshold the points reach. *)
Definition qualifies (points : Z) (t : LoyaltyTier) : Prop :=
  tier_is_active t = true /\ min_points t <= points.

Definition or_tier : LoyaltyTier :=
  {| tier_name := "Or"; min_points := 500;
     discount_percentage := 8%Q; tier_is_active := true |}.

Definition argent_tier : LoyaltyTier :=
  {| tier_name := "Argent"; min_points := 200;
     discount_percentage := 5%Q; tier_is_active := true |}.

Definition platine_tier : LoyaltyTier :=
  {| tier_name := "Platine"; min_points := 1000;
     discount_percentage := 50%Q; tier_is_active := true |}.

(** A cart as the cart operations build it: one line per medicine, each
    with a quantity of at least one. *)
Definition cart_well_formed (c : Cart) : Prop :=
  NoDup (cart_ids c) /\ cart_quantities_positive c.

(** The ledger of [w'] is the ledger of [w] followed by movements that
    respect the sign convention. *)
Definition ledger_extends (w w' : World) : Prop :=
  exists added, ledger w' = ledger w ++ added /\
                Forall movement_well_formed added.

(** * Properties *)

(** ** Rounding *)

Lemma Qfloor_unique (z : Q) (k : Z) :
  (inject_Z k <= z)%Q -> (z < inject_Z k + 1)%Q -> Qfloor z = k.
Proof.
  intros Hlo Hhi.
  pose proof (Qfloor_le z) as Hf1.
  pose proof (Qlt_floor z) as Hf2.
  rewrite inject_Z_plus in Hf2.
  assert (H1 : (inject_Z (Qfloor z) < inject_Z (k + 1))%Q)
    by (rewrite inject_Z_plus; change (inject_Z 1) with 1%Q; lra).
  assert (H2 : (inject_Z k < inject_Z (Qfloor z + 1))%Q)
    by (rewrite inject_Z_plus; change (inject_Z 1) with 1%Q in *; lra).
  rewrite <- Zlt_Qlt in H1, H2. lia.
Qed.

Lemma cents_times_100 (n : Z) : ((n # 100) * 100 == inject_Z n)%Q.
Proof. unfold Qeq, Qmult, inject_Z; simpl. lia. Qed.

Lemma half_up_cents_cents (n : Z) : half_up_cents (n # 100) = n.
Proof.
  unfold half_up_cents.
  destruct (Qle_bool 0 (n # 100)) eqn:E.
  - apply Qfloor_unique; rewrite cents_times_100; lra.
  - assert (Qfloor (- (n # 100) * 100 + (1 # 2)) = - n); [|lia].
    apply Qfloor_unique.
    + pose proof (cents_times_100 n). rewrite inject_Z_opp. lra.
    + pose proof (cents_times_100 n). rewrite inject_Z_opp. lra.
Qed.


Lemma round_currency_cents (n : Z) : round_currency (n # 100) = (n # 100)%Q.
Proof. unfold round_currency. now rewrite half_up_cents_cents. Qed.

Lemma subtotal_cents (c : Cart) : exists n, subtotal c = (n # 100)%Q.
Proof. unfold subtotal, round_currency. eauto. Qed.

Lemma apply_discount_cases (w : World) (amount : Q) (c : Client) :
  apply_discount w amount (Some c) = (amount, 0%Q, 0%Q)
  \/ ((0 < amount)%Q /\ (0 < get_client_discount w c)%Q /\
      apply_discount w amount (Some c)
      = (py_round2 (amount - amount * (get_client_discount w c / 100)),
         get_client_discount w c,
         py_round2 (amount * (get_client_discount w c / 100)))).
Proof.
  unfold apply_discount.
  destruct (Qle_bool amount 0) eqn:E1; [now left|].
  destruct (Qle_bool (get_client_discount w c) 0) eqn:E2; [now left|].
  right.
  assert (H1 : ~ (amount <= 0)%Q) by (rewrite <- Qle_bool_iff; congruence).
  assert (H2 : ~ (get_client_discount w c <= 0)%Q)
    by (rewrite <- Qle_bool_iff; congruence).
  repeat split; lra.
Qed.

(** ** Totals of a sale *)



(** A successful [validate_sale] went through every step. *)
Lemma validate_sale_success (w w' : World) (msg : Msg) (r : option (Z * Sale)) :
  validate_sale w = (w', (true, msg, r)) ->
  exists current sale,
    is_empty (cart w) = false /\
    current_user w = Some current /\
    first_unavailable w = None /\
    build_sale w current (calculate_totals w) = Some sale /\
    finish_sale (sale_create w sale).1 (calculate_totals w)
      (sale_create w sale).2 sale = (w', (true, msg, r)).
Proof.
  unfold validate_sale.
  destruct (is_empty (cart w)); [discriminate|].
  destruct (current_user w) as [u|]; [|discriminate].
  destruct (first_unavailable w); [discriminate|].
  destruct (build_sale w u (calculate_totals w)) as [s|] eqn:Hb;
    [|discriminate].
  destruct (sale_create w s) as [w1 sid] eqn:E.
  intros H. exists u, s. rewrite E. repeat split; auto.
Qed.

Lemma build_sale_fields (w : World) (u : User) (t : Totals) (s : Sale) :
  build_sale w u t = Some s ->
  sale_valid s = true /\
  forallb sale_line_valid (lines s) = true /\
  sale_subtotal s = t_subtotal t /\
  sale_discount_percentage s = t_discount_percentage t /\
  sale_discount_amount s = t_discount_amount t /\
  sale_total s = t_total t /\
  loyalty_points_earned s = t_points_earned t /\
  sale_client_id s = fst <$> cart_client (cart w) /\
  sale_user_id s = user_id u /\
  status s = completed /\
  lines s = List.map line_of_item (items (cart w)).
Proof.
  unfold build_sale.
  destruct (sale_valid _ && forallb _ _) eqn:E; [|discriminate].
  intros [= <-]. apply andb_true_iff in E as [E1 E2].
  simpl in *. repeat split; auto.
Qed.

Lemma finish_sale_result (w w' : World) (t : Totals) (sid : Z) (s : Sale)
  (ok : bool) (msg : Msg) (r : option (Z * Sale)) :
  finish_sale w t sid s = (w', (ok, msg, r)) ->
  ok = true /\ msg = MsgSaleRecorded (sale_number s) /\ r = Some (sid, s) /\
  w' = with_cart (update_client_after_sale (commit_stock w sid) t) empty_cart.
Proof. unfold finish_sale. intros [= <- <- <- <-]. auto. Qed.

(** ** Frames *)



Lemma untouched_by_stock_refl (w : World) : untouched_by_stock w w.
Proof. unfold untouched_by_stock. repeat split; reflexivity. Qed.

Lemma untouched_by_stock_trans (w1 w2 w3 : World) :
  untouched_by_stock w1 w2 -> untouched_by_stock w2 w3 ->
  untouched_by_stock w1 w3.
Proof.
  unfold untouched_by_stock.
  intros (?&?&?&?&?&?&?&?) (?&?&?&?&?&?&?&?).
  repeat split; congruence.
Qed.

Lemma update_stock_cases (w : World) (i d : Z) :
  (exists m, meds w !! i = Some m /\ 0 <= quantity_in_stock m + d /\
             update_stock w i d
             = (stock_set w i m (quantity_in_stock m + d), true))
  \/ ((forall m, meds w !! i = Some m -> quantity_in_stock m + d < 0) /\
      update_stock w i d = (w, false)).
Proof.
  unfold update_stock, stock_set, meds.
  destruct (medicaments (db w) !! i) as [m|].
  - destruct (0 <=? quantity_in_stock m + d) eqn:E.
    + left. exists m. repeat split; auto. lia.
    + right. split; auto. intros ? [= <-]. lia.
  - right. split; auto. discriminate.
Qed.

Lemma remove_stock_cases (w : World) (i q : Z) (r : Reason) (ref : option Z) :
  (exists m, meds w !! i = Some m /\ 0 < q /\ q <= quantity_in_stock m /\
             remove_stock w i q r ref
             = (record_movement (stock_set w i m (quantity_in_stock m - q))
                  i EXIT (- q) r ref,
                (true, MsgStockRemoved (quantity_in_stock m - q))))
  \/ ((q <= 0 \/ forall m, meds w !! i = Some m -> quantity_in_stock m < q) /\
      exists msg, remove_stock w i q r ref = (w, (false, msg))).
Proof.
  unfold remove_stock, medicament_get_by_id.
  destruct (q <=? 0) eqn:Eq; [right; split; [lia|eauto]|].
  fold (meds w).
  destruct (meds w !! i) as [m|] eqn:Em;
    [|right; split; [right; discriminate|eauto]].
  destruct (quantity_in_stock m <? q) eqn:El.
  { right; split; [right; intros ? [= <-]; lia|eauto]. }
  destruct (update_stock_cases w i (- q)) as [(m' & Hm' & Hge & ->)|[Hlt ->]].
  - left. exists m. rewrite Em in Hm'. injection Hm' as <-.
    repeat split; auto; lia.
  - specialize (Hlt m Em). lia.
Qed.

Lemma add_stock_cases (w : World) (i q : Z) (r : Reason) :
  (exists m, meds w !! i = Some m /\ 0 < q /\ 0 <= quantity_in_stock m + q /\
             add_stock w i q r
             = (record_movement (stock_set w i m (quantity_in_stock m + q))
                  i ENTRY q r None,
                (true, MsgStockAdded (quantity_in_stock m + q))))
  \/ ((q <= 0 \/ forall m, meds w !! i = Some m ->
                           quantity_in_stock m + q < 0) /\
      exists msg, add_stock w i q r = (w, (false, msg))).
Proof.
  unfold add_stock, medicament_get_by_id.
  destruct (q <=? 0) eqn:Eq; [right; split; [lia|eauto]|].
  fold (meds w).
  destruct (meds w !! i) as [m|] eqn:Em;
    [|right; split; [right; discriminate|eauto]].
  destruct (update_stock_cases w i q) as [(m' & Hm' & Hge & ->)|[Hlt ->]].
  - left. exists m. rewrite Em in Hm'. injection Hm' as <-.
    repeat split; auto; lia.
  - right. split; [right; intros ? [= <-]; auto|eauto].
Qed.

Lemma stock_set_untouched (w : World) (i : Z) (m : Medicament) (q : Z) :
  untouched_by_stock w (stock_set w i m q).
Proof. unfold untouched_by_stock. repeat split; reflexivity. Qed.

Lemma record_movement_untouched (w : World) (i : Z) (t : MovementType)
  (q : Z) (r : Reason) (ref : option Z) :
  untouched_by_stock w (record_movement w i t q r ref) /\
  meds (record_movement w i t q r ref) = meds w.
Proof. unfold untouched_by_stock. repeat split; reflexivity. Qed.

Lemma remove_stock_untouched (w : World) (i q : Z) (r : Reason)
  (ref : option Z) :
  untouched_by_stock w (remove_stock w i q r ref).1.
Proof.
  destruct (remove_stock_cases w i q r ref)
    as [(m & _ & _ & _ & ->)|(_ & msg & ->)]; simpl.
  - eapply untouched_by_stock_trans;
      [apply stock_set_untouched|apply record_movement_untouched].
  - apply untouched_by_stock_refl.
Qed.

Lemma add_stock_untouched (w : World) (i q : Z) (r : Reason) :
  untouched_by_stock w (add_stock w i q r).1.
Proof.
  destruct (add_stock_cases w i q r)
    as [(m & _ & _ & _ & ->)|(_ & msg & ->)]; simpl.
  - eapply untouched_by_stock_trans;
      [apply stock_set_untouched|apply record_movement_untouched].
  - apply untouched_by_stock_refl.
Qed.

(** A loop that changes the stock of one medicine per element. *)
Section StockLoop.
Context {X : Type} (step : World -> X -> World) (key : X -> Z)
  (ok : X -> Medicament -> Prop) (upd : X -> Medicament -> Medicament).
Hypothesis step_meds : forall w x m,
  meds w !! key x = Some m -> ok x m ->
  meds (step w x) = <[key x := upd x m]> (meds w).

Lemma stock_loop (xs : list X) (w : World) :
  NoDup (List.map key xs) ->
  (forall x, In x xs -> exists m, meds w !! key x = Some m /\ ok x m) ->
  forall i,
    meds (fold_left step xs w) !! i
    = match find_key key i xs with
      | Some x => upd x <$> meds w !! i
      | None => meds w !! i
      end.
Proof.
  revert w. induction xs as [|x xs IH]; intros w Hnd Hok i; simpl;
    [reflexivity|].
  apply NoDup_cons in Hnd as [Hx Hnd].
  destruct (Hok x (or_introl eq_refl)) as (m & Hm & Hokm).
  pose proof (step_meds w x m Hm Hokm) as Hstep.
  rewrite IH; auto.
  - rewrite Hstep. unfold find_key at 2. simpl. fold (find_key key i xs).
    destruct (Z.eqb_spec (key x) i) as [E|Hne].
    + subst i.
      assert (Hnone : find_key key (key x) xs = None).
      { unfold find_key.
        destruct (List.find _ xs) as [y|] eqn:Ef; [|reflexivity].
        apply find_some in Ef as [Hin Hy]. apply Z.eqb_eq in Hy.
        exfalso. apply Hx. rewrite <- Hy.
        apply list_elem_of_In, in_map, Hin. }
      rewrite Hnone, lookup_insert_eq, Hm. reflexivity.
    + rewrite lookup_insert_ne by auto. reflexivity.
  - intros y Hy. destruct (Hok y (or_intror Hy)) as (my & Hmy & Hoky).
    exists my. split; auto. rewrite Hstep, lookup_insert_ne; auto.
    intros E. apply Hx. rewrite E. apply list_elem_of_In, in_map, Hy.
Qed.
End StockLoop.

Lemma fold_left_untouched {X : Type} (step : World -> X -> World)
  (xs : list X) (w : World) :
  (forall a x, untouched_by_stock a (step a x)) ->
  untouched_by_stock w (fold_left step xs w).
Proof.
  intros Hstep. revert w.
  induction xs as [|x xs IH]; intros w; simpl.
  - apply untouched_by_stock_refl.
  - eapply untouched_by_stock_trans; [apply Hstep|apply IH].
Qed.

Lemma commit_stock_untouched (w : World) (sid : Z) :
  untouched_by_stock w (commit_stock w sid).
Proof.
  unfold commit_stock. apply fold_left_untouched.
  intros a x. apply remove_stock_untouched.
Qed.

Lemma restock_untouched (w : World) (s : Sale) :
  untouched_by_stock w (restock w s).
Proof.
  unfold restock. apply fold_left_untouched.
  intros a x. apply add_stock_untouched.
Qed.

Lemma update_loyalty_points_cases (w : World) (cid d : Z) :
  (exists c, clients (db w) !! cid = Some c /\ 0 <= loyalty_points c + d /\
             update_loyalty_points w cid d
             = (with_db w (with_clients (db w)
                  (<[cid := set_loyalty_points c (loyalty_points c + d)]>
                     (clients (db w)))), true))
  \/ ((forall c, clients (db w) !! cid = Some c -> loyalty_points c + d < 0) /\
      update_loyalty_points w cid d = (w, false)).
Proof.
  unfold update_loyalty_points.
  destruct (clients (db w) !! cid) as [c|].
  - destruct (0 <=? loyalty_points c + d) eqn:E.
    + left. exists c. repeat split; auto. lia.
    + right. split; auto. intros ? [= <-]. lia.
  - right. split; auto. discriminate.
Qed.

Lemma untouched_by_loyalty_refl (w : World) : untouched_by_loyalty w w.
Proof. unfold untouched_by_loyalty. repeat split; reflexivity. Qed.

Lemma update_loyalty_points_untouched (w : World) (cid d : Z) :
  untouched_by_loyalty w (update_loyalty_points w cid d).1.
Proof.
  destruct (update_loyalty_points_cases w cid d) as [(c & _ & _ & ->)|[_ ->]];
    simpl; [|apply untouched_by_loyalty_refl].
  unfold untouched_by_loyalty. repeat split; reflexivity.
Qed.

Lemma add_points_to_client_untouched (w : World) (cid : Z) (a : Q) :
  untouched_by_loyalty w (add_points_to_client w cid a).1.
Proof.
  unfold add_points_to_client.
  destruct (client_get_by_id w cid); [|apply untouched_by_loyalty_refl].
  destruct (0 <? calculate_points_earned w a);
    [|apply untouched_by_loyalty_refl].
  pose proof (update_loyalty_points_untouched w cid
                (calculate_points_earned w a)) as H.
  destruct (update_loyalty_points w cid _) as [w1 [|]]; exact H.
Qed.

Lemma update_total_spent_untouched (w : World) (cid : Z) (a : Q) :
  untouched_by_loyalty w (update_total_spent w cid a).1.
Proof.
  unfold update_total_spent.
  destruct (clients (db w) !! cid); simpl; [|apply untouched_by_loyalty_refl].
  unfold untouched_by_loyalty. repeat split; reflexivity.
Qed.

Lemma use_client_points_untouched (w : World) (cid p : Z) :
  untouched_by_loyalty w (use_client_points w cid p).1.
Proof.
  unfold use_client_points.
  destruct (p <=? 0); [apply untouched_by_loyalty_refl|].
  destruct (client_get_by_id w cid) as [c|]; [|apply untouched_by_loyalty_refl].
  destruct (loyalty_points c <? p); [apply untouched_by_loyalty_refl|].
  pose proof (update_loyalty_points_untouched w cid (- p)) as H.
  destruct (update_loyalty_points w cid _) as [w1 [|]]; exact H.
Qed.

Lemma untouched_by_loyalty_trans (w1 w2 w3 : World) :
  untouched_by_loyalty w1 w2 -> untouched_by_loyalty w2 w3 ->
  untouched_by_loyalty w1 w3.
Proof.
  unfold untouched_by_loyalty.
  intros (?&?&?&?&?&?&?) (?&?&?&?&?&?&?).
  repeat split; congruence.
Qed.

Lemma update_client_after_sale_untouched (w : World) (t : Totals) :
  untouched_by_loyalty w (update_client_after_sale w t).
Proof.
  unfold update_client_after_sale.
  destruct (cart_client (cart w)) as [[cid c]|];
    [|apply untouched_by_loyalty_refl].
  eapply untouched_by_loyalty_trans;
    [apply add_points_to_client_untouched|apply update_total_spent_untouched].
Qed.

Lemma take_back_points_untouched (w : World) (s : Sale) :
  untouched_by_loyalty w (take_back_points w s).
Proof.
  unfold take_back_points.
  destruct (sale_client_id s) as [cid|]; [|apply untouched_by_loyalty_refl].
  destruct (negb (cid =? 0) && (0 <? loyalty_points_earned s));
    [apply use_client_points_untouched|apply untouched_by_loyalty_refl].
Qed.

(** ** Commit and cancellation on the stock *)

Lemma stock_set_meds (w : World) (i : Z) (m : Medicament) (q : Z) :
  meds (stock_set w i m q) = <[i := set_quantity m q]> (meds w).
Proof. reflexivity. Qed.

Lemma remove_stock_meds (w : World) (i q : Z) (r : Reason) (ref : option Z)
  (m : Medicament) :
  meds w !! i = Some m -> 0 < q /\ q <= quantity_in_stock m ->
  meds (remove_stock w i q r ref).1
  = <[i := set_quantity m (quantity_in_stock m - q)]> (meds w).
Proof.
  intros Hm [Hq Hle].
  destruct (remove_stock_cases w i q r ref)
    as [(m' & Hm' & _ & _ & ->)|([Hq'|Hlt] & _)].
  - rewrite Hm in Hm'. injection Hm' as <-. reflexivity.
  - lia.
  - specialize (Hlt m Hm). lia.
Qed.

Lemma add_stock_meds (w : World) (i q : Z) (r : Reason) (m : Medicament) :
  meds w !! i = Some m -> 0 < q /\ 0 <= quantity_in_stock m + q ->
  meds (add_stock w i q r).1
  = <[i := set_quantity m (quantity_in_stock m + q)]> (meds w).
Proof.
  intros Hm [Hq Hle].
  destruct (add_stock_cases w i q r)
    as [(m' & Hm' & _ & _ & ->)|([Hq'|Hlt] & _)].
  - rewrite Hm in Hm'. injection Hm' as <-. reflexivity.
  - lia.
  - specialize (Hlt m Hm). lia.
Qed.

Lemma commit_stock_meds (w : World) (sid : Z) :
  NoDup (cart_ids (cart w)) ->
  (forall it, In it (items (cart w)) ->
     exists m, meds w !! item_medicament_id it = Some m /\
               0 < item_quantity it /\
               item_quantity it <= quantity_in_stock m) ->
  forall i,
    meds (commit_stock w sid) !! i
    = match find_item i (items (cart w)) with
      | Some it =>
          (fun m => set_quantity m (quantity_in_stock m - item_quantity it))
          <$> meds w !! i
      | None => meds w !! i
      end.
Proof.
  intros Hnd Hok i. unfold commit_stock.
  apply (stock_loop
           (fun acc it =>
              (remove_stock acc (item_medicament_id it) (item_quantity it)
                 ReasonVente (Some sid)).1)
           item_medicament_id
           (fun it m => 0 < item_quantity it /\
                        item_quantity it <= quantity_in_stock m)
           (fun it m => set_quantity m (quantity_in_stock m - item_quantity it)));
    auto.
  intros a it m Hm Hokm. now apply remove_stock_meds.
Qed.

Lemma restock_meds (w : World) (s : Sale) :
  NoDup (List.map line_medicament_id (lines s)) ->
  (forall l, In l (lines s) ->
     exists m, meds w !! line_medicament_id l = Some m /\
               0 < line_quantity l /\
               0 <= quantity_in_stock m + line_quantity l) ->
  forall i,
    meds (restock w s) !! i
    = match find_line i (lines s) with
      | Some l =>
          (fun m => set_quantity m (quantity_in_stock m + line_quantity l))
          <$> meds w !! i
      | None => meds w !! i
      end.
Proof.
  intros Hnd Hok i. unfold restock.
  apply (stock_loop
           (fun acc l =>
              (add_stock acc (line_medicament_id l) (line_quantity l)
                 (ReasonAnnulation (sale_number s))).1)
           line_medicament_id
           (fun l m => 0 < line_quantity l /\
                       0 <= quantity_in_stock m + line_quantity l)
           (fun l m => set_quantity m (quantity_in_stock m + line_quantity l)));
    auto.
  intros a l m Hm Hokm. now apply add_stock_meds.
Qed.

Lemma find_line_of_items (i : Z) (its : list CartItem) :
  find_line i (List.map line_of_item its) = line_of_item <$> find_item i its.
Proof.
  unfold find_line, find_item.
  induction its as [|it its IH]; simpl; [reflexivity|].
  destruct (item_medicament_id it =? i); [reflexivity|exact IH].
Qed.

(** What the re-check of [validate_sale] establishes. *)
Lemma first_unavailable_none (w : World) :
  first_unavailable w = None ->
  forall it, In it (items (cart w)) ->
    exists m, meds w !! item_medicament_id it = Some m /\
              item_quantity it <= quantity_in_stock m.
Proof.
  unfold first_unavailable. intros Hnone it Hin.
  pose proof (find_none _ _ Hnone it Hin) as H. simpl in H.
  unfold check_stock_availability, medicament_get_by_id in H.
  fold (meds w) in H.
  destruct (meds w !! item_medicament_id it) as [m|]; [|discriminate].
  exists m. split; auto. simpl in H.
  apply negb_false_iff, Z.leb_le in H. exact H.
Qed.

Lemma first_unavailable_some (w : World) (it : CartItem) :
  first_unavailable w = Some it ->
  In it (items (cart w)) /\
  forall m, meds w !! item_medicament_id it = Some m ->
            quantity_in_stock m < item_quantity it.
Proof.
  unfold first_unavailable. intros H. apply find_some in H as [Hin H].
  split; auto. intros m Hm.
  unfold check_stock_availability, medicament_get_by_id in H.
  fold (meds w) in H. rewrite Hm in H. simpl in H.
  apply negb_true_iff, Z.leb_gt in H. exact H.
Qed.

Lemma lines_valid_quantities (its : list CartItem) :
  forallb sale_line_valid (List.map line_of_item its) = true ->
  forall it, In it its -> 0 < item_quantity it.
Proof.
  intros H it Hin. rewrite forallb_forall in H.
  specialize (H (line_of_item it) (in_map _ _ _ Hin)).
  unfold sale_line_valid in H. simpl in H.
  apply andb_true_iff in H as [H _]. apply andb_true_iff in H as [H _].
  now apply Z.ltb_lt.
Qed.

Lemma set_quantity_back (m : Medicament) (q : Z) :
  set_quantity (set_quantity m (quantity_in_stock m - q))
    (quantity_in_stock (set_quantity m (quantity_in_stock m - q)) + q) = m.
Proof. destruct m; unfold set_quantity; simpl. f_equal. lia. Qed.

Lemma validate_sale_state (w w' : World) (msg : Msg) (sid : Z) (s : Sale) :
  validate_sale w = (w', (true, msg, Some (sid, s))) ->
  exists u,
    current_user w = Some u /\
    first_unavailable w = None /\
    build_sale w u (calculate_totals w) = Some s /\
    sid = (sale_create w s).2 /\
    w' = with_cart
           (update_client_after_sale
              (commit_stock (sale_create w s).1 sid) (calculate_totals w))
           empty_cart.
Proof.
  intros H.
  apply validate_sale_success in H as (u & s0 & _ & Hu & Hf & Hb & Hfin).
  apply finish_sale_result in Hfin as (_ & _ & Hr & ->).
  injection Hr as -> ->. exists u. repeat split; auto.
Qed.

Lemma sale_create_world (w : World) (s : Sale) :
  let w1 := (sale_create w s).1 in
  meds w1 = meds w /\ clients (db w1) = clients (db w) /\
  users (db w1) = users (db w) /\ cart w1 = cart w /\
  current_user w1 = current_user w /\ config w1 = config w /\
  stock_movements (db w1) = stock_movements (db w) /\
  sales (db w1) = <[(sale_create w s).2 := s]> (sales (db w)).
Proof. simpl. repeat split; reflexivity. Qed.

Lemma sale_get_by_id_visible (w : World) (sid : Z) (s : Sale) (u : User) :
  sales (db w) !! sid = Some s ->
  users (db w) !! sale_user_id s = Some u ->
  (forall l, In l (lines s) -> is_Some (meds w !! line_medicament_id l)) ->
  sale_get_by_id w sid = Some s.
Proof.
  intros Hs Hu Hl. unfold sale_get_by_id. rewrite Hs, Hu.
  assert (E : get_lines w s = lines s).
  { unfold get_lines. fold (meds w).
    induction (lines s) as [|l ls IH]; [reflexivity|].
    rewrite filter_cons.
    destruct (decide (is_Some (meds w !! line_medicament_id l))) as [_|Hn].
    - rewrite IH; auto. intros l' Hl'. apply Hl. now right.
    - exfalso. apply Hn, Hl. now left. }
  rewrite E. destruct s; reflexivity.
Qed.

Lemma cancel_sale_completed (w : World) (sid : Z) (s : Sale) :
  sale_get_by_id w sid = Some s -> status s = completed ->
  exists w1,
    meds w1 = meds w /\ clients (db w1) = clients (db w) /\
    cancel_sale w sid
    = (take_back_points (restock w1 s) s, (true, MsgSaleCancelled)).
Proof.
  intros Hg Hst. unfold cancel_sale. rewrite Hg, Hst.
  unfold sale_get_by_id in Hg. unfold sale_cancel.
  destruct (sales (db w) !! sid) as [s0|]; [|discriminate].
  eexists. split; [|split; [|reflexivity]]; reflexivity.
Qed.

Lemma find_item_in (its : list CartItem) (it : CartItem) :
  NoDup (List.map item_medicament_id its) -> In it its ->
  find_item (item_medicament_id it) its = Some it.
Proof.
  unfold find_item. induction its as [|a its IH]; intros Hnd Hin; [easy|].
  simpl in *. apply NoDup_cons in Hnd as [Ha Hnd].
  destruct Hin as [->|Hin]; [now rewrite Z.eqb_refl|].
  destruct (Z.eqb_spec (item_medicament_id a) (item_medicament_id it))
    as [E|_]; [|auto].
  exfalso. apply Ha. rewrite E. apply list_elem_of_In, in_map, Hin.
Qed.

(** [C3].  For a cart whose lines are for distinct medicines and a seller
    present in the users table: a successful [validate_sale] lowers the stock
    of the medicine of each line by the quantity of the line, and
    [cancel_sale] on the sale it returned succeeds and brings the medicines
    table back to what it was before the commit. *)
Theorem sale_then_cancel_restores_stock
  (w w' : World) (msg : Msg) (sid : Z) (s : Sale) (u : User) :
  NoDup (cart_ids (cart w)) ->
  current_user w = Some u -> is_Some (users (db w) !! user_id u) ->
  validate_sale w = (w', (true, msg, Some (sid, s))) ->
  (forall l, In l (lines s) ->
     exists m, medicaments (db w) !! line_medicament_id l = Some m /\
       medicaments (db w') !! line_medicament_id l
       = Some (set_quantity m (quantity_in_stock m - line_quantity l))) /\
  exists w'',
    cancel_sale w' sid = (w'', (true, MsgSaleCancelled)) /\
    medicaments (db w'') = medicaments (db w).
Proof.
  intros Hnd Hu [u' Hreg] Hv.
  apply validate_sale_state in Hv as (u0 & Hu0 & Hfirst & Hb & Hsid & ->).
  rewrite Hu in Hu0. injection Hu0 as <-.
  apply build_sale_fields in Hb
    as (_ & Hlv & _ & _ & _ & _ & _ & _ & Huid & Hst & Hlines).
  destruct (sale_create_world w s)
    as (Hm1 & Hc1 & Hu1 & Hcart1 & _ & _ & _ & Hs1).
  rewrite <- Hsid in Hs1.
  set (w1 := (sale_create w s).1) in *.
  pose proof (commit_stock_untouched w1 sid)
    as (Hc2 & Hu2 & Hs2 & _ & Hcart2 & _).
  set (w2 := commit_stock w1 sid) in *.
  pose proof (update_client_after_sale_untouched w2 (calculate_totals w))
    as (Hm3 & Hu3 & Hs3 & _).
  set (w3 := update_client_after_sale w2 (calculate_totals w)) in *.
  (* the stock after the commit *)
  assert (Hok : forall it, In it (items (cart w1)) ->
            exists m, meds w1 !! item_medicament_id it = Some m /\
                      0 < item_quantity it /\
                      item_quantity it <= quantity_in_stock m).
  { rewrite Hcart1, Hm1. intros it Hin.
    destruct (first_unavailable_none w Hfirst it Hin) as (m & Hm & Hle).
    exists m. repeat split; auto.
    rewrite Hlines in Hlv. eapply lines_valid_quantities; eauto. }
  assert (Hcommit : forall i,
            meds w3 !! i
            = match find_item i (items (cart w)) with
              | Some it =>
                  (fun m => set_quantity m
                              (quantity_in_stock m - item_quantity it))
                  <$> meds w !! i
              | None => meds w !! i
              end).
  { intros i. rewrite Hm3. unfold w2.
    rewrite commit_stock_meds; rewrite ?Hcart1, ?Hm1; auto. }
  assert (Hfind : forall it, In it (items (cart w)) ->
            find_item (item_medicament_id it) (items (cart w)) = Some it)
    by (intros it Hin; now apply find_item_in).
  assert (Hline : forall l, In l (lines s) ->
            exists m, meds w !! line_medicament_id l = Some m /\
              0 < line_quantity l /\
              line_quantity l <= quantity_in_stock m /\
              meds w3 !! line_medicament_id l
              = Some (set_quantity m (quantity_in_stock m - line_quantity l))).
  { rewrite Hlines. intros l Hin. apply in_map_iff in Hin as (it & <- & Hin).
    simpl. rewrite Hcart1, Hm1 in Hok.
    destruct (Hok it Hin) as (m & Hm & Hq & Hle).
    exists m. repeat split; auto.
    rewrite Hcommit, (Hfind it Hin), Hm. reflexivity. }
  split.
  { intros l Hin. destruct (Hline l Hin) as (m & Hm & _ & _ & Hm3l).
    exists m. split; auto. }
  (* the cancellation *)
  assert (Hget : sale_get_by_id (with_cart w3 empty_cart) sid = Some s).
  { apply (sale_get_by_id_visible _ _ _ u'); simpl.
    - rewrite Hs3, Hs2, Hs1. apply lookup_insert_eq.
    - rewrite Hu3, Hu2, Hu1, Huid. exact Hreg.
    - intros l Hin. destruct (Hline l Hin) as (m & _ & _ & _ & Hm3l).
      unfold meds in *. simpl. rewrite Hm3l. eauto. }
  destruct (cancel_sale_completed _ _ _ Hget Hst) as (w4 & Hm4 & _ & ->).
  eexists. split; [reflexivity|].
  destruct (take_back_points_untouched (restock w4 s) s) as (Hm5 & _).
  fold (meds (take_back_points (restock w4 s) s)). rewrite Hm5.
  fold (meds w). apply map_eq. intros i.
  rewrite restock_meds.
  - rewrite Hlines, find_line_of_items, Hm4.
    change (meds (with_cart w3 empty_cart)) with (meds w3).
    rewrite Hcommit.
    destruct (find_item i (items (cart w))) as [it|] eqn:Ef; simpl; auto.
    destruct (meds w !! i) as [m|]; simpl; auto.
    f_equal. apply set_quantity_back.
  - rewrite Hlines, map_map. simpl. exact Hnd.
  - intros l Hin. destruct (Hline l Hin) as (m & _ & Hq & Hle & Hm3l).
    rewrite Hm4. change (meds (with_cart w3 empty_cart)) with (meds w3).
    rewrite Hm3l. eexists. split; [reflexivity|]. simpl. lia.
Qed.

(** ** Points *)

Lemma calculate_points_earned_config (w1 w2 : World) (a : Q) :
  config w1 = config w2 ->
  calculate_points_earned w1 a = calculate_points_earned w2 a.
Proof. unfold calculate_points_earned. now intros ->. Qed.

Lemma calculate_points_earned_nonneg (w : World) (a : Q) :
  0 <= calculate_points_earned w a.
Proof.
  unfold calculate_points_earned.
  destruct (Qle_bool a 0) eqn:Ea; simpl; [lia|].
  destruct (points_per_unit (config w) <=? 0) eqn:Ep; [lia|].
  apply Z.leb_gt in Ep.
  assert (Ha : ~ (a <= 0)%Q) by (rewrite <- Qle_bool_iff; congruence).
  assert (H : (0 <= a / inject_Z (points_per_unit (config w)))%Q).
  { apply Qle_shift_div_l.
    - change 0%Q with (inject_Z 0). now rewrite <- Zlt_Qlt.
    - lra. }
  apply Qfloor_resp_le in H. exact H.
Qed.

Lemma calculate_totals_points (w : World) :
  match cart_client (cart w) with
  | Some _ =>
      t_points_earned (calculate_totals w)
      = calculate_points_earned w (t_total (calculate_totals w))
  | None => t_points_earned (calculate_totals w) = 0
  end.
Proof.
  unfold calculate_totals.
  destruct (subtotal_cents (cart w)) as [n Hn].
  destruct (cart_client (cart w)) as [[cid c]|]; cbv zeta; [|reflexivity].
  destruct (apply_discount_cases w (subtotal (cart w)) c)
    as [E|(_ & _ & E)]; rewrite E; cbn [t_points_earned t_total].
  - now rewrite Hn, round_currency_cents.
  - unfold py_round2. now rewrite round_currency_cents.
Qed.

Lemma update_client_after_sale_points (w : World) (t : Totals) (cid : Z)
  (snap c : Client) :
  cart_client (cart w) = Some (cid, snap) ->
  clients (db w) !! cid = Some c -> 0 <= loyalty_points c ->
  loyalty_points <$> clients (db (update_client_after_sale w t)) !! cid
  = Some (loyalty_points c + calculate_points_earned w (t_total t)).
Proof.
  intros Hcart Hc Hnn. unfold update_client_after_sale. rewrite Hcart.
  pose proof (calculate_points_earned_nonneg w (t_total t)) as Hp.
  assert (Hadd : exists c',
            clients (db (add_points_to_client w cid (t_total t)).1) !! cid
            = Some c' /\
            loyalty_points c'
            = loyalty_points c + calculate_points_earned w (t_total t)).
  { unfold add_points_to_client, client_get_by_id. rewrite Hc.
    destruct (0 <? calculate_points_earned w (t_total t)) eqn:E.
    - destruct (update_loyalty_points_cases w cid
                  (calculate_points_earned w (t_total t)))
        as [(c0 & Hc0 & _ & ->)|[Hlt _]].
      + rewrite Hc in Hc0. injection Hc0 as <-. simpl.
        rewrite lookup_insert_eq. eexists. split; reflexivity.
      + specialize (Hlt c Hc). lia.
    - apply Z.ltb_ge in E. simpl. exists c. split; auto. lia. }
  destruct Hadd as (c' & Hc' & Hlp).
  unfold update_total_spent. rewrite Hc'. simpl.
  rewrite lookup_insert_eq. simpl. now rewrite Hlp.
Qed.

Lemma take_back_points_balance (w : World) (s : Sale) (cid : Z) (c : Client) :
  sale_client_id s = Some cid -> cid <> 0 ->
  0 < loyalty_points_earned s ->
  clients (db w) !! cid = Some c ->
  loyalty_points <$> clients (db (take_back_points w s)) !! cid
  = Some (if loyalty_points c <? loyalty_points_earned s
          then loyalty_points c
          else loyalty_points c - loyalty_points_earned s).
Proof.
  intros Hcid Hnz Hp Hc. unfold take_back_points. rewrite Hcid.
  apply Z.eqb_neq in Hnz. rewrite Hnz.
  apply Z.ltb_lt in Hp. rewrite Hp. simpl. apply Z.ltb_lt in Hp.
  unfold use_client_points, client_get_by_id.
  destruct (loyalty_points_earned s <=? 0) eqn:E; [lia|]. rewrite Hc.
  destruct (loyalty_points c <? loyalty_points_earned s) eqn:El; simpl.
  - now rewrite Hc.
  - apply Z.ltb_ge in El.
    destruct (update_loyalty_points_cases w cid (- loyalty_points_earned s))
      as [(c0 & Hc0 & _ & ->)|[Hlt _]].
    + rewrite Hc in Hc0. injection Hc0 as <-. simpl.
      rewrite lookup_insert_eq. reflexivity.
    + specialize (Hlt c Hc). lia.
Qed.

Lemma take_back_points_none (w : World) (s : Sale) :
  loyalty_points_earned s <= 0 -> take_back_points w s = w.
Proof.
  intros Hp. unfold take_back_points.
  destruct (sale_client_id s); auto.
  apply Z.ltb_ge in Hp. rewrite Hp. now rewrite andb_false_r.
Qed.

Lemma sale_get_by_id_exists (w : World) (sid : Z) (s : Sale) (u : User) :
  sales (db w) !! sid = Some s ->
  users (db w) !! sale_user_id s = Some u ->
  exists s', sale_get_by_id w sid = Some s' /\
             sale_client_id s' = sale_client_id s /\
             loyalty_points_earned s' = loyalty_points_earned s /\
             status s' = status s.
Proof.
  intros Hs Hu. unfold sale_get_by_id. rewrite Hs, Hu.
  eexists. repeat split; reflexivity.
Qed.

(** The customer attached by [set_client] is a row of the store. *)
Lemma set_client_attaches_row (w w' : World) (cid : Z) (msg : Msg) :
  set_client w cid = (w', (true, msg)) ->
  exists c, clients (db w) !! cid = Some c /\
            cart_client (cart w') = Some (cid, c) /\ db w' = db w.
Proof.
  unfold set_client, client_get_by_id.
  destruct (clients (db w) !! cid) as [c|]; [|discriminate].
  destruct (negb (client_is_active c)); [discriminate|].
  intros [= <- _]. exists c. auto.
Qed.

(** [C10].  After a successful [validate_sale] with a customer attached,
    the balance of the customer has grown by exactly the
    [loyalty_points_earned] recorded on the sale, and cancelling that sale
    brings the balance back to what it was. *)
Theorem commit_credits_recorded_points
  (w w' : World) (msg : Msg) (sid : Z) (s : Sale) (u : User)
  (cid : Z) (snap c : Client) :
  current_user w = Some u -> is_Some (users (db w) !! user_id u) ->
  cart_client (cart w) = Some (cid, snap) ->
  clients (db w) !! cid = Some c -> cid <> 0 -> 0 <= loyalty_points c ->
  validate_sale w = (w', (true, msg, Some (sid, s))) ->
  loyalty_points <$> clients (db w') !! cid
  = Some (loyalty_points c + loyalty_points_earned s) /\
  exists w'',
    cancel_sale w' sid = (w'', (true, MsgSaleCancelled)) /\
    loyalty_points <$> clients (db w'') !! cid = Some (loyalty_points c).
Proof.
  intros Hu [u' Hreg] Hcart Hc Hnz Hnn Hv.
  apply validate_sale_state in Hv as (u0 & Hu0 & _ & Hb & Hsid & ->).
  rewrite Hu in Hu0. injection Hu0 as <-.
  apply build_sale_fields in Hb
    as (_ & _ & _ & _ & _ & _ & Hpts & Hcl & Huid & Hst & _).
  rewrite Hcart in Hcl. simpl in Hcl.
  pose proof (calculate_totals_points w) as Ht. rewrite Hcart in Ht.
  destruct (sale_create_world w s)
    as (_ & Hc1 & Hu1 & Hcart1 & _ & Hcfg1 & _ & Hs1).
  rewrite <- Hsid in Hs1.
  set (w1 := (sale_create w s).1) in *.
  pose proof (commit_stock_untouched w1 sid)
    as (Hc2 & Hu2 & Hs2 & _ & Hcart2 & _ & _ & Hcfg2).
  set (w2 := commit_stock w1 sid) in *.
  pose proof (update_client_after_sale_untouched w2 (calculate_totals w))
    as (_ & Hu3 & Hs3 & _).
  assert (Hbal : loyalty_points
                 <$> clients (db (update_client_after_sale w2
                                    (calculate_totals w))) !! cid
                 = Some (loyalty_points c + loyalty_points_earned s)).
  { rewrite (update_client_after_sale_points w2 _ cid snap c);
      rewrite ?Hcart2, ?Hcart1, ?Hc2, ?Hc1; auto.
    rewrite Hpts, Ht. do 2 f_equal.
    apply calculate_points_earned_config. congruence. }
  set (w3 := update_client_after_sale w2 (calculate_totals w)) in *.
  split; [exact Hbal|].
  destruct (sale_get_by_id_exists (with_cart w3 empty_cart) sid s u')
    as (s' & Hget & Hcl' & Hpts' & Hst'); simpl.
  { rewrite Hs3, Hs2, Hs1. apply lookup_insert_eq. }
  { rewrite Hu3, Hu2, Hu1, Huid. exact Hreg. }
  rewrite Hst in Hst'.
  destruct (cancel_sale_completed _ _ _ Hget Hst') as (w4 & _ & Hc4 & ->).
  eexists. split; [reflexivity|].
  destruct (restock_untouched w4 s') as (Hc5 & _).
  destruct (clients (db w3) !! cid) as [c3|] eqn:Hc3; [|discriminate].
  injection Hbal as Hbal.
  assert (Hp : 0 <= loyalty_points_earned s).
  { rewrite Hpts, Ht. apply calculate_points_earned_nonneg. }
  destruct (Z.eq_dec (loyalty_points_earned s) 0) as [Hz|Hpos].
  - rewrite take_back_points_none by lia.
    rewrite Hc5, Hc4. simpl. rewrite Hc3. simpl. f_equal. lia.
  - rewrite (take_back_points_balance _ _ cid c3);
      rewrite ?Hcl', ?Hpts', ?Hc5, ?Hc4; auto; try lia.
    destruct (loyalty_points c3 <? loyalty_points_earned s) eqn:E.
    + apply Z.ltb_lt in E. lia.
    + f_equal. lia.
Qed.

(** ** Stock never negative *)

Lemma stock_nonneg_meds (w w' : World) :
  meds w' = meds w -> stock_nonneg w -> stock_nonneg w'.
Proof. unfold stock_nonneg, meds. now intros ->. Qed.

Lemma stock_set_nonneg (w : World) (i : Z) (m : Medicament) (q : Z) :
  0 <= q -> stock_nonneg w -> stock_nonneg (stock_set w i m q).
Proof.
  intros Hq Hw j mj. change (medicaments (db (stock_set w i m q)))
    with (<[i := set_quantity m q]> (meds w)).
  destruct (decide (i = j)) as [->|Hne].
  - rewrite lookup_insert_eq. now intros [= <-].
  - rewrite lookup_insert_ne by auto. apply Hw.
Qed.

Lemma update_stock_nonneg (w : World) (i d : Z) :
  stock_nonneg w -> stock_nonneg (update_stock w i d).1.
Proof.
  intros Hw.
  destruct (update_stock_cases w i d) as [(m & _ & Hge & ->)|[_ ->]]; auto.
  now apply stock_set_nonneg.
Qed.

Lemma remove_stock_nonneg (w : World) (i q : Z) (r : Reason)
  (ref : option Z) :
  stock_nonneg w -> stock_nonneg (remove_stock w i q r ref).1.
Proof.
  intros Hw.
  destruct (remove_stock_cases w i q r ref)
    as [(m & _ & _ & Hle & ->)|(_ & msg & ->)]; auto.
  simpl. eapply stock_nonneg_meds; [apply record_movement_untouched|].
  apply stock_set_nonneg; auto. lia.
Qed.

Lemma add_stock_nonneg (w : World) (i q : Z) (r : Reason) :
  stock_nonneg w -> stock_nonneg (add_stock w i q r).1.
Proof.
  intros Hw.
  destruct (add_stock_cases w i q r)
    as [(m & _ & _ & Hle & ->)|(_ & msg & ->)]; auto.
  simpl. eapply stock_nonneg_meds; [apply record_movement_untouched|].
  apply stock_set_nonneg; auto.
Qed.

Lemma adjust_stock_nonneg (w : World) (i q : Z) (r : Reason) :
  stock_nonneg w -> stock_nonneg (adjust_stock w i q r).1.
Proof.
  intros Hw. unfold adjust_stock, medicament_get_by_id, medicament_update.
  destruct (q <? 0) eqn:Eq; auto. apply Z.ltb_ge in Eq.
  destruct (medicaments (db w) !! i) as [m|] eqn:Em; auto.
  destruct (q - quantity_in_stock m =? 0); auto. simpl.
  eapply stock_nonneg_meds; [apply record_movement_untouched|].
  intros j mj. simpl.
  destruct (decide (i = j)) as [->|Hne].
  - rewrite lookup_insert_eq. now intros [= <-].
  - rewrite lookup_insert_ne by auto. apply Hw.
Qed.

Lemma fold_left_invariant {X : Type} (P : World -> Prop)
  (step : World -> X -> World) (xs : list X) (w : World) :
  (forall a x, P a -> P (step a x)) -> P w -> P (fold_left step xs w).
Proof.
  intros Hstep. revert w.
  induction xs as [|x xs IH]; intros w Hw; simpl; auto.
Qed.

Lemma validate_sale_nonneg (w : World) :
  stock_nonneg w -> stock_nonneg (validate_sale w).1.
Proof.
  intros Hw. unfold validate_sale.
  destruct (is_empty (cart w)); auto.
  destruct (current_user w) as [u|]; auto.
  destruct (first_unavailable w); auto.
  destruct (build_sale w u (calculate_totals w)) as [s|]; auto.
  destruct (sale_create w s) as [w1 sid] eqn:E.
  unfold finish_sale; simpl.
  eapply stock_nonneg_meds;
    [apply (update_client_after_sale_untouched (commit_stock w1 sid))|].
  unfold commit_stock. apply fold_left_invariant.
  - intros a x. apply remove_stock_nonneg.
  - unfold sale_create in E. injection E as <- _. exact Hw.
Qed.

Lemma cancel_sale_nonneg (w : World) (sid : Z) :
  stock_nonneg w -> stock_nonneg (cancel_sale w sid).1.
Proof.
  intros Hw. unfold cancel_sale, sale_cancel.
  destruct (sale_get_by_id w sid) as [s|]; auto.
  destruct (status s); auto.
  destruct (sales (db w) !! sid) as [s0|]; auto. simpl.
  eapply stock_nonneg_meds; [apply take_back_points_untouched|].
  unfold restock. apply fold_left_invariant.
  - intros a x. apply add_stock_nonneg.
  - exact Hw.
Qed.

(** [C2].  The quantity update of the catalogue refuses, and leaves the
    state as it is, any change that would make the quantity negative; and
    [update_stock], [remove_stock], [add_stock], [adjust_stock],
    [validate_sale] and [cancel_sale] keep every quantity in stock
    non-negative. *)
Theorem stock_never_negative (w : World) :
  stock_nonneg w ->
  (forall i d m,
     medicaments (db w) !! i = Some m -> quantity_in_stock m + d < 0 ->
     update_stock w i d = (w, false)) /\
  (forall i d, stock_nonneg (update_stock w i d).1) /\
  (forall i q r ref, stock_nonneg (remove_stock w i q r ref).1) /\
  (forall i q r, stock_nonneg (add_stock w i q r).1) /\
  (forall i q r, stock_nonneg (adjust_stock w i q r).1) /\
  stock_nonneg (validate_sale w).1 /\
  (forall sid, stock_nonneg (cancel_sale w sid).1).
Proof.
  intros Hw. split; [|repeat split].
  - intros i d m Hm Hlt. unfold update_stock. rewrite Hm.
    destruct (0 <=? quantity_in_stock m + d) eqn:E; auto.
    apply Z.leb_le in E. lia.
  - intros. now apply update_stock_nonneg.
  - intros. now apply remove_stock_nonneg.
  - intros. now apply add_stock_nonneg.
  - intros. now apply adjust_stock_nonneg.
  - now apply validate_sale_nonneg.
  - intros. now apply cancel_sale_nonneg.
Qed.

(** ** Validation before mutation *)

(** [C6].  [validate_sale] fails on an empty cart, then on a missing user,
    then on a line that the live stock does not cover, and whenever it
    returns one of these three messages the whole state (sales, stock,
    ledger, customers, cart) is the one it started from, the flag is false
    and no sale is returned. *)
Theorem validate_sale_checks_before_mutation (w : World) :
  (is_empty (cart w) = true ->
   validate_sale w = (w, (false, MsgCartEmpty, None))) /\
  (is_empty (cart w) = false -> current_user w = None ->
   validate_sale w = (w, (false, MsgNotConnected, None))) /\
  (is_empty (cart w) = false -> is_Some (current_user w) ->
   forall it, In it (items (cart w)) ->
     (forall m, medicaments (db w) !! item_medicament_id it = Some m ->
                quantity_in_stock m < item_quantity it) ->
     exists name,
       validate_sale w = (w, (false, MsgStockInsufficientFor name, None))) /\
  (forall w' ok msg r,
     validate_sale w = (w', (ok, msg, r)) -> validation_failure msg ->
     w' = w /\ ok = false /\ r = None).
Proof.
  unfold validate_sale. split; [|split; [|split]].
  - now intros ->.
  - now intros -> ->.
  - intros -> [u ->] it Hin Hlow.
    destruct (first_unavailable w) as [it'|] eqn:Ef; [eauto|].
    destruct (first_unavailable_none w Ef it Hin) as (m & Hm & Hle).
    specialize (Hlow m Hm). lia.
  - intros w' ok msg r.
    destruct (is_empty (cart w)); [now intros [= <- <- <- <-]|].
    destruct (current_user w) as [u|]; [|now intros [= <- <- <- <-]].
    destruct (first_unavailable w); [now intros [= <- <- <- <-]|].
    destruct (build_sale w u (calculate_totals w)) as [s|].
    + destruct (sale_create w s) as [w1 sid].
      intros Hf. apply finish_sale_result in Hf as (_ & -> & _).
      intros [?|[?|[? ?]]]; discriminate.
    + intros [= _ _ <- _] [?|[?|[? ?]]]; discriminate.
Qed.

(** ** Cancelling twice *)

(** [C7].  [cancel_sale] on a sale whose status is [cancelled] answers
    "already cancelled" and returns the state unchanged. *)
Theorem cancel_cancelled_sale_is_noop
  (w : World) (sid : Z) (s : Sale) (u : User) :
  sales (db w) !! sid = Some s -> status s = cancelled ->
  users (db w) !! sale_user_id s = Some u ->
  cancel_sale w sid = (w, (false, MsgAlreadyCancelled)).
Proof.
  intros Hs Hst Hu. unfold cancel_sale, sale_get_by_id.
  rewrite Hs, Hu. simpl. now rewrite Hst.
Qed.

(** ** Adding to the cart *)

Lemma quantity_in_cart_update_first (i : Z) (its : list CartItem) (q : Z) :
  is_Some (find_item i its) ->
  quantity_in_cart i
    (update_first i (fun it => set_item_quantity it (item_quantity it + q)) its)
  = quantity_in_cart i its + q.
Proof.
  unfold quantity_in_cart, find_item.
  induction its as [|a its IH]; simpl; [intros [? [=]]|].
  destruct (item_medicament_id a =? i) eqn:E; simpl; rewrite E; auto.
Qed.

Lemma quantity_in_cart_append (i : Z) (its : list CartItem) (m : Medicament)
  (q : Z) (p : Q) :
  find_item i its = None ->
  quantity_in_cart i
    (its ++ [{| item_medicament_id := i; item_medicament := m;
                item_quantity := q; item_unit_price := p |}])
  = quantity_in_cart i its + q.
Proof.
  unfold quantity_in_cart, find_item.
  induction its as [|a its IH]; simpl.
  - now rewrite Z.eqb_refl.
  - destruct (item_medicament_id a =? i) eqn:E; [discriminate|auto].
Qed.

Lemma add_to_cart_accepts (w : World) (i q : Z) (m : Medicament) :
  medicaments (db w) !! i = Some m -> med_is_active m = true -> 0 < q ->
  quantity_in_cart i (items (cart w)) + q <= quantity_in_stock m ->
  exists w', add_to_cart w i q = (w', (true, MsgAddedToCart (med_name m))) /\
             db w' = db w /\
             quantity_in_cart i (items (cart w'))
             = quantity_in_cart i (items (cart w)) + q.
Proof.
  intros Hm Ha Hq Hle. unfold add_to_cart, medicament_get_by_id.
  rewrite Hm, Ha. simpl.
  destruct (q <=? 0) eqn:Eq; [lia|].
  destruct (quantity_in_stock m <? _) eqn:El; [lia|].
  eexists. split; [reflexivity|]. split; [reflexivity|]. simpl.
  destruct (find_item i (items (cart w))) as [it|] eqn:Ef.
  - apply quantity_in_cart_update_first. rewrite Ef. eauto.
  - now apply quantity_in_cart_append.
Qed.

Lemma add_to_cart_refuses (w : World) (i q : Z) (m : Medicament) :
  medicaments (db w) !! i = Some m -> med_is_active m = true -> 0 < q ->
  quantity_in_stock m < quantity_in_cart i (items (cart w)) + q ->
  add_to_cart w i q
  = (w, (false,
         MsgStockInsufficient
           (Z.max 0 (quantity_in_stock m
                     - quantity_in_cart i (items (cart w)))))).
Proof.
  intros Hm Ha Hq Hlt. unfold add_to_cart, medicament_get_by_id.
  rewrite Hm, Ha. simpl.
  destruct (q <=? 0) eqn:Eq; [lia|].
  destruct (quantity_in_stock m <? _) eqn:El; [reflexivity|lia].
Qed.

(** [C8], amended.  For an active medicine with stock S, a quantity c of it
    already in the cart and a positive q: [add_to_cart] succeeds exactly when
    c + q <= S, and then the cart holds c + q; when c + q > S it fails and
    reports max(0, S - c), which is S - c as soon as c <= S; adding exactly
    S - c succeeds and adding S - c + 1 fails. *)
Theorem add_to_cart_stock_boundary (w : World) (i q : Z) (m : Medicament) :
  medicaments (db w) !! i = Some m -> med_is_active m = true -> 0 < q ->
  let S := quantity_in_stock m in
  let c := quantity_in_cart i (items (cart w)) in
  ((add_to_cart w i q).2.1 = true <-> c + q <= S) /\
  (c + q <= S ->
   quantity_in_cart i (items (cart (add_to_cart w i q).1)) = c + q) /\
  (S < c + q ->
   add_to_cart w i q = (w, (false, MsgStockInsufficient (Z.max 0 (S - c))))) /\
  (c <= S -> S < c + q ->
   add_to_cart w i q = (w, (false, MsgStockInsufficient (S - c)))) /\
  (0 < S - c -> (add_to_cart w i (S - c)).2.1 = true) /\
  (0 < S - c + 1 ->
   add_to_cart w i (S - c + 1)
   = (w, (false, MsgStockInsufficient (Z.max 0 (S - c))))).
Proof.
  intros Hm Ha Hq S c.
  split; [|split; [|split; [|split; [|split]]]].
  - split.
    + intros Hok. destruct (Z.le_gt_cases (c + q) S) as [|Hlt]; auto.
      rewrite (add_to_cart_refuses w i q m) in Hok; auto. discriminate.
    + intros Hle.
      destruct (add_to_cart_accepts w i q m) as (w' & -> & _); auto.
  - intros Hle.
    destruct (add_to_cart_accepts w i q m) as (w' & -> & _ & Hc); auto.
  - intros Hlt. now apply add_to_cart_refuses.
  - intros Hc Hlt. rewrite (add_to_cart_refuses w i q m); auto.
    do 3 f_equal. fold S c. lia.
  - intros Hpos.
    destruct (add_to_cart_accepts w i (S - c) m) as (w' & -> & _); auto.
    fold c S. lia.
  - intros Hpos. apply add_to_cart_refuses; auto. fold c S. lia.
Qed.

(** The lines of a cart built by the cart operations are for distinct
    medicines. *)
Lemma update_first_ids (i : Z) (f : CartItem -> CartItem)
  (its : list CartItem) :
  (forall it, item_medicament_id (f it) = item_medicament_id it) ->
  List.map item_medicament_id (update_first i f its)
  = List.map item_medicament_id its.
Proof.
  intros Hf. induction its as [|a its IH]; simpl; [reflexivity|].
  destruct (item_medicament_id a =? i); simpl; [now rewrite Hf|now rewrite IH].
Qed.

Lemma remove_first_nodup (i : Z) (its : list CartItem) :
  NoDup (List.map item_medicament_id its) ->
  NoDup (List.map item_medicament_id (remove_first i its)).
Proof.
  induction its as [|a its IH]; simpl; auto.
  intros Hnd. apply NoDup_cons in Hnd as [Ha Hnd].
  destruct (item_medicament_id a =? i); auto. simpl.
  apply NoDup_cons. split; auto.
  intros Hin. apply Ha. clear -Hin.
  induction its as [|b its IH]; simpl in *; auto.
  destruct (item_medicament_id b =? i).
  - now apply list_elem_of_further.
  - simpl in Hin. apply elem_of_cons in Hin as [->|Hin].
    + apply list_elem_of_here.
    + apply list_elem_of_further. auto.
Qed.

Lemma new_cart_nodup (w : World) : NoDup (cart_ids (cart (new_cart w))).
Proof. apply NoDup_nil_2. Qed.

Lemma set_client_nodup (w : World) (cid : Z) :
  NoDup (cart_ids (cart w)) -> NoDup (cart_ids (cart (set_client w cid).1)).
Proof.
  intros Hnd. unfold set_client.
  destruct (client_get_by_id w cid) as [c|]; auto.
  destruct (negb (client_is_active c)); auto.
Qed.

Lemma add_to_cart_nodup (w : World) (i q : Z) :
  NoDup (cart_ids (cart w)) -> NoDup (cart_ids (cart (add_to_cart w i q).1)).
Proof.
  intros Hnd. unfold add_to_cart.
  destruct (q <=? 0); auto.
  destruct (medicament_get_by_id w i) as [m|]; auto.
  destruct (negb (med_is_active m)); auto.
  destruct (quantity_in_stock m <? _); auto.
  unfold cart_ids in *. simpl.
  destruct (find_item i (items (cart w))) as [it|] eqn:Ef.
  - now rewrite update_first_ids.
  - rewrite map_app. simpl. apply NoDup_app. repeat split; auto.
    + intros x Hx Hi. apply list_elem_of_singleton in Hi as ->.
      apply list_elem_of_In, in_map_iff in Hx as (it & E & Hin).
      pose proof (find_none _ _ Ef it Hin) as Hn. simpl in Hn.
      apply Z.eqb_neq in Hn. contradiction.
    + apply NoDup_singleton.
Qed.

Lemma remove_from_cart_nodup (w : World) (i : Z) :
  NoDup (cart_ids (cart w)) -> NoDup (cart_ids (cart (remove_from_cart w i).1)).
Proof.
  intros Hnd. unfold remove_from_cart.
  destruct (find_item i (items (cart w))); auto.
  unfold cart_ids in *. simpl. now apply remove_first_nodup.
Qed.

Lemma update_cart_quantity_nodup (w : World) (i q : Z) :
  NoDup (cart_ids (cart w)) ->
  NoDup (cart_ids (cart (update_cart_quantity w i q).1)).
Proof.
  intros Hnd. unfold update_cart_quantity.
  destruct (q <=? 0); [now apply remove_from_cart_nodup|].
  destruct (find_item i (items (cart w))) as [it|]; auto.
  destruct (quantity_in_stock (item_medicament it) <? q); auto.
  unfold cart_ids in *. simpl. now rewrite update_first_ids.
Qed.

(** ** Projected points *)

(** [C9], amended.  With a customer attached, the projected points of
    [calculate_totals] are those of the loyalty engine on the final total:
    0 when the total or the configured constant is not positive, and
    floor(total / constant) otherwise.  Without a customer they are 0. *)
Theorem calculate_totals_projected_points (w : World) :
  let t := calculate_totals w in
  let ppu := points_per_unit (config w) in
  (is_Some (cart_client (cart w)) ->
   t_points_earned t = calculate_points_earned w (t_total t) /\
   ((t_total t <= 0)%Q \/ ppu <= 0 -> t_points_earned t = 0) /\
   ((0 < t_total t)%Q -> 0 < ppu ->
    t_points_earned t = Qfloor (t_total t / inject_Z ppu))) /\
  (cart_client (cart w) = None -> t_points_earned t = 0).
Proof.
  intros t ppu. pose proof (calculate_totals_points w) as H.
  split.
  - intros [cl Hcl]. rewrite Hcl in H. fold t in H. rewrite H.
    split; [reflexivity|]. unfold calculate_points_earned. fold ppu.
    split.
    + intros [Hle|Hle].
      * apply Qle_bool_iff in Hle. now rewrite Hle.
      * apply Z.leb_le in Hle. rewrite Hle. now rewrite orb_true_r.
    + intros Hpos Hppu.
      destruct (Qle_bool (t_total t) 0) eqn:E.
      * apply Qle_bool_iff in E. lra.
      * destruct (ppu <=? 0) eqn:E2; [lia|reflexivity].
  - intros Hcl. now rewrite Hcl in H.
Qed.

(** ** Points taken back by a cancellation *)

(** [C4], amended.  Cancelling a completed sale that has a customer and
    earned P > 0 points succeeds; a balance B of at least P becomes B - P; a
    balance B below P is left at B: the deduction is refused, nothing is
    brought to zero. *)
Theorem cancel_sale_points_deduction
  (w : World) (sid : Z) (s : Sale) (cid : Z) (c : Client) :
  sale_get_by_id w sid = Some s -> status s = completed ->
  sale_client_id s = Some cid -> cid <> 0 ->
  0 < loyalty_points_earned s ->
  clients (db w) !! cid = Some c ->
  exists w',
    cancel_sale w sid = (w', (true, MsgSaleCancelled)) /\
    loyalty_points <$> clients (db w') !! cid
    = Some (if loyalty_points c <? loyalty_points_earned s
            then loyalty_points c
            else loyalty_points c - loyalty_points_earned s).
Proof.
  intros Hget Hst Hcid Hnz Hp Hc.
  destruct (cancel_sale_completed _ _ _ Hget Hst) as (w1 & _ & Hc1 & ->).
  eexists. split; [reflexivity|].
  destruct (restock_untouched w1 s) as (Hc2 & _).
  apply take_back_points_balance; auto. now rewrite Hc2, Hc1.
Qed.

(** ** The result of the commit does not look at the decrements *)

Lemma finish_sale_reports_success (w : World) (t : Totals) (sid : Z)
  (s : Sale) :
  (finish_sale w t sid s).2 = (true, MsgSaleRecorded (sale_number s),
                               Some (sid, s)).
Proof. reflexivity. Qed.

(** ** The properties on the small pharmacy *)

Lemma gold_world_commit :
  validate_sale gold_world
  = (sold_world,
     (true, MsgSaleRecorded (sale_number gold_sale), Some (1, gold_sale))).
Proof. vm_compute. reflexivity. Defined.


Lemma gold_stock_nonneg : stock_nonneg gold_world.
Proof.
  assert (H : map_Forall (fun _ m => 0 <= quantity_in_stock m)
                (medicaments (db gold_world)))
    by (apply (bool_decide_unpack _); vm_compute; exact I).
  intros i m Hm. exact (H i m Hm).
Defined.

Lemma stock_never_negative_witness :
  stock_nonneg gold_world /\
  update_stock gold_world 1 (-21) = (gold_world, false) /\
  stock_nonneg (remove_stock gold_world 1 20 ReasonVente None).1 /\
  stock_nonneg (validate_sale gold_world).1.
Proof.
  pose proof (stock_never_negative gold_world gold_stock_nonneg)
    as (Hrefuse & _ & Hremove & _ & _ & Hvalidate & _).
  split; [exact gold_stock_nonneg|].
  split; [|split; [apply Hremove|exact Hvalidate]].
  apply (Hrefuse 1 (-21) para500); [vm_compute; reflexivity|reflexivity].
Defined.

Lemma gold_cart_nodup : NoDup (cart_ids (cart gold_world)).
Proof. apply (bool_decide_unpack _). vm_compute. exact I. Defined.

Lemma gold_seller_registered :
  is_Some (users (db gold_world) !! user_id {| user_id := 1 |}).
Proof. exists {| user_id := 1 |}. vm_compute. reflexivity. Defined.

Lemma sale_then_cancel_restores_stock_witness :
  NoDup (cart_ids (cart gold_world)) /\
  current_user gold_world = Some {| user_id := 1 |} /\
  is_Some (users (db gold_world) !! 1) /\
  validate_sale gold_world
  = (sold_world,
     (true, MsgSaleRecorded (sale_number gold_sale), Some (1, gold_sale))) /\
  exists w'',
    cancel_sale sold_world 1 = (w'', (true, MsgSaleCancelled)) /\
    medicaments (db w'') = medicaments (db gold_world).
Proof.
  pose proof gold_world_commit as H.
  split; [exact gold_cart_nodup|].
  split; [reflexivity|].
  split; [exact gold_seller_registered|].
  split; [exact H|].
  exact (proj2 (sale_then_cancel_restores_stock gold_world sold_world _ 1
                  gold_sale {| user_id := 1 |} gold_cart_nodup eq_refl
                  gold_seller_registered H)).
Defined.

Lemma spent_world_sale : sale_get_by_id spent_world 1 = Some gold_sale.
Proof. vm_compute. reflexivity. Defined.

Lemma spent_world_client :
  clients (db spent_world) !! 1 = Some spent_client.
Proof. vm_compute. reflexivity. Defined.

(** [C4] as stated fails: the sale earned 92 points, the customer holds 5;
    the cancellation succeeds and the customer still holds 5, not 0. *)
Lemma cancel_leaves_short_balance :
  sale_get_by_id spent_world 1 = Some gold_sale /\
  loyalty_points <$> clients (db spent_world) !! 1 = Some 5 /\
  (cancel_sale spent_world 1).2 = (true, MsgSaleCancelled) /\
  loyalty_points <$> clients (db (cancel_sale spent_world 1).1) !! 1
  = Some 5 /\
  loyalty_points <$> clients (db (cancel_sale spent_world 1).1) !! 1
  <> Some (5 - Z.min (loyalty_points_earned gold_sale) 5).
Proof.
  split; [exact spent_world_sale|]. repeat split; vm_compute; congruence.
Qed.

Lemma cancel_sale_points_deduction_witness :
  sale_get_by_id spent_world 1 = Some gold_sale /\
  status gold_sale = completed /\
  sale_client_id gold_sale = Some 1 /\ 1 <> 0 /\
  0 < loyalty_points_earned gold_sale /\
  clients (db spent_world) !! 1 = Some spent_client /\
  exists w',
    cancel_sale spent_world 1 = (w', (true, MsgSaleCancelled)) /\
    loyalty_points <$> clients (db w') !! 1 = Some 5.
Proof.
  assert (Hnz : 1 <> 0) by discriminate.
  split; [exact spent_world_sale|].
  split; [reflexivity|]. split; [reflexivity|]. split; [exact Hnz|].
  split; [reflexivity|]. split; [exact spent_world_client|].
  exact (cancel_sale_points_deduction spent_world 1 gold_sale 1 _
           spent_world_sale eq_refl eq_refl Hnz eq_refl spent_world_client).
Defined.

(** [C5]: the last AMOX250 is in the cart and passes the re-check; the sale
    is persisted; another session then takes the last unit through the
    catalogue's atomic update.  The decrement of the commit is refused, and
    the commit still reports the sale as recorded, leaves the stock at 0 and
    appends nothing to the ledger. *)
Theorem commit_reports_success_after_refused_decrement :
  first_unavailable last_unit_world = None /\
  exists sale,
    build_sale last_unit_world {| user_id := 1 |}
      (calculate_totals last_unit_world) = Some sale /\
    let persisted := (sale_create last_unit_world sale).1 in
    let sale_id := (sale_create last_unit_world sale).2 in
    let raced := (update_stock persisted 3 (-1)).1 in
    (remove_stock raced 3 1 ReasonVente (Some sale_id)).2
    = (false, MsgStockInsufficient 0) /\
    (finish_sale raced (calculate_totals last_unit_world) sale_id sale).2
    = (true, MsgSaleRecorded (sale_number sale), Some (sale_id, sale)) /\
    quantity_in_stock
    <$> medicaments
          (db (finish_sale raced (calculate_totals last_unit_world)
                 sale_id sale).1) !! 3
    = Some 0 /\
    stock_movements
      (db (finish_sale raced (calculate_totals last_unit_world)
             sale_id sale).1)
    = [].
Proof.
  split; [vm_compute; reflexivity|].
  eexists. split; [vm_compute; reflexivity|].
  repeat split; vm_compute; reflexivity.
Qed.

Lemma validate_sale_checks_before_mutation_witness :
  (is_empty (cart opening_world) = true /\
   validate_sale opening_world = (opening_world, (false, MsgCartEmpty, None)))
  /\
  (is_empty (cart logged_out_world) = false /\
   current_user logged_out_world = None /\
   validate_sale logged_out_world
   = (logged_out_world, (false, MsgNotConnected, None)))
  /\
  (validation_failure (MsgStockInsufficientFor "PASTILLE") /\
   validate_sale adjusted_world
   = (adjusted_world, (false, MsgStockInsufficientFor "PASTILLE", None)) /\
   (validate_sale adjusted_world).1 = adjusted_world).
Proof.
  split; [|split].
  - split; [reflexivity|].
    exact (proj1 (validate_sale_checks_before_mutation opening_world)
             eq_refl).
  - split; [reflexivity|]. split; [reflexivity|].
    exact (proj1 (proj2 (validate_sale_checks_before_mutation
                           logged_out_world)) eq_refl eq_refl).
  - assert (Hf : validation_failure (MsgStockInsufficientFor "PASTILLE"))
      by (right; right; eexists; reflexivity).
    assert (Hv : validate_sale adjusted_world
                 = (adjusted_world,
                    (false, MsgStockInsufficientFor "PASTILLE", None)))
      by (vm_compute; reflexivity).
    split; [exact Hf|]. split; [exact Hv|].
    rewrite Hv.
    exact (proj1 (proj2 (proj2 (proj2 (validate_sale_checks_before_mutation
                                         adjusted_world)))
                    _ _ _ _ Hv Hf)).
Defined.

Lemma cancel_cancelled_sale_is_noop_witness :
  sales (db cancelled_world) !! 1 = Some (set_status gold_sale cancelled) /\
  status (set_status gold_sale cancelled) = cancelled /\
  users (db cancelled_world) !! 1 = Some {| user_id := 1 |} /\
  cancel_sale cancelled_world 1
  = (cancelled_world, (false, MsgAlreadyCancelled)).
Proof.
  assert (Hs : sales (db cancelled_world) !! 1
               = Some (set_status gold_sale cancelled))
    by (vm_compute; reflexivity).
  assert (Hu : users (db cancelled_world)
               !! sale_user_id (set_status gold_sale cancelled)
               = Some {| user_id := 1 |})
    by (vm_compute; reflexivity).
  split; [exact Hs|]. split; [reflexivity|]. split; [exact Hu|].
  exact (cancel_cancelled_sale_is_noop cancelled_world 1 _ _ Hs eq_refl Hu).
Defined.

(** [C8] as stated fails: ten PASTILLE are in the cart and the stock is now
    3; adding one more is refused with 0 as the amount still addable, not
    with 3 - 10. *)
Lemma add_to_cart_reports_zero_not_difference :
  exists m,
    medicaments (db adjusted_world) !! 2 = Some m /\
    med_is_active m = true /\
    quantity_in_stock m = 3 /\
    quantity_in_cart 2 (items (cart adjusted_world)) = 10 /\
    add_to_cart adjusted_world 2 1
    = (adjusted_world, (false, MsgStockInsufficient 0)) /\
    add_to_cart adjusted_world 2 1
    <> (adjusted_world,
        (false,
         MsgStockInsufficient
           (quantity_in_stock m
            - quantity_in_cart 2 (items (cart adjusted_world))))).
Proof.
  eexists. split; [vm_compute; reflexivity|].
  repeat split; vm_compute; congruence.
Qed.

Lemma add_to_cart_stock_boundary_witness :
  medicaments (db anonymous_world) !! 1 = Some para500 /\
  med_is_active para500 = true /\ 0 < 19 /\
  quantity_in_cart 1 (items (cart anonymous_world)) = 1 /\
  (add_to_cart anonymous_world 1 19).2.1 = true /\
  add_to_cart anonymous_world 1 20
  = (anonymous_world, (false, MsgStockInsufficient 19)).
Proof.
  assert (Hm : medicaments (db anonymous_world) !! 1 = Some para500)
    by (vm_compute; reflexivity).
  pose proof (add_to_cart_stock_boundary anonymous_world 1 19 para500 Hm eq_refl
                eq_refl) as (_ & _ & _ & _ & Hlast & Hover).
  split; [exact Hm|]. split; [reflexivity|]. split; [reflexivity|].
  split; [reflexivity|].
  split; [exact (Hlast eq_refl)|exact (Hover eq_refl)].
Defined.

(** [C9] as stated fails: without a customer the projected points are 0,
    whatever the total; here the total is 1000 and the floor is 100. *)
Lemma anonymous_cart_projects_no_points :
  cart_client (cart anonymous_world) = None /\
  (0 < t_total (calculate_totals anonymous_world))%Q /\
  0 < points_per_unit (config anonymous_world) /\
  t_points_earned (calculate_totals anonymous_world) = 0 /\
  Qfloor (t_total (calculate_totals anonymous_world)
          / inject_Z (points_per_unit (config anonymous_world))) = 100 /\
  t_points_earned (calculate_totals anonymous_world)
  <> Qfloor (t_total (calculate_totals anonymous_world)
             / inject_Z (points_per_unit (config anonymous_world))).
Proof. repeat split; vm_compute; congruence. Qed.

Lemma calculate_totals_projected_points_witness :
  is_Some (cart_client (cart gold_world)) /\
  (0 < t_total (calculate_totals gold_world))%Q /\
  0 < points_per_unit (config gold_world) /\
  t_points_earned (calculate_totals gold_world)
  = Qfloor (t_total (calculate_totals gold_world)
            / inject_Z (points_per_unit (config gold_world))) /\
  t_points_earned (calculate_totals anonymous_world) = 0.
Proof.
  assert (Hc : is_Some (cart_client (cart gold_world)))
    by (eexists; vm_compute; reflexivity).
  assert (Ht : (0 < t_total (calculate_totals gold_world))%Q)
    by (vm_compute; reflexivity).
  split; [exact Hc|]. split; [exact Ht|]. split; [reflexivity|].
  split.
  - exact (proj2 (proj2 (proj1 (calculate_totals_projected_points gold_world)
                           Hc)) Ht eq_refl).
  - exact (proj2 (calculate_totals_projected_points anonymous_world) eq_refl).
Defined.

Lemma commit_credits_recorded_points_witness :
  current_user gold_world = Some {| user_id := 1 |} /\
  is_Some (users (db gold_world) !! 1) /\
  cart_client (cart gold_world) = Some (1, gold_client) /\
  clients (db gold_world) !! 1 = Some gold_client /\
  1 <> 0 /\ 0 <= loyalty_points gold_client /\
  validate_sale gold_world
  = (sold_world,
     (true, MsgSaleRecorded (sale_number gold_sale), Some (1, gold_sale))) /\
  loyalty_points <$> clients (db sold_world) !! 1
  = Some (600 + loyalty_points_earned gold_sale) /\
  exists w'',
    cancel_sale sold_world 1 = (w'', (true, MsgSaleCancelled)) /\
    loyalty_points <$> clients (db w'') !! 1 = Some 600.
Proof.
  pose proof gold_world_commit as H.
  assert (Hcart : cart_client (cart gold_world) = Some (1, gold_client))
    by (vm_compute; reflexivity).
  assert (Hc : clients (db gold_world) !! 1 = Some gold_client)
    by (vm_compute; reflexivity).
  assert (Hnz : 1 <> 0) by discriminate.
  assert (Hnn : 0 <= loyalty_points gold_client) by discriminate.
  split; [reflexivity|]. split; [exact gold_seller_registered|].
  split; [exact Hcart|]. split; [exact Hc|]. split; [exact Hnz|].
  split; [exact Hnn|]. split; [exact H|].
  exact (commit_credits_recorded_points gold_world sold_world _ 1 gold_sale
           {| user_id := 1 |} 1 gold_client gold_client eq_refl gold_seller_registered Hcart Hc
           Hnz Hnn H).
Defined.

(** * Further properties *)

(** ** Rounding to the hundredth *)

Lemma half_up_cents_comp (x y : Q) :
  (x == y)%Q -> half_up_cents x = half_up_cents y.
Proof.
  intros E. unfold half_up_cents.
  assert (B : Qle_bool 0 x = Qle_bool 0 y).
  { destruct (Qle_bool 0 x) eqn:Ex, (Qle_bool 0 y) eqn:Ey; auto.
    - apply Qle_bool_iff in Ex. rewrite E in Ex.
      apply Qle_bool_iff in Ex. congruence.
    - apply Qle_bool_iff in Ey. rewrite <- E in Ey.
      apply Qle_bool_iff in Ey. congruence. }
  rewrite B. destruct (Qle_bool 0 y); now rewrite E.
Qed.

Lemma half_up_cents_bounds (x : Q) :
  (inject_Z (half_up_cents x) - (1 # 2) <= x * 100)%Q /\
  (x * 100 <= inject_Z (half_up_cents x) + (1 # 2))%Q.
Proof.
  unfold half_up_cents. destruct (Qle_bool 0 x).
  - pose proof (Qfloor_le (x * 100 + (1 # 2))) as Hlo.
    pose proof (Qlt_floor (x * 100 + (1 # 2))) as Hhi.
    rewrite inject_Z_plus in Hhi. change (inject_Z 1) with 1%Q in Hhi.
    split; lra.
  - pose proof (Qfloor_le (- x * 100 + (1 # 2))) as Hlo.
    pose proof (Qlt_floor (- x * 100 + (1 # 2))) as Hhi.
    rewrite inject_Z_plus in Hhi. change (inject_Z 1) with 1%Q in Hhi.
    rewrite inject_Z_opp. split; lra.
Qed.

Lemma half_up_cents_nonneg (x : Q) : (0 <= x)%Q -> 0 <= half_up_cents x.
Proof.
  intros Hx. unfold half_up_cents.
  apply Qle_bool_iff in Hx as Hb. rewrite Hb.
  assert (H : (0 <= x * 100 + (1 # 2))%Q) by lra.
  apply Qfloor_resp_le in H. exact H.
Qed.

(** [X1].  [round_currency] returns a whole number of hundredths that is at
    most half a hundredth away from its argument, is the same for equal
    numbers, leaves a rounded amount as it is, keeps a non-negative amount
    non-negative, and takes an exact half hundredth away from zero. *)
Theorem round_currency_nearest_hundredth (x : Q) :
  (exists n : Z, round_currency x = (n # 100)%Q) /\
  (- (1 # 200) <= round_currency x - x <= 1 # 200)%Q /\
  round_currency (round_currency x) = round_currency x /\
  (forall y, (x == y)%Q -> round_currency x = round_currency y) /\
  ((0 <= x)%Q -> (0 <= round_currency x)%Q) /\
  (forall k : Z, 0 <= k -> (x == (2 * k + 1) # 200)%Q ->
     round_currency x = ((k + 1) # 100)%Q) /\
  (forall k : Z, 0 <= k -> (x == - ((2 * k + 1) # 200))%Q ->
     round_currency x = (- (k + 1) # 100)%Q).
Proof.
  split; [unfold round_currency; eauto|].
  split.
  { destruct (half_up_cents_bounds x) as [Hlo Hhi].
    unfold round_currency.
    pose proof (cents_times_100 (half_up_cents x)) as E.
    split; lra. }
  split; [unfold round_currency at 2 3; apply round_currency_cents|].
  split.
  { intros y E. unfold round_currency. now rewrite (half_up_cents_comp x y E). }
  split.
  { intros Hx. unfold round_currency.
    pose proof (half_up_cents_nonneg x Hx). unfold Qle; simpl. lia. }
  split.
  - intros k Hk E. unfold round_currency. f_equal.
    rewrite (half_up_cents_comp _ _ E). unfold half_up_cents.
    assert (Hb : Qle_bool 0 ((2 * k + 1) # 200) = true).
    { apply Qle_bool_iff. unfold Qle; simpl. lia. }
    rewrite Hb. apply Qfloor_unique.
    + rewrite inject_Z_plus. unfold Qle, Qplus, Qmult, inject_Z; simpl. lia.
    + rewrite inject_Z_plus. unfold Qlt, Qplus, Qmult, inject_Z; simpl. lia.
  - intros k Hk E. unfold round_currency. f_equal.
    rewrite (half_up_cents_comp _ _ E). unfold half_up_cents.
    assert (Hb : Qle_bool 0 (- ((2 * k + 1) # 200)) = false).
    { destruct (Qle_bool 0 (- ((2 * k + 1) # 200))) eqn:Eb; auto.
      apply Qle_bool_iff in Eb. unfold Qle in Eb; simpl in Eb. lia. }
    rewrite Hb.
    assert (F : Qfloor (- - ((2 * k + 1) # 200) * 100 + (1 # 2)) = k + 1);
      [|lia].
    apply Qfloor_unique.
    + rewrite inject_Z_plus.
      unfold Qle, Qplus, Qmult, Qopp, inject_Z; simpl. lia.
    + rewrite inject_Z_plus.
      unfold Qlt, Qplus, Qmult, Qopp, inject_Z; simpl. lia.
Qed.

Lemma round_currency_nearest_hundredth_witness :
  (0 <= 1 # 8)%Q /\ (0 <= round_currency (1 # 8))%Q /\
  round_currency (1 # 8) = (13 # 100)%Q.
Proof.
  assert (H : (0 <= 1 # 8)%Q) by discriminate.
  pose proof (round_currency_nearest_hundredth (1 # 8))
    as (_ & _ & _ & _ & Hnn & Hup & _).
  split; [exact H|]. split; [exact (Hnn H)|].
  apply (Hup 12); [discriminate|reflexivity].
Defined.

(** ** Discount *)

Lemma half_even_cents_bounds (x : Q) :
  (inject_Z (half_even_cents x) - (1 # 2) <= x * 100)%Q /\
  (x * 100 <= inject_Z (half_even_cents x) + (1 # 2))%Q.
Proof.
  unfold half_even_cents.
  pose proof (Qfloor_le (x * 100)) as Hlo.
  pose proof (Qlt_floor (x * 100)) as Hhi.
  rewrite inject_Z_plus in Hhi. change (inject_Z 1) with 1%Q in Hhi.
  set (f := Qfloor (x * 100)) in *.
  destruct (Qcompare_spec (x * 100 - inject_Z f) (1 # 2)) as [E|L|G].
  - destruct (Z.even f);
      rewrite ?inject_Z_plus; change (inject_Z 1) with 1%Q; split; lra.
  - split; lra.
  - rewrite inject_Z_plus. change (inject_Z 1) with 1%Q. split; lra.
Qed.

Lemma half_even_cents_between (x : Q) (a b : Z) :
  (inject_Z a <= x * 100)%Q -> (x * 100 <= inject_Z b)%Q ->
  a <= half_even_cents x <= b.
Proof.
  intros Ha Hb. unfold half_even_cents.
  pose proof (Qfloor_le (x * 100)) as Hlo.
  pose proof (Qlt_floor (x * 100)) as Hhi.
  set (f := Qfloor (x * 100)) in *.
  assert (Haf : a <= f).
  { assert (H : (inject_Z a < inject_Z (f + 1))%Q) by lra.
    rewrite <- Zlt_Qlt in H. lia. }
  assert (Hfb : f <= b).
  { assert (H : (inject_Z f <= inject_Z b)%Q) by lra.
    rewrite <- Zle_Qle in H. exact H. }
  assert (Hup : (inject_Z f < x * 100)%Q -> f + 1 <= b).
  { intros Hlt. assert (H : (inject_Z f < inject_Z b)%Q) by lra.
    rewrite <- Zlt_Qlt in H. lia. }
  destruct (Qcompare_spec (x * 100 - inject_Z f) (1 # 2)) as [E|L|G].
  - destruct (Z.even f); [lia|]. split; [lia|]. apply Hup. lra.
  - lia.
  - split; [lia|]. apply Hup. lra.
Qed.

(** [X2].  For an amount in whole hundredths and a tier percentage of at most
    100, [apply_discount] returns a total and a discount that both lie
    between 0 and the amount, a percentage between 0 and 100, and a total
    and a discount that add up to the amount within one hundredth. *)
Theorem apply_discount_bounds (w : World) (n : Z) (c : Client) :
  0 <= n -> (get_client_discount w c <= 100)%Q ->
  let r := apply_discount w (n # 100) (Some c) in
  (0 <= r.1.1 <= n # 100)%Q /\
  (0 <= r.2 <= n # 100)%Q /\
  (0 <= r.1.2 <= 100)%Q /\
  (- (1 # 100) <= r.1.1 + r.2 - (n # 100) <= 1 # 100)%Q.
Proof.
  intros Hn Hpct r. subst r.
  assert (Hamount : (0 <= n # 100)%Q) by (unfold Qle; simpl; lia).
  destruct (apply_discount_cases w (n # 100) c) as [E|(Hpos & Hp & E)];
    rewrite E; simpl.
  { repeat split; lra. }
  set (p := get_client_discount w c) in *.
  pose proof (cents_times_100 n) as Hs.
  assert (Hd : (0 <= p / 100 <= 1)%Q).
  { split; [apply Qle_shift_div_l; lra|apply Qle_shift_div_r; lra]. }
  set (d := (p / 100)%Q) in *.
  assert (Hx : (0 <= (n # 100) * d <= n # 100)%Q) by (split; nra).
  assert (H1 : 0 <= half_even_cents ((n # 100) - (n # 100) * d) <= n).
  { apply half_even_cents_between; change (inject_Z 0) with 0%Q; lra. }
  assert (H2 : 0 <= half_even_cents ((n # 100) * d) <= n).
  { apply half_even_cents_between; change (inject_Z 0) with 0%Q; lra. }
  destruct (half_even_cents_bounds ((n # 100) - (n # 100) * d)) as [B1 B2].
  destruct (half_even_cents_bounds ((n # 100) * d)) as [B3 B4].
  unfold py_round2.
  pose proof (cents_times_100
                (half_even_cents ((n # 100) - (n # 100) * d))) as V1.
  pose proof (cents_times_100 (half_even_cents ((n # 100) * d))) as V2.
  assert (Q1 : (0 <= inject_Z
                       (half_even_cents ((n # 100) - (n # 100) * d))
                <= inject_Z n)%Q)
    by (change 0%Q with (inject_Z 0); rewrite <- !Zle_Qle; lia).
  assert (Q2 : (0 <= inject_Z (half_even_cents ((n # 100) * d))
                <= inject_Z n)%Q)
    by (change 0%Q with (inject_Z 0); rewrite <- !Zle_Qle; lia).
  split; [|split; [|split]]; split; lra.
Qed.

(** ** Points *)

(** [X3].  For a positive amount and a positive constant, the points earned
    are the largest whole number of times the constant fits into the amount;
    they are never negative, and a larger amount never earns fewer
    points. *)
Theorem calculate_points_earned_floor (w : World) (a b : Q) :
  0 <= calculate_points_earned w a /\
  ((a <= b)%Q -> calculate_points_earned w a <= calculate_points_earned w b) /\
  ((0 < a)%Q -> 0 < points_per_unit (config w) ->
   (inject_Z (calculate_points_earned w a * points_per_unit (config w)) <= a)%Q
   /\ (a < inject_Z ((calculate_points_earned w a + 1)
                     * points_per_unit (config w)))%Q).
Proof.
  split; [apply calculate_points_earned_nonneg|]. split.
  - intros Hab.
    pose proof (calculate_points_earned_nonneg w b) as Hb.
    unfold calculate_points_earned in *.
    destruct (Qle_bool a 0) eqn:Ea; cbn [orb]; [exact Hb|].
    destruct (points_per_unit (config w) <=? 0) eqn:Ep; [exact Hb|].
    assert (Ha : ~ (a <= 0)%Q) by (rewrite <- Qle_bool_iff; congruence).
    assert (Eb : Qle_bool b 0 = false).
    { destruct (Qle_bool b 0) eqn:E; auto. apply Qle_bool_iff in E. lra. }
    rewrite Eb. cbn [orb]. apply Z.leb_gt in Ep.
    assert (H : (a / inject_Z (points_per_unit (config w))
                 <= b / inject_Z (points_per_unit (config w)))%Q).
    { unfold Qdiv. apply Qmult_le_compat_r; auto.
      apply Qinv_le_0_compat. change 0%Q with (inject_Z 0).
      rewrite <- Zle_Qle. lia. }
    apply Qfloor_resp_le in H. exact H.
  - intros Ha Hp. unfold calculate_points_earned.
    assert (Ea : Qle_bool a 0 = false).
    { destruct (Qle_bool a 0) eqn:E; auto. apply Qle_bool_iff in E. lra. }
    assert (Ep : (points_per_unit (config w) <=? 0) = false)
      by (apply Z.leb_gt; lia).
    rewrite Ea, Ep. cbn [orb].
    set (u := points_per_unit (config w)) in *.
    assert (Hu : (0 < inject_Z u)%Q)
      by (change 0%Q with (inject_Z 0); now rewrite <- Zlt_Qlt).
    pose proof (Qfloor_le (a / inject_Z u)) as Hlo.
    pose proof (Qlt_floor (a / inject_Z u)) as Hhi.
    assert (Hq : (a / inject_Z u * inject_Z u == a)%Q)
      by (field; lra).
    rewrite !inject_Z_mult. split.
    + rewrite <- Hq at 2. apply Qmult_le_compat_r; [exact Hlo|lra].
    + rewrite <- Hq at 1. apply Qmult_lt_compat_r; [exact Hu|exact Hhi].
Qed.

Lemma calculate_points_earned_floor_witness :
  (0 < 925 # 1)%Q /\ 0 < points_per_unit (config opening_world) /\
  ((919 # 1) <= (925 # 1))%Q /\
  calculate_points_earned opening_world (919 # 1)
  <= calculate_points_earned opening_world (925 # 1) /\
  (inject_Z (calculate_points_earned opening_world (925 # 1)
             * points_per_unit (config opening_world)) <= 925 # 1)%Q.
Proof.
  assert (H1 : (0 < 925 # 1)%Q) by reflexivity.
  assert (H2 : 0 < points_per_unit (config opening_world)) by reflexivity.
  assert (H3 : ((919 # 1) <= (925 # 1))%Q) by discriminate.
  pose proof (calculate_points_earned_floor opening_world (919 # 1)
                (925 # 1)) as (_ & Hmono & _).
  pose proof (calculate_points_earned_floor opening_world (925 # 1)
                (925 # 1)) as (_ & _ & Hfloor).
  split; [exact H1|]. split; [exact H2|]. split; [exact H3|].
  split; [exact (Hmono H3)|exact (proj1 (Hfloor H1 H2))].
Defined.

Lemma apply_discount_bounds_witness :
  0 <= 100000 /\ (get_client_discount gold_world gold_client <= 100)%Q /\
  (0 <= (apply_discount gold_world (100000 # 100) (Some gold_client)).1.1
   <= 100000 # 100)%Q /\
  (0 <= (apply_discount gold_world (100000 # 100) (Some gold_client)).2
   <= 100000 # 100)%Q.
Proof.
  assert (H1 : 0 <= 100000) by discriminate.
  assert (H2 : (get_client_discount gold_world gold_client <= 100)%Q)
    by (vm_compute; discriminate).
  pose proof (apply_discount_bounds gold_world 100000 gold_client H1 H2)
    as (Hf & Hd & _).
  split; [exact H1|]. split; [exact H2|]. split; [exact Hf|exact Hd].
Defined.

(** ** Amounts of a recorded sale *)



(** ** Tiers *)

Lemma better_tier_step (points : Z) (best : option LoyaltyTier)
  (x : LoyaltyTier) :
  (qualifies points x ->
   exists b', better_tier points best x = Some b' /\
              min_points x <= min_points b') /\
  (forall b, best = Some b ->
   exists b', better_tier points best x = Some b' /\
              min_points b <= min_points b') /\
  (forall b', better_tier points best x = Some b' ->
              best = Some b' \/ (b' = x /\ qualifies points x)).
Proof.
  unfold better_tier, qualifies.
  destruct (tier_is_active x) eqn:Ea; simpl.
  - destruct (Z.leb_spec (min_points x) points) as [Hl|Hl].
    + destruct best as [b0|].
      * destruct (Z.ltb_spec (min_points b0) (min_points x)) as [Hlt|Hge].
        -- split; [intros _; exists x; split; [auto|lia]|].
           split; [intros b [= ->]; exists x; split; [auto|lia]|].
           intros b' [= <-]. now right.
        -- split; [intros _; exists b0; split; [auto|lia]|].
           split; [intros b [= ->]; exists b; split; [auto|lia]|].
           intros b' [= <-]. now left.
      * split; [intros _; exists x; split; [auto|lia]|].
        split; [discriminate|]. intros b' [= <-]. now right.
    + split; [intros [_ H]; lia|].
      split; [intros b ->; exists b; split; [auto|lia]|]. now left.
  - split; [intros [H _]; discriminate|].
    split; [intros b ->; exists b; split; [auto|lia]|]. now left.
Qed.

Lemma better_tier_fold (points : Z) (l : list LoyaltyTier)
  (best : option LoyaltyTier) :
  (forall b, best = Some b -> qualifies points b) ->
  match fold_left (better_tier points) l best with
  | Some t =>
      qualifies points t /\ (best = Some t \/ In t l) /\
      (forall b, best = Some b -> min_points b <= min_points t) /\
      (forall t', In t' l -> qualifies points t' ->
                  min_points t' <= min_points t)
  | None => best = None /\ forall t', In t' l -> ~ qualifies points t'
  end.
Proof.
  revert best. induction l as [|x l IH]; intros best Hbest; simpl.
  - destruct best as [b|]; [|now split].
    split; [now apply Hbest|]. split; [now left|].
    split; [intros b' [= <-]; lia|easy].
  - destruct (better_tier_step points best x) as (Hx & Hkeep & Hfrom).
    assert (Hnext : forall b, better_tier points best x = Some b ->
                              qualifies points b).
    { intros b Hb. destruct (Hfrom b Hb) as [E|[-> Hq]]; auto. }
    specialize (IH (better_tier points best x) Hnext).
    destruct (fold_left (better_tier points) l (better_tier points best x))
      as [t|].
    + destruct IH as (Hq & Hin & Hge & Hmax).
      split; [exact Hq|]. split; [|split].
      * destruct Hin as [Hin|Hin]; [|now right; right].
        destruct (Hfrom t Hin) as [E|[-> _]]; [now left|now right; left].
      * intros b Hb. destruct (Hkeep b Hb) as (b' & Hb' & Hle).
        specialize (Hge b' Hb'). lia.
      * intros t' [<-|Hin'] Hq'; [|now apply Hmax].
        destruct (Hx Hq') as (b' & Hb' & Hle).
        specialize (Hge b' Hb'). lia.
    + destruct IH as (Hnone & Hno).
      split.
      * destruct best as [b|]; [|reflexivity].
        destruct (Hkeep b eq_refl) as (b' & Hb' & _). congruence.
      * intros t' [<-|Hin'] Hq'; [|now apply (Hno t')].
        destruct (Hx Hq') as (b' & Hb' & _). congruence.
Qed.

(** [X4].  [get_tier_for_points] returns an active tier of the table whose
    threshold the points reach and that no other such tier exceeds in
    threshold; it returns nothing exactly when no active tier has a
    threshold that the points reach. *)
Theorem get_tier_for_points_highest (w : World) (points : Z) :
  match get_tier_for_points w points with
  | Some t =>
      In t (loyalty_tiers (db w)) /\ tier_is_active t = true /\
      min_points t <= points /\
      forall t', In t' (loyalty_tiers (db w)) -> tier_is_active t' = true ->
                 min_points t' <= points -> min_points t' <= min_points t
  | None =>
      forall t', In t' (loyalty_tiers (db w)) -> tier_is_active t' = true ->
                 points < min_points t'
  end.
Proof.
  unfold get_tier_for_points.
  pose proof (better_tier_fold points (loyalty_tiers (db w)) None) as H.
  destruct (fold_left (better_tier points) (loyalty_tiers (db w)) None)
    as [t|].
  - destruct H as ([Ha Hl] & Hin & _ & Hmax); [discriminate|].
    destruct Hin as [Hin|Hin]; [discriminate|].
    repeat split; auto. intros t' Hin' Ha' Hl'. apply Hmax; auto. now split.
  - destruct H as (_ & Hno); [discriminate|].
    intros t' Hin' Ha'. destruct (Z.lt_ge_cases points (min_points t'));
      auto.
    exfalso. apply (Hno t' Hin'). now split.
Qed.

Lemma In_insert_tier (x t : LoyaltyTier) (l : list LoyaltyTier) :
  In x (insert_tier t l) <-> x = t \/ In x l.
Proof.
  induction l as [|y l IH]; simpl; [intuition|].
  destruct (min_points t <=? min_points y); simpl; [intuition|].
  rewrite IH. intuition.
Qed.

Lemma In_sort_tiers (x : LoyaltyTier) (l : list LoyaltyTier) :
  In x (sort_tiers l) <-> In x l.
Proof.
  unfold sort_tiers. induction l as [|y l IH]; simpl; [reflexivity|].
  rewrite In_insert_tier, IH. intuition.
Qed.

Lemma insert_tier_ascending (t : LoyaltyTier) (l : list LoyaltyTier) :
  ascending_thresholds l -> ascending_thresholds (insert_tier t l).
Proof.
  induction l as [|y l IH]; simpl; [intros _; split; [easy|exact I]|].
  intros [Hy Hl].
  destruct (Z.leb_spec (min_points t) (min_points y)) as [Hle|Hgt]; simpl.
  - split; [|split; auto].
    intros z [<-|Hz]; [exact Hle|]. specialize (Hy z Hz). lia.
  - split; [|auto].
    intros z Hz. apply In_insert_tier in Hz as [->|Hz]; [lia|auto].
Qed.

Lemma sort_tiers_ascending (l : list LoyaltyTier) :
  ascending_thresholds (sort_tiers l).
Proof.
  unfold sort_tiers. induction l as [|y l IH]; simpl; [exact I|].
  now apply insert_tier_ascending.
Qed.

Lemma find_first_above (cur : Z) (l : list LoyaltyTier) :
  ascending_thresholds l ->
  match List.find (fun tier => cur <? min_points tier) l with
  | Some t =>
      In t l /\ cur < min_points t /\
      forall t', In t' l -> cur < min_points t' ->
                 min_points t <= min_points t'
  | None => forall t', In t' l -> min_points t' <= cur
  end.
Proof.
  induction l as [|x l IH]; simpl; [easy|].
  intros [Hx Hl]. specialize (IH Hl).
  destruct (Z.ltb_spec cur (min_points x)) as [Hlt|Hge].
  - split; [now left|]. split; [exact Hlt|].
    intros t' [<-|Hin] _; [lia|now apply Hx].
  - destruct (List.find _ l) as [t|].
    + destruct IH as (Hin & Hlt & Hmin).
      split; [now right|]. split; [exact Hlt|].
      intros t' [<-|Hin'] Hlt'; [lia|now apply Hmin].
    + intros t' [<-|Hin']; [exact Hge|now apply IH].
Qed.

(** [X5].  For a customer, [get_next_tier] returns the active tier with the
    smallest threshold above the customer's points, together with the
    positive number of points still missing; it returns no tier and 0 points
    exactly when no active tier has a threshold above the customer's points.
    Without a customer it returns no tier and 0. *)
Theorem get_next_tier_nearest (w : World) (c : Client) :
  get_next_tier w None = (None, 0) /\
  match get_next_tier w (Some c) with
  | (Some t, needed) =>
      In t (loyalty_tiers (db w)) /\ tier_is_active t = true /\
      needed = min_points t - loyalty_points c /\ 0 < needed /\
      forall t', In t' (loyalty_tiers (db w)) -> tier_is_active t' = true ->
                 loyalty_points c < min_points t' ->
                 min_points t <= min_points t'
  | (None, needed) =>
      needed = 0 /\
      forall t', In t' (loyalty_tiers (db w)) -> tier_is_active t' = true ->
                 min_points t' <= loyalty_points c
  end.
Proof.
  split; [reflexivity|]. unfold get_next_tier, tier_get_all.
  pose proof (find_first_above (loyalty_points c)
                (sort_tiers (List.filter tier_is_active
                               (loyalty_tiers (db w))))
                (sort_tiers_ascending _)) as H.
  destruct (List.find _ _) as [t|].
  - destruct H as (Hin & Hlt & Hmin).
    apply In_sort_tiers, filter_In in Hin as [Hin Ha].
    repeat split; auto; [lia|].
    intros t' Hin' Ha' Hlt'. apply Hmin; auto.
    apply In_sort_tiers, filter_In. now split.
  - split; [reflexivity|]. intros t' Hin' Ha'. apply H.
    apply In_sort_tiers, filter_In. now split.
Qed.

Lemma get_tier_for_points_highest_witness :
  get_tier_for_points gold_world 600 = Some or_tier /\
  In argent_tier (loyalty_tiers (db gold_world)) /\
  tier_is_active argent_tier = true /\ min_points argent_tier <= 600 /\
  min_points argent_tier <= min_points or_tier.
Proof.
  assert (E : get_tier_for_points gold_world 600 = Some or_tier)
    by (vm_compute; reflexivity).
  assert (Hin : In argent_tier (loyalty_tiers (db gold_world)))
    by (right; left; reflexivity).
  assert (Hle : min_points argent_tier <= 600) by discriminate.
  pose proof (get_tier_for_points_highest gold_world 600) as H.
  rewrite E in H. destruct H as (_ & _ & _ & Hmax).
  split; [exact E|]. split; [exact Hin|]. split; [reflexivity|].
  split; [exact Hle|exact (Hmax argent_tier Hin eq_refl Hle)].
Defined.

Lemma get_next_tier_nearest_witness :
  get_next_tier gold_world (Some gold_client) = (Some platine_tier, 400) /\
  In platine_tier (loyalty_tiers (db gold_world)) /\
  tier_is_active platine_tier = true /\
  loyalty_points gold_client < min_points platine_tier /\
  min_points platine_tier <= min_points platine_tier.
Proof.
  assert (E : get_next_tier gold_world (Some gold_client)
              = (Some platine_tier, 400))
    by (vm_compute; reflexivity).
  assert (Hin : In platine_tier (loyalty_tiers (db gold_world)))
    by (right; right; right; left; reflexivity).
  assert (Hlt : loyalty_points gold_client < min_points platine_tier)
    by reflexivity.
  destruct (get_next_tier_nearest gold_world gold_client) as [_ H].
  rewrite E in H. destruct H as (_ & _ & _ & _ & Hmin).
  split; [exact E|]. split; [exact Hin|]. split; [reflexivity|].
  split; [exact Hlt|exact (Hmin platine_tier Hin eq_refl Hlt)].
Defined.

(** ** The cart *)

Lemma whole_cents_round (x : Q) : whole_cents x -> (round_currency x == x)%Q.
Proof.
  intros [n E]. unfold round_currency.
  rewrite (half_up_cents_comp _ _ E), half_up_cents_cents. now rewrite E.
Qed.

Lemma whole_cents_plus (x y : Q) :
  whole_cents x -> whole_cents y -> whole_cents (x + y).
Proof.
  intros [n Ex] [m Ey]. exists (n + m). rewrite Ex, Ey.
  unfold Qeq, Qplus; simpl. lia.
Qed.

Lemma whole_cents_scale (q : Z) (x : Q) :
  whole_cents x -> whole_cents (inject_Z q * x).
Proof.
  intros [n Ex]. exists (q * n). rewrite Ex.
  unfold Qeq, Qmult, inject_Z; simpl. lia.
Qed.

Lemma line_total_exact (it : CartItem) :
  whole_cents (item_unit_price it) ->
  (line_total it == inject_Z (item_quantity it) * item_unit_price it)%Q.
Proof.
  intros H. unfold line_total. now apply whole_cents_round, whole_cents_scale.
Qed.

Lemma line_totals_exact (its : list CartItem) (a a' : Q) :
  (a == a')%Q -> whole_cents a ->
  (forall it, In it its -> whole_cents (item_unit_price it)) ->
  (fold_left (fun acc it => (acc + line_total it)%Q) its a
   == fold_left (fun acc it => (acc + inject_Z (item_quantity it)
                                      * item_unit_price it)%Q) its a')%Q /\
  whole_cents (fold_left (fun acc it => (acc + line_total it)%Q) its a).
Proof.
  revert a a'. induction its as [|it its IH]; intros a a' E Ha Hp; simpl.
  - now split.
  - assert (Hit : whole_cents (item_unit_price it)) by (apply Hp; now left).
    apply IH.
    + now rewrite E, (line_total_exact it Hit).
    + apply whole_cents_plus; auto.
      destruct (whole_cents_scale (item_quantity it) _ Hit) as [n En].
      exists n. now rewrite (line_total_exact it Hit).
    + intros it' Hin. apply Hp. now right.
Qed.

(** [X6].  When every unit price of the cart has at most two decimals, each
    line total is exactly quantity times unit price and the subtotal is
    exactly their sum: the roundings lose nothing. *)
Theorem cart_subtotal_exact (c : Cart) :
  (forall it, In it (items c) -> whole_cents (item_unit_price it)) ->
  (forall it, In it (items c) ->
     (line_total it == inject_Z (item_quantity it) * item_unit_price it)%Q) /\
  (subtotal c == exact_amount (items c))%Q.
Proof.
  intros Hp. split.
  - intros it Hin. now apply line_total_exact, Hp.
  - unfold subtotal, exact_amount.
    destruct (line_totals_exact (items c) 0 0) as [E Hw]; auto.
    + reflexivity.
    + exists 0. reflexivity.
    + now rewrite (whole_cents_round _ Hw).
Qed.

Lemma quarter_cart_prices :
  forall it, In it (items (cart quarter_world)) ->
             whole_cents (item_unit_price it).
Proof.
  intros it [<-|[]]. exists 25. reflexivity.
Defined.

Lemma cart_subtotal_exact_witness :
  (forall it, In it (items (cart quarter_world)) ->
              whole_cents (item_unit_price it)) /\
  (subtotal (cart quarter_world)
   == exact_amount (items (cart quarter_world)))%Q.
Proof.
  split; [exact quarter_cart_prices|].
  exact (proj2 (cart_subtotal_exact (cart quarter_world) quarter_cart_prices)).
Defined.

Lemma find_item_update_first_same (i : Z) (f : CartItem -> CartItem)
  (its : list CartItem) :
  (forall it, item_medicament_id (f it) = item_medicament_id it) ->
  find_item i (update_first i f its) = f <$> find_item i its.
Proof.
  intros Hf. unfold find_item.
  induction its as [|a its IH]; simpl; [reflexivity|].
  destruct (item_medicament_id a =? i) eqn:E; simpl.
  - now rewrite Hf, E.
  - now rewrite E.
Qed.

Lemma find_item_update_first_other (i j : Z) (f : CartItem -> CartItem)
  (its : list CartItem) :
  j <> i ->
  (forall it, item_medicament_id (f it) = item_medicament_id it) ->
  find_item j (update_first i f its) = find_item j its.
Proof.
  intros Hne Hf. unfold find_item.
  induction its as [|a its IH]; simpl; [reflexivity|].
  destruct (Z.eqb_spec (item_medicament_id a) i) as [E|E]; simpl.
  - rewrite Hf.
    destruct (Z.eqb_spec (item_medicament_id a) j) as [E'|_]; [lia|].
    reflexivity.
  - now rewrite IH.
Qed.

Lemma find_item_remove_first_other (i j : Z) (its : list CartItem) :
  j <> i -> find_item j (remove_first i its) = find_item j its.
Proof.
  intros Hne. unfold find_item.
  induction its as [|a its IH]; simpl; [reflexivity|].
  destruct (Z.eqb_spec (item_medicament_id a) i) as [E|E]; simpl.
  - destruct (Z.eqb_spec (item_medicament_id a) j) as [E'|_]; [lia|].
    reflexivity.
  - now rewrite IH.
Qed.

Lemma find_item_absent (i : Z) (its : list CartItem) :
  i ∉ List.map item_medicament_id its -> find_item i its = None.
Proof.
  intros Hni. unfold find_item.
  destruct (List.find _ its) as [it|] eqn:Ef; [|reflexivity].
  apply find_some in Ef as [Hin E]. apply Z.eqb_eq in E.
  exfalso. apply Hni. rewrite <- E. apply list_elem_of_In, in_map, Hin.
Qed.

Lemma find_item_remove_first_same (i : Z) (its : list CartItem) :
  NoDup (List.map item_medicament_id its) ->
  find_item i (remove_first i its) = None.
Proof.
  induction its as [|a its IH]; simpl; [reflexivity|].
  intros Hnd. apply NoDup_cons in Hnd as [Ha Hnd].
  destruct (Z.eqb_spec (item_medicament_id a) i) as [E|E].
  - apply find_item_absent. now rewrite <- E.
  - unfold find_item. simpl.
    destruct (Z.eqb_spec (item_medicament_id a) i) as [E'|_]; [lia|].
    now apply IH.
Qed.

Lemma find_item_app_new (i j : Z) (its : list CartItem) (it : CartItem) :
  item_medicament_id it = i ->
  find_item j (its ++ [it])
  = match find_item j its with
    | Some x => Some x
    | None => if i =? j then Some it else None
    end.
Proof.
  intros <-. unfold find_item.
  induction its as [|a its IH]; simpl; [reflexivity|].
  destruct (item_medicament_id a =? j); [reflexivity|exact IH].
Qed.

Lemma update_first_positive (i : Z) (f : CartItem -> CartItem)
  (its : list CartItem) :
  (forall it, In it its -> 0 < item_quantity it) ->
  (forall it, In it its -> item_medicament_id it = i ->
              0 < item_quantity (f it)) ->
  forall it, In it (update_first i f its) -> 0 < item_quantity it.
Proof.
  induction its as [|a its IH]; simpl; [easy|].
  intros Hpos Hf it.
  destruct (Z.eqb_spec (item_medicament_id a) i) as [E|E]; simpl.
  - intros [<-|Hin]; [apply Hf; auto|apply Hpos; auto].
  - intros [<-|Hin]; [apply Hpos; auto|].
    apply IH; auto.
Qed.

Lemma remove_first_subset (i : Z) (its : list CartItem) (it : CartItem) :
  In it (remove_first i its) -> In it its.
Proof.
  induction its as [|a its IH]; simpl; [easy|].
  destruct (item_medicament_id a =? i); simpl; [auto|].
  intros [<-|Hin]; auto.
Qed.

Lemma add_to_cart_positive (w : World) (i q : Z) :
  cart_quantities_positive (cart w) ->
  cart_quantities_positive (cart (add_to_cart w i q).1).
Proof.
  intros Hpos. unfold add_to_cart.
  destruct (Z.leb_spec q 0) as [|Hq]; auto.
  destruct (medicament_get_by_id w i) as [m|]; auto.
  destruct (negb (med_is_active m)); auto.
  destruct (quantity_in_stock m <? _); auto.
  unfold cart_quantities_positive. simpl.
  destruct (find_item i (items (cart w))) as [it0|].
  - apply update_first_positive; auto.
    intros it Hin _. simpl. specialize (Hpos it Hin). lia.
  - intros it Hin. apply in_app_or in Hin as [Hin|[<-|[]]]; auto.
Qed.

Lemma remove_from_cart_positive (w : World) (i : Z) :
  cart_quantities_positive (cart w) ->
  cart_quantities_positive (cart (remove_from_cart w i).1).
Proof.
  intros Hpos. unfold remove_from_cart.
  destruct (find_item i (items (cart w))); auto.
  intros it Hin. simpl in Hin. eapply Hpos, remove_first_subset, Hin.
Qed.

Lemma update_cart_quantity_positive (w : World) (i q : Z) :
  cart_quantities_positive (cart w) ->
  cart_quantities_positive (cart (update_cart_quantity w i q).1).
Proof.
  intros Hpos. unfold update_cart_quantity.
  destruct (Z.leb_spec q 0) as [|Hq];
    [now apply remove_from_cart_positive|].
  destruct (find_item i (items (cart w))) as [it0|]; auto.
  destruct (quantity_in_stock (item_medicament it0) <? q); auto.
  unfold cart_quantities_positive. simpl.
  apply update_first_positive; auto.
Qed.

Lemma validate_sale_cart (w : World) :
  cart (validate_sale w).1 = cart w \/ cart (validate_sale w).1 = empty_cart.
Proof.
  unfold validate_sale.
  destruct (is_empty (cart w)); [now left|].
  destruct (current_user w) as [u|]; [|now left].
  destruct (first_unavailable w); [now left|].
  destruct (build_sale w u (calculate_totals w)) as [s|]; [|now left].
  destruct (sale_create w s) as [w1 sid]. now right.
Qed.

Lemma empty_cart_well_formed : cart_well_formed empty_cart.
Proof. split; [apply NoDup_nil_2|intros it []]. Qed.

(** [X7].  The cart operations keep the cart well formed: after
    [add_to_cart], [remove_from_cart], [update_cart_quantity], [set_client],
    [remove_client], [new_cart] and [validate_sale], whatever their
    arguments and result, the cart still has at most one line per medicine
    and every line has a quantity of at least one. *)
Theorem cart_operations_keep_cart_well_formed (w : World) :
  cart_well_formed (cart w) ->
  (forall i q, cart_well_formed (cart (add_to_cart w i q).1)) /\
  (forall i, cart_well_formed (cart (remove_from_cart w i).1)) /\
  (forall i q, cart_well_formed (cart (update_cart_quantity w i q).1)) /\
  (forall cid, cart_well_formed (cart (set_client w cid).1)) /\
  cart_well_formed (cart (remove_client w)) /\
  cart_well_formed (cart (new_cart w)) /\
  cart_well_formed (cart (validate_sale w).1).
Proof.
  intros [Hnd Hpos]. repeat split.
  - now apply add_to_cart_nodup.
  - now apply add_to_cart_positive.
  - now apply remove_from_cart_nodup.
  - now apply remove_from_cart_positive.
  - now apply update_cart_quantity_nodup.
  - now apply update_cart_quantity_positive.
  - now apply set_client_nodup.
  - unfold set_client. destruct (client_get_by_id w cid) as [c|]; auto.
    destruct (negb (client_is_active c)); auto.
  - exact Hnd.
  - exact Hpos.
  - apply NoDup_nil_2.
  - intros it [].
  - destruct (validate_sale_cart w) as [-> | ->];
      [exact Hnd|apply NoDup_nil_2].
  - destruct (validate_sale_cart w) as [-> | ->];
      [exact Hpos|intros it []].
Qed.

Lemma cart_operations_keep_cart_well_formed_witness :
  cart_well_formed (cart opening_world) /\
  cart_well_formed (cart (add_to_cart opening_world 1 3).1) /\
  cart_well_formed (cart (update_cart_quantity opening_world 1 0).1).
Proof.
  pose proof (cart_operations_keep_cart_well_formed opening_world
                empty_cart_well_formed) as (Hadd & _ & Hupd & _).
  split; [exact empty_cart_well_formed|].
  split; [exact (Hadd 1 3)|exact (Hupd 1 0)].
Defined.

(** [X8].  A successful [add_to_cart] leaves the store alone and touches one
    line only: a medicine that was not in the cart gets a new line, with the
    requested quantity and the selling price of the catalogue at that moment;
    a medicine that was in the cart keeps its line, with the unit price it
    had, and the quantity grows by the requested one; the lines of the
    other medicines and the customer are as before. *)
Theorem add_to_cart_line (w w' : World) (i q : Z) (msg : Msg) :
  add_to_cart w i q = (w', (true, msg)) ->
  db w' = db w /\ cart_client (cart w') = cart_client (cart w) /\
  (forall j, j <> i ->
     find_item j (items (cart w')) = find_item j (items (cart w))) /\
  exists m, medicaments (db w) !! i = Some m /\
    find_item i (items (cart w'))
    = Some match find_item i (items (cart w)) with
           | Some it => set_item_quantity it (item_quantity it + q)
           | None =>
               {| item_medicament_id := i; item_medicament := m;
                  item_quantity := q; item_unit_price := selling_price m |}
           end.
Proof.
  unfold add_to_cart, medicament_get_by_id.
  destruct (q <=? 0); [discriminate|].
  destruct (medicaments (db w) !! i) as [m|]; [|discriminate].
  destruct (negb (med_is_active m)); [discriminate|].
  destruct (quantity_in_stock m <? _); [discriminate|].
  intros [= <- _]. simpl.
  split; [reflexivity|]. split; [reflexivity|].
  destruct (find_item i (items (cart w))) as [it|] eqn:Ef.
  - split.
    + intros j Hne. now apply find_item_update_first_other.
    + exists m. split; [reflexivity|].
      rewrite find_item_update_first_same by reflexivity. now rewrite Ef.
  - split.
    + intros j Hne. rewrite (find_item_app_new i j) by reflexivity.
      destruct (find_item j (items (cart w))); [reflexivity|].
      destruct (Z.eqb_spec i j); [congruence|reflexivity].
    + exists m. split; [reflexivity|].
      rewrite (find_item_app_new i i) by reflexivity.
      now rewrite Ef, Z.eqb_refl.
Qed.

Lemma add_to_cart_line_witness :
  add_to_cart anonymous_world 1 2
  = ((add_to_cart anonymous_world 1 2).1, (true, MsgAddedToCart "PARA500")) /\
  db (add_to_cart anonymous_world 1 2).1 = db anonymous_world /\
  exists m, medicaments (db anonymous_world) !! 1 = Some m /\
    find_item 1 (items (cart (add_to_cart anonymous_world 1 2).1))
    = Some match find_item 1 (items (cart anonymous_world)) with
           | Some it => set_item_quantity it (item_quantity it + 2)
           | None =>
               {| item_medicament_id := 1; item_medicament := m;
                  item_quantity := 2; item_unit_price := selling_price m |}
           end.
Proof.
  assert (H : add_to_cart anonymous_world 1 2
              = ((add_to_cart anonymous_world 1 2).1,
                 (true, MsgAddedToCart "PARA500")))
    by (vm_compute; reflexivity).
  pose proof (add_to_cart_line anonymous_world _ 1 2 _ H)
    as (Hdb & _ & _ & Hline).
  split; [exact H|]. split; [exact Hdb|exact Hline].
Defined.

(** [X9].  [remove_from_cart] fails, changing nothing, when the medicine has
    no line in the cart; otherwise it succeeds, leaves the store, the
    customer and the lines of the other medicines alone, and in a cart with
    one line per medicine the medicine has no line left. *)
Theorem remove_from_cart_outcome (w : World) (i : Z) :
  (find_item i (items (cart w)) = None ->
   remove_from_cart w i = (w, (false, MsgItemNotInCart))) /\
  (forall it, find_item i (items (cart w)) = Some it ->
     exists w',
       remove_from_cart w i
       = (w', (true, MsgRemovedFromCart (med_name (item_medicament it)))) /\
       db w' = db w /\ cart_client (cart w') = cart_client (cart w) /\
       (forall j, j <> i ->
          find_item j (items (cart w')) = find_item j (items (cart w))) /\
       (NoDup (cart_ids (cart w)) -> find_item i (items (cart w')) = None)).
Proof.
  unfold remove_from_cart. split.
  - now intros ->.
  - intros it ->. eexists. split; [reflexivity|]. simpl.
    split; [reflexivity|]. split; [reflexivity|]. split.
    + intros j Hne. now apply find_item_remove_first_other.
    + intros Hnd. now apply find_item_remove_first_same.
Qed.

Lemma remove_from_cart_outcome_witness :
  find_item 2 (items (cart anonymous_world)) = None /\
  remove_from_cart anonymous_world 2
  = (anonymous_world, (false, MsgItemNotInCart)) /\
  exists it, find_item 1 (items (cart anonymous_world)) = Some it /\
    NoDup (cart_ids (cart anonymous_world)) /\
    find_item 1 (items (cart (remove_from_cart anonymous_world 1).1)) = None.
Proof.
  destruct (remove_from_cart_outcome anonymous_world 2) as [Hnone _].
  destruct (remove_from_cart_outcome anonymous_world 1) as [_ Hsome].
  assert (Hnd : NoDup (cart_ids (cart anonymous_world)))
    by (apply (bool_decide_unpack _); vm_compute; exact I).
  split; [reflexivity|]. split; [exact (Hnone eq_refl)|].
  eexists. split; [vm_compute; reflexivity|]. split; [exact Hnd|].
  destruct (Hsome _ eq_refl) as (w' & E & _ & _ & _ & Hgone).
  rewrite E. exact (Hgone Hnd).
Defined.

(** [X10].  [update_cart_quantity] with a quantity of 0 or less is
    [remove_from_cart].  With a positive quantity it fails, changing
    nothing, when the medicine has no line; otherwise it compares the
    quantity with the stock remembered by the line when it was added (not
    with the live stock): above it, it fails, changing nothing, and reports
    that remembered stock; up to it, it succeeds and sets the quantity of the
    line, whose unit price, and the other lines, stay as they were. *)
Theorem update_cart_quantity_outcome (w : World) (i q : Z) :
  (q <= 0 -> update_cart_quantity w i q = remove_from_cart w i) /\
  (0 < q -> find_item i (items (cart w)) = None ->
   update_cart_quantity w i q = (w, (false, MsgItemNotInCart))) /\
  (0 < q -> forall it, find_item i (items (cart w)) = Some it ->
     (quantity_in_stock (item_medicament it) < q ->
      update_cart_quantity w i q
      = (w, (false,
             MsgStockInsufficient (quantity_in_stock (item_medicament it)))))
     /\
     (q <= quantity_in_stock (item_medicament it) ->
      exists w',
        update_cart_quantity w i q = (w', (true, MsgQuantityUpdated)) /\
        db w' = db w /\ cart_client (cart w') = cart_client (cart w) /\
        find_item i (items (cart w')) = Some (set_item_quantity it q) /\
        (forall j, j <> i ->
           find_item j (items (cart w')) = find_item j (items (cart w))))).
Proof.
  unfold update_cart_quantity. split; [|split].
  - intros Hq. apply Z.leb_le in Hq. now rewrite Hq.
  - intros Hq ->. apply Z.leb_gt in Hq. now rewrite Hq.
  - intros Hq it Hit. apply Z.leb_gt in Hq. rewrite Hq, Hit. split.
    + intros Hlt. apply Z.ltb_lt in Hlt. now rewrite Hlt.
    + intros Hle. apply Z.ltb_ge in Hle. rewrite Hle.
      eexists. split; [reflexivity|]. simpl.
      split; [reflexivity|]. split; [reflexivity|]. split.
      * rewrite find_item_update_first_same by reflexivity.
        now rewrite Hit.
      * intros j Hne. now apply find_item_update_first_other.
Qed.

Lemma update_cart_quantity_outcome_witness :
  0 < 25 /\
  exists it, find_item 1 (items (cart anonymous_world)) = Some it /\
    quantity_in_stock (item_medicament it) < 25 /\
    update_cart_quantity anonymous_world 1 25
    = (anonymous_world,
       (false, MsgStockInsufficient (quantity_in_stock (item_medicament it)))).
Proof.
  assert (Hq : 0 < 25) by reflexivity.
  destruct (update_cart_quantity_outcome anonymous_world 1 25)
    as (_ & _ & Hline).
  split; [exact Hq|].
  eexists. split; [vm_compute; reflexivity|]. split; [reflexivity|].
  exact (proj1 (Hline Hq _ eq_refl) eq_refl).
Defined.

(** ** Stock movements *)

Lemma stock_of_stock_set (w : World) (i j : Z) (m : Medicament) (q : Z) :
  stock_of (stock_set w i m q) j = if decide (i = j) then q else stock_of w j.
Proof.
  unfold stock_of. change (medicaments (db (stock_set w i m q)))
    with (<[i := set_quantity m q]> (medicaments (db w))).
  destruct (decide (i = j)) as [->|Hne].
  - now rewrite lookup_insert_eq.
  - now rewrite lookup_insert_ne.
Qed.

Lemma stock_set_other (w : World) (i j : Z) (m : Medicament) (q : Z) :
  j <> i ->
  medicaments (db (stock_set w i m q)) !! j = medicaments (db w) !! j.
Proof.
  intros Hne. change (medicaments (db (stock_set w i m q)))
    with (<[i := set_quantity m q]> (medicaments (db w))).
  now rewrite lookup_insert_ne.
Qed.

(** [X11].  [remove_stock] is all or nothing.  It succeeds exactly when the
    quantity is positive, the medicine exists and its stock covers the
    quantity; then the stock of that medicine is lowered by the quantity, one
    exit movement of minus the quantity, with the given reason and
    reference, is appended to the ledger, and nothing else changes.  When it
    fails the state is unchanged. *)
Theorem remove_stock_all_or_nothing
  (w : World) (i q : Z) (r : Reason) (ref : option Z) :
  let res := remove_stock w i q r ref in
  (res.2.1 = true <->
   0 < q /\ exists m, medicaments (db w) !! i = Some m /\
                      q <= quantity_in_stock m) /\
  (res.2.1 = false -> res.1 = w) /\
  (res.2.1 = true ->
   stock_of res.1 i = stock_of w i - q /\
   (forall j, j <> i ->
      medicaments (db res.1) !! j = medicaments (db w) !! j) /\
   ledger res.1
   = ledger w ++ [{| mv_medicament_id := i; mv_user_id := acting_user w;
                     mv_type := EXIT; mv_quantity := - q;
                     mv_reference_id := ref; mv_reason := r |}] /\
   untouched_by_stock w res.1).
Proof.
  intros res. subst res.
  destruct (remove_stock_cases w i q r ref)
    as [(m & Hm & Hq & Hle & E)|([Hq|Hlt] & msg & E)]; rewrite E; simpl.
  - split; [split; [eauto|reflexivity]|].
    split; [discriminate|]. intros _.
    split.
    { change (stock_of (stock_set w i m (quantity_in_stock m - q)) i
              = stock_of w i - q).
      rewrite stock_of_stock_set. destruct (decide (i = i)); [|congruence].
      unfold stock_of. unfold meds in Hm. now rewrite Hm. }
    split; [intros j Hne; now apply (stock_set_other w i j)|].
    split; [reflexivity|].
    eapply untouched_by_stock_trans;
      [apply stock_set_untouched|apply record_movement_untouched].
  - split; [split; [discriminate|intros [? _]; lia]|].
    split; [reflexivity|discriminate].
  - split; [split; [discriminate|]|].
    + intros (_ & m & Hm & Hle). specialize (Hlt m Hm). lia.
    + split; [reflexivity|discriminate].
Qed.

Lemma remove_stock_all_or_nothing_witness :
  (remove_stock opening_world 1 5 ReasonVente None).2.1 = true /\
  stock_of (remove_stock opening_world 1 5 ReasonVente None).1 1
  = stock_of opening_world 1 - 5 /\
  (remove_stock opening_world 1 21 ReasonVente None).2.1 = false /\
  (remove_stock opening_world 1 21 ReasonVente None).1 = opening_world.
Proof.
  destruct (remove_stock_all_or_nothing opening_world 1 5 ReasonVente None)
    as (_ & _ & Hok).
  destruct (remove_stock_all_or_nothing opening_world 1 21 ReasonVente None)
    as (_ & Hko & _).
  split; [reflexivity|]. split; [exact (proj1 (Hok eq_refl))|].
  split; [reflexivity|exact (Hko eq_refl)].
Defined.



(** [X13].  [adjust_stock] refuses a negative quantity and an unknown
    medicine, changing nothing.  For a known medicine and a quantity equal to
    the stock it reports success, changing nothing and recording nothing.
    Otherwise it sets the stock to the quantity, appends one adjustment
    movement carrying the signed difference, and leaves the other medicines
    alone. *)
Theorem adjust_stock_outcome (w : World) (i nq : Z) (r : Reason) :
  (nq < 0 -> adjust_stock w i nq r = (w, (false, MsgNegativeQuantity))) /\
  (0 <= nq -> medicaments (db w) !! i = None ->
   adjust_stock w i nq r = (w, (false, MsgMedicamentNotFound))) /\
  (forall m, 0 <= nq -> medicaments (db w) !! i = Some m ->
     (nq = quantity_in_stock m ->
      adjust_stock w i nq r = (w, (true, MsgStockAlreadyAtValue))) /\
     (nq <> quantity_in_stock m ->
      let res := adjust_stock w i nq r in
      res.2 = (true, MsgStockAdjusted nq) /\
      stock_of res.1 i = nq /\
      (forall j, j <> i ->
         medicaments (db res.1) !! j = medicaments (db w) !! j) /\
      ledger res.1
      = ledger w ++ [{| mv_medicament_id := i; mv_user_id := acting_user w;
                        mv_type := ADJUSTMENT;
                        mv_quantity := nq - quantity_in_stock m;
                        mv_reference_id := None; mv_reason := r |}])).
Proof.
  unfold adjust_stock, medicament_get_by_id. split; [|split].
  - intros H. apply Z.ltb_lt in H. now rewrite H.
  - intros H ->. apply Z.ltb_ge in H. now rewrite H.
  - intros m H Hm. apply Z.ltb_ge in H. rewrite H, Hm. split.
    + intros ->. now rewrite Z.sub_diag.
    + intros Hne. destruct (Z.eqb_spec (nq - quantity_in_stock m) 0); [lia|].
      unfold medicament_update. rewrite Hm. simpl.
      split; [reflexivity|]. split; [|split; [|reflexivity]].
      * unfold stock_of. simpl. now rewrite lookup_insert_eq.
      * intros j Hj. simpl. now rewrite lookup_insert_ne.
Qed.

Lemma adjust_stock_outcome_witness :
  0 <= 3 /\ medicaments (db opening_world) !! 2
            = Some {| med_name := "PASTILLE"; selling_price := (1 # 4)%Q;
                      quantity_in_stock := 10; med_is_active := true |} /\
  3 <> 10 /\
  stock_of (adjust_stock opening_world 2 3 (ReasonText "Inventaire")).1 2 = 3
  /\ adjust_stock opening_world 2 (-1) (ReasonText "Inventaire")
     = (opening_world, (false, MsgNegativeQuantity)).
Proof.
  assert (H0 : 0 <= 3) by discriminate.
  assert (Hm : medicaments (db opening_world) !! 2
               = Some {| med_name := "PASTILLE"; selling_price := (1 # 4)%Q;
                         quantity_in_stock := 10; med_is_active := true |})
    by (vm_compute; reflexivity).
  assert (Hne : 3 <> 10) by discriminate.
  destruct (adjust_stock_outcome opening_world 2 3 (ReasonText "Inventaire"))
    as (_ & _ & Hset).
  destruct (adjust_stock_outcome opening_world 2 (-1)
              (ReasonText "Inventaire")) as (Hneg & _).
  split; [exact H0|]. split; [exact Hm|]. split; [exact Hne|].
  split; [exact (proj1 (proj2 (proj2 (Hset _ H0 Hm) Hne)))|].
  exact (Hneg eq_refl).
Defined.

(** ** The ledger *)

Lemma ledger_extends_refl (w : World) : ledger_extends w w.
Proof. exists []. split; [now rewrite app_nil_r|constructor]. Qed.

Lemma ledger_extends_same (w w' : World) :
  ledger w' = ledger w -> ledger_extends w w'.
Proof.
  intros E. exists []. split; [now rewrite app_nil_r|constructor].
Qed.

Lemma ledger_extends_trans (w1 w2 w3 : World) :
  ledger_extends w1 w2 -> ledger_extends w2 w3 -> ledger_extends w1 w3.
Proof.
  intros (a & Ea & Ha) (b & Eb & Hb). exists (a ++ b).
  split; [now rewrite Eb, Ea, app_assoc|now apply Forall_app].
Qed.

Lemma ledger_extends_one (w w' : World) (mv : StockMovement) :
  ledger w' = ledger w ++ [mv] -> movement_well_formed mv ->
  ledger_extends w w'.
Proof. intros E H. exists [mv]. split; [exact E|repeat constructor; auto]. Qed.

Lemma remove_stock_ledger (w : World) (i q : Z) (r : Reason)
  (ref : option Z) :
  ledger_extends w (remove_stock w i q r ref).1.
Proof.
  destruct (remove_stock_cases w i q r ref)
    as [(m & _ & Hq & _ & ->)|(_ & msg & ->)]; simpl.
  - eapply ledger_extends_one; [reflexivity|]. simpl.
    unfold movement_well_formed; simpl. lia.
  - apply ledger_extends_refl.
Qed.

Lemma add_stock_ledger (w : World) (i q : Z) (r : Reason) :
  ledger_extends w (add_stock w i q r).1.
Proof.
  destruct (add_stock_cases w i q r)
    as [(m & _ & Hq & _ & ->)|(_ & msg & ->)]; simpl.
  - eapply ledger_extends_one; [reflexivity|]. exact Hq.
  - apply ledger_extends_refl.
Qed.

Lemma adjust_stock_ledger (w : World) (i nq : Z) (r : Reason) :
  ledger_extends w (adjust_stock w i nq r).1.
Proof.
  unfold adjust_stock, medicament_get_by_id, medicament_update.
  destruct (nq <? 0); [apply ledger_extends_refl|].
  destruct (medicaments (db w) !! i) as [m|]; [|apply ledger_extends_refl].
  destruct (Z.eqb_spec (nq - quantity_in_stock m) 0) as [|Hne];
    [apply ledger_extends_refl|]. simpl.
  eapply ledger_extends_one; [reflexivity|]. exact Hne.
Qed.

Lemma fold_left_ledger {X : Type} (step : World -> X -> World)
  (xs : list X) (w : World) :
  (forall a x, ledger_extends a (step a x)) ->
  ledger_extends w (fold_left step xs w).
Proof.
  intros Hstep. revert w.
  induction xs as [|x xs IH]; intros w; simpl.
  - apply ledger_extends_refl.
  - eapply ledger_extends_trans; [apply Hstep|apply IH].
Qed.

Lemma validate_sale_ledger (w : World) :
  ledger_extends w (validate_sale w).1.
Proof.
  unfold validate_sale.
  destruct (is_empty (cart w)); [apply ledger_extends_refl|].
  destruct (current_user w) as [u|]; [|apply ledger_extends_refl].
  destruct (first_unavailable w); [apply ledger_extends_refl|].
  destruct (build_sale w u (calculate_totals w)) as [s|];
    [|apply ledger_extends_refl].
  destruct (sale_create w s) as [w1 sid] eqn:E.
  unfold finish_sale; simpl.
  assert (E1 : ledger w1 = ledger w)
    by (unfold sale_create in E; now injection E as <- _).
  apply (ledger_extends_trans w w1); [apply ledger_extends_same, E1|].
  apply (ledger_extends_trans w1 (commit_stock w1 sid)).
  - unfold commit_stock. apply fold_left_ledger.
    intros a x. apply remove_stock_ledger.
  - apply ledger_extends_same.
    apply (update_client_after_sale_untouched (commit_stock w1 sid)).
Qed.

Lemma cancel_sale_ledger (w : World) (sid : Z) :
  ledger_extends w (cancel_sale w sid).1.
Proof.
  unfold cancel_sale, sale_cancel.
  destruct (sale_get_by_id w sid) as [s|]; [|apply ledger_extends_refl].
  destruct (status s); [|apply ledger_extends_refl].
  destruct (sales (db w) !! sid) as [s0|]; [|apply ledger_extends_refl].
  simpl.
  set (w1 := with_db w (with_sales (db w)
               (<[sid := set_status s0 cancelled]> (sales (db w))))).
  apply (ledger_extends_trans w w1); [now apply ledger_extends_same|].
  apply (ledger_extends_trans w1 (restock w1 s)).
  - unfold restock. apply fold_left_ledger.
    intros a x. apply add_stock_ledger.
  - apply ledger_extends_same. apply take_back_points_untouched.
Qed.

(** [X14].  The ledger is append-only and keeps its sign convention:
    [add_stock], [remove_stock], [adjust_stock], [validate_sale] and
    [cancel_sale] leave every movement already recorded in place and only
    append movements whose quantity is positive for an entry, negative for
    an exit and not null for an adjustment. *)
Theorem ledger_only_grows (w : World) :
  (forall i q r, ledger_extends w (add_stock w i q r).1) /\
  (forall i q r ref, ledger_extends w (remove_stock w i q r ref).1) /\
  (forall i nq r, ledger_extends w (adjust_stock w i nq r).1) /\
  ledger_extends w (validate_sale w).1 /\
  (forall sid, ledger_extends w (cancel_sale w sid).1).
Proof.
  split; [intros; apply add_stock_ledger|].
  split; [intros; apply remove_stock_ledger|].
  split; [intros; apply adjust_stock_ledger|].
  split; [apply validate_sale_ledger|intros; apply cancel_sale_ledger].
Qed.

Lemma ledger_sum_app (i : Z) (l k : list StockMovement) :
  ledger_sum i (l ++ k) = ledger_sum i l + ledger_sum i k.
Proof.
  unfold ledger_sum. induction l as [|mv l IH]; simpl; [lia|].
  rewrite IH. lia.
Qed.

Lemma unaccounted_same (w w' : World) (i : Z) :
  meds w' = meds w -> ledger w' = ledger w ->
  unaccounted w' i = unaccounted w i.
Proof.
  unfold unaccounted, stock_of, meds. now intros -> ->.
Qed.

Lemma unaccounted_move (w w' : World) (i j : Z) (m : Medicament)
  (d : Z) (mv : StockMovement) :
  meds w !! j = Some m ->
  meds w' = <[j := set_quantity m (quantity_in_stock m + d)]> (meds w) ->
  ledger w' = ledger w ++ [mv] ->
  mv_medicament_id mv = j -> mv_quantity mv = d ->
  unaccounted w' i = unaccounted w i.
Proof.
  unfold unaccounted, stock_of, meds. intros Hm -> -> Hid Hq.
  rewrite ledger_sum_app. simpl. rewrite Hid, Hq.
  destruct (Z.eqb_spec j i) as [->|Hne].
  - rewrite lookup_insert_eq, Hm. simpl. lia.
  - rewrite lookup_insert_ne by auto. lia.
Qed.

Lemma remove_stock_unaccounted (w : World) (i q : Z) (r : Reason)
  (ref : option Z) (k : Z) :
  unaccounted (remove_stock w i q r ref).1 k = unaccounted w k.
Proof.
  destruct (remove_stock_cases w i q r ref)
    as [(m & Hm & _ & _ & ->)|(_ & msg & ->)]; simpl; [|reflexivity].
  eapply (unaccounted_move w _ k i m (- q)); eauto; reflexivity.
Qed.

Lemma add_stock_unaccounted (w : World) (i q : Z) (r : Reason) (k : Z) :
  unaccounted (add_stock w i q r).1 k = unaccounted w k.
Proof.
  destruct (add_stock_cases w i q r)
    as [(m & Hm & _ & _ & ->)|(_ & msg & ->)]; simpl; [|reflexivity].
  eapply (unaccounted_move w _ k i m q); eauto; reflexivity.
Qed.

Lemma adjust_stock_unaccounted (w : World) (i nq : Z) (r : Reason) (k : Z) :
  unaccounted (adjust_stock w i nq r).1 k = unaccounted w k.
Proof.
  unfold adjust_stock, medicament_get_by_id, medicament_update.
  destruct (nq <? 0); [reflexivity|].
  destruct (medicaments (db w) !! i) as [m|] eqn:Hm; [|reflexivity].
  destruct (nq - quantity_in_stock m =? 0); [reflexivity|]. simpl.
  eapply (unaccounted_move w _ k i m (nq - quantity_in_stock m)); eauto;
    try reflexivity.
  unfold meds. simpl. do 2 f_equal. lia.
Qed.

Lemma validate_sale_unaccounted (w : World) (k : Z) :
  unaccounted (validate_sale w).1 k = unaccounted w k.
Proof.
  unfold validate_sale.
  destruct (is_empty (cart w)); [reflexivity|].
  destruct (current_user w) as [u|]; [|reflexivity].
  destruct (first_unavailable w); [reflexivity|].
  destruct (build_sale w u (calculate_totals w)) as [s|]; [|reflexivity].
  destruct (sale_create w s) as [w1 sid] eqn:E.
  unfold finish_sale; simpl.
  assert (E1 : unaccounted w1 k = unaccounted w k)
    by (unfold sale_create in E; now injection E as <- _).
  destruct (update_client_after_sale_untouched (commit_stock w1 sid)
              (calculate_totals w)) as (Hm & _ & _ & Hl & _).
  rewrite (unaccounted_same (commit_stock w1 sid)) by auto.
  unfold commit_stock.
  apply (fold_left_invariant (fun a => unaccounted a k = unaccounted w k));
    auto.
  intros a x Ha. now rewrite remove_stock_unaccounted.
Qed.

Lemma cancel_sale_unaccounted (w : World) (sid k : Z) :
  unaccounted (cancel_sale w sid).1 k = unaccounted w k.
Proof.
  unfold cancel_sale, sale_cancel.
  destruct (sale_get_by_id w sid) as [s|]; [|reflexivity].
  destruct (status s); [|reflexivity].
  destruct (sales (db w) !! sid) as [s0|]; [|reflexivity]. simpl.
  set (w1 := with_db w (with_sales (db w)
               (<[sid := set_status s0 cancelled]> (sales (db w))))).
  destruct (take_back_points_untouched (restock w1 s) s)
    as (Hm & _ & _ & Hl & _).
  rewrite (unaccounted_same (restock w1 s)
             (take_back_points (restock w1 s) s) k Hm Hl).
  unfold restock.
  apply (fold_left_invariant (fun a => unaccounted a k = unaccounted w k));
    [|reflexivity].
  intros a x Ha. now rewrite add_stock_unaccounted.
Qed.

(** [X15].  Stock and ledger move together: for every medicine, the
    quantity in stock minus the sum of its movements in the ledger is the
    same before and after [remove_stock], [adjust_stock] and
    [validate_sale], whether they succeed or fail, and before and after
    [add_stock] and [cancel_sale] as long as the stock they raise stays below
    2^63, the range of SQLite's integers. *)
Theorem stock_moves_with_ledger (w : World) (k : Z) :
  (forall i q r,
     stock_of w i + q < 2 ^ 63 ->
     unaccounted (add_stock w i q r).1 k = unaccounted w k) /\
  (forall i q r ref,
     unaccounted (remove_stock w i q r ref).1 k = unaccounted w k) /\
  (forall i nq r, unaccounted (adjust_stock w i nq r).1 k = unaccounted w k)
  /\ unaccounted (validate_sale w).1 k = unaccounted w k /\
  (forall sid,
     (forall j, stock_of (cancel_sale w sid).1 j < 2 ^ 63) ->
     unaccounted (cancel_sale w sid).1 k = unaccounted w k).
Proof.
  split; [intros; apply add_stock_unaccounted|].
  split; [intros; apply remove_stock_unaccounted|].
  split; [intros; apply adjust_stock_unaccounted|].
  split; [apply validate_sale_unaccounted|intros; apply cancel_sale_unaccounted].
Qed.

Lemma stock_moves_with_ledger_witness :
  stock_of opening_world 1 + 5 < 2 ^ 63 /\
  unaccounted (add_stock opening_world 1 5 (ReasonText "Livraison")).1 1
  = unaccounted opening_world 1 /\
  unaccounted (validate_sale gold_world).1 1 = unaccounted gold_world 1.
Proof.
  destruct (stock_moves_with_ledger opening_world 1) as (Hadd & _).
  destruct (stock_moves_with_ledger gold_world 1) as (_ & _ & _ & Hv & _).
  assert (Hb : stock_of opening_world 1 + 5 < 2 ^ 63)
    by (vm_compute; reflexivity).
  split; [exact Hb|]. split; [exact (Hadd 1 5 _ Hb)|exact Hv].
Defined.

(** ** Points and lifetime spend *)

Lemma points_nonneg_clients (w w' : World) :
  clients (db w') = clients (db w) -> points_nonneg w -> points_nonneg w'.
Proof. unfold points_nonneg. now intros ->. Qed.

Lemma update_loyalty_points_nonneg (w : World) (cid d : Z) :
  points_nonneg w -> points_nonneg (update_loyalty_points w cid d).1.
Proof.
  intros Hw.
  destruct (update_loyalty_points_cases w cid d)
    as [(c & Hc & Hge & ->)|[_ ->]]; auto.
  intros j cj. simpl. destruct (decide (cid = j)) as [->|Hne].
  - rewrite lookup_insert_eq. now intros [= <-].
  - rewrite lookup_insert_ne by auto. apply Hw.
Qed.

Lemma add_points_to_client_nonneg (w : World) (cid : Z) (a : Q) :
  points_nonneg w -> points_nonneg (add_points_to_client w cid a).1.
Proof.
  intros Hw. unfold add_points_to_client.
  destruct (client_get_by_id w cid) as [c|]; auto.
  destruct (0 <? calculate_points_earned w a); auto.
  pose proof (update_loyalty_points_nonneg w cid
                (calculate_points_earned w a) Hw) as H.
  destruct (update_loyalty_points w cid _) as [w1 [|]]; exact H.
Qed.

Lemma use_client_points_nonneg (w : World) (cid p : Z) :
  points_nonneg w -> points_nonneg (use_client_points w cid p).1.
Proof.
  intros Hw. unfold use_client_points.
  destruct (p <=? 0); auto.
  destruct (client_get_by_id w cid) as [c|]; auto.
  destruct (loyalty_points c <? p); auto.
  pose proof (update_loyalty_points_nonneg w cid (- p) Hw) as H.
  destruct (update_loyalty_points w cid _) as [w1 [|]]; exact H.
Qed.

Lemma update_total_spent_nonneg (w : World) (cid : Z) (a : Q) :
  points_nonneg w -> points_nonneg (update_total_spent w cid a).1.
Proof.
  intros Hw. unfold update_total_spent.
  destruct (clients (db w) !! cid) as [c|] eqn:Hc; auto.
  intros j cj. simpl. destruct (decide (cid = j)) as [->|Hne].
  - rewrite lookup_insert_eq. intros [= <-]. simpl. now apply (Hw j c).
  - rewrite lookup_insert_ne by auto. apply Hw.
Qed.

Lemma validate_sale_points_nonneg (w : World) :
  points_nonneg w -> points_nonneg (validate_sale w).1.
Proof.
  intros Hw. unfold validate_sale.
  destruct (is_empty (cart w)); auto.
  destruct (current_user w) as [u|]; auto.
  destruct (first_unavailable w); auto.
  destruct (build_sale w u (calculate_totals w)) as [s|]; auto.
  destruct (sale_create w s) as [w1 sid] eqn:E.
  unfold finish_sale; simpl.
  assert (H1 : points_nonneg (commit_stock w1 sid)).
  { eapply points_nonneg_clients; [apply commit_stock_untouched|].
    unfold sale_create in E. injection E as <- _. exact Hw. }
  unfold update_client_after_sale.
  destruct (cart_client (cart (commit_stock w1 sid))) as [[cid c]|]; auto.
  intros j cj. apply update_total_spent_nonneg.
  now apply add_points_to_client_nonneg.
Qed.

Lemma cancel_sale_points_nonneg (w : World) (sid : Z) :
  points_nonneg w -> points_nonneg (cancel_sale w sid).1.
Proof.
  intros Hw. unfold cancel_sale, sale_cancel.
  destruct (sale_get_by_id w sid) as [s|]; auto.
  destruct (status s); auto.
  destruct (sales (db w) !! sid) as [s0|]; auto. simpl.
  set (w1 := with_db w (with_sales (db w)
               (<[sid := set_status s0 cancelled]> (sales (db w))))).
  assert (H1 : points_nonneg (restock w1 s)).
  { eapply points_nonneg_clients; [apply restock_untouched|]. exact Hw. }
  unfold take_back_points.
  destruct (sale_client_id s) as [cid|]; auto.
  destruct (negb (cid =? 0) && (0 <? loyalty_points_earned s)); auto.
  now apply use_client_points_nonneg.
Qed.

(** [X16].  A balance of points is never negative: the guarded update of the
    customer store refuses, changing nothing, a change that would make the
    balance negative, and [update_loyalty_points], [add_points_to_client],
    [use_client_points], [update_total_spent], [validate_sale] and
    [cancel_sale] keep every balance non-negative. *)
Theorem points_never_negative (w : World) :
  points_nonneg w ->
  (forall cid d c,
     clients (db w) !! cid = Some c -> loyalty_points c + d < 0 ->
     update_loyalty_points w cid d = (w, false)) /\
  (forall cid d, points_nonneg (update_loyalty_points w cid d).1) /\
  (forall cid a, points_nonneg (add_points_to_client w cid a).1) /\
  (forall cid p, points_nonneg (use_client_points w cid p).1) /\
  (forall cid a, points_nonneg (update_total_spent w cid a).1) /\
  points_nonneg (validate_sale w).1 /\
  (forall sid, points_nonneg (cancel_sale w sid).1).
Proof.
  intros Hw. split.
  { intros cid d c Hc Hlt. unfold update_loyalty_points. rewrite Hc.
    destruct (Z.leb_spec 0 (loyalty_points c + d)); [lia|reflexivity]. }
  split; [intros; now apply update_loyalty_points_nonneg|].
  split; [intros; now apply add_points_to_client_nonneg|].
  split; [intros; now apply use_client_points_nonneg|].
  split; [intros; now apply update_total_spent_nonneg|].
  split; [now apply validate_sale_points_nonneg|].
  intros; now apply cancel_sale_points_nonneg.
Qed.

Lemma gold_points_nonneg : points_nonneg gold_world.
Proof.
  assert (H : map_Forall (fun _ c => 0 <= loyalty_points c)
                (clients (db gold_world)))
    by (apply (bool_decide_unpack _); vm_compute; exact I).
  intros i c Hc. exact (H i c Hc).
Defined.

Lemma points_never_negative_witness :
  points_nonneg gold_world /\
  update_loyalty_points gold_world 1 (-601) = (gold_world, false) /\
  points_nonneg (validate_sale gold_world).1.
Proof.
  pose proof (points_never_negative gold_world gold_points_nonneg)
    as (Hrefuse & _ & _ & _ & _ & Hv & _).
  split; [exact gold_points_nonneg|]. split; [|exact Hv].
  apply (Hrefuse 1 (-601) gold_client); [vm_compute; reflexivity|reflexivity].
Defined.

(** [X17].  [use_client_points] is all or nothing.  It succeeds exactly when
    the number of points is positive, the customer exists and the balance
    covers the points; then the balance of that customer is lowered by the
    points and nothing else changes, lifetime spend included.  When it fails
    the state is unchanged. *)
Theorem use_client_points_all_or_nothing (w : World) (cid p : Z) :
  let res := use_client_points w cid p in
  (res.2.1 = true <->
   0 < p /\ exists c, clients (db w) !! cid = Some c /\
                      p <= loyalty_points c) /\
  (res.2.1 = false -> res.1 = w) /\
  (res.2.1 = true ->
   (forall c, clients (db w) !! cid = Some c ->
      clients (db res.1) !! cid
      = Some (set_loyalty_points c (loyalty_points c - p))) /\
   (forall j, j <> cid -> clients (db res.1) !! j = clients (db w) !! j) /\
   untouched_by_loyalty w res.1).
Proof.
  intros res. subst res. unfold use_client_points, client_get_by_id.
  destruct (Z.leb_spec p 0) as [Hp|Hp]; simpl.
  { split; [split; [discriminate|intros [? _]; lia]|].
    split; [reflexivity|discriminate]. }
  destruct (clients (db w) !! cid) as [c|] eqn:Hc; simpl.
  2: { split; [split; [discriminate|intros (_ & c & [=] & _)]|].
       split; [reflexivity|discriminate]. }
  destruct (Z.ltb_spec (loyalty_points c) p) as [Hlt|Hge]; simpl.
  { split; [split; [discriminate|intros (_ & c' & [= <-] & ?); lia]|].
    split; [reflexivity|discriminate]. }
  destruct (update_loyalty_points_cases w cid (- p))
    as [(c0 & Hc0 & _ & ->)|[Hneg _]].
  - rewrite Hc in Hc0. injection Hc0 as <-. simpl.
    split; [split; [eauto|reflexivity]|].
    split; [discriminate|]. intros _. split; [|split].
    + intros c' [= <-]. now rewrite lookup_insert_eq.
    + intros j Hne. now rewrite lookup_insert_ne.
    + unfold untouched_by_loyalty. repeat split; reflexivity.
  - specialize (Hneg c Hc). lia.
Qed.

Lemma use_client_points_all_or_nothing_witness :
  (use_client_points opening_world 1 600).2.1 = true /\
  clients (db opening_world) !! 1 = Some gold_client /\
  clients (db (use_client_points opening_world 1 600).1) !! 1
  = Some (set_loyalty_points gold_client (loyalty_points gold_client - 600))
  /\ (use_client_points opening_world 1 601).2.1 = false /\
  (use_client_points opening_world 1 601).1 = opening_world.
Proof.
  destruct (use_client_points_all_or_nothing opening_world 1 600)
    as (_ & _ & Hok).
  destruct (use_client_points_all_or_nothing opening_world 1 601)
    as (_ & Hko & _).
  assert (Hc : clients (db opening_world) !! 1 = Some gold_client)
    by (vm_compute; reflexivity).
  split; [reflexivity|]. split; [exact Hc|].
  split; [exact (proj1 (Hok eq_refl) _ Hc)|].
  split; [reflexivity|exact (Hko eq_refl)].
Defined.

Lemma update_loyalty_points_total_spent (w : World) (cid d j : Z) :
  total_spent <$> clients (db (update_loyalty_points w cid d).1) !! j
  = total_spent <$> clients (db w) !! j.
Proof.
  destruct (update_loyalty_points_cases w cid d)
    as [(c & Hc & _ & ->)|[_ ->]]; [|reflexivity].
  simpl. destruct (decide (cid = j)) as [->|Hne].
  - now rewrite lookup_insert_eq, Hc.
  - now rewrite lookup_insert_ne.
Qed.

Lemma use_client_points_total_spent (w : World) (cid p j : Z) :
  total_spent <$> clients (db (use_client_points w cid p).1) !! j
  = total_spent <$> clients (db w) !! j.
Proof.
  unfold use_client_points.
  destruct (p <=? 0); [reflexivity|].
  destruct (client_get_by_id w cid) as [c|]; [|reflexivity].
  destruct (loyalty_points c <? p); [reflexivity|].
  pose proof (update_loyalty_points_total_spent w cid (- p) j) as H.
  destruct (update_loyalty_points w cid _) as [w1 [|]]; exact H.
Qed.

Lemma add_points_to_client_total_spent (w : World) (cid : Z) (a : Q) (j : Z) :
  total_spent <$> clients (db (add_points_to_client w cid a).1) !! j
  = total_spent <$> clients (db w) !! j.
Proof.
  unfold add_points_to_client.
  destruct (client_get_by_id w cid) as [c|]; [|reflexivity].
  destruct (0 <? calculate_points_earned w a); [|reflexivity].
  pose proof (update_loyalty_points_total_spent w cid
                (calculate_points_earned w a) j) as H.
  destruct (update_loyalty_points w cid _) as [w1 [|]]; exact H.
Qed.

Lemma cancel_sale_total_spent (w : World) (sid j : Z) :
  total_spent <$> clients (db (cancel_sale w sid).1) !! j
  = total_spent <$> clients (db w) !! j.
Proof.
  unfold cancel_sale, sale_cancel.
  destruct (sale_get_by_id w sid) as [s|]; [|reflexivity].
  destruct (status s); [|reflexivity].
  destruct (sales (db w) !! sid) as [s0|]; [|reflexivity]. simpl.
  set (w1 := with_db w (with_sales (db w)
               (<[sid := set_status s0 cancelled]> (sales (db w))))).
  assert (H1 : clients (db (restock w1 s)) = clients (db w))
    by exact (proj1 (restock_untouched w1 s)).
  unfold take_back_points.
  destruct (sale_client_id s) as [cid|]; [|now rewrite H1].
  destruct (negb (cid =? 0) && (0 <? loyalty_points_earned s));
    [|now rewrite H1].
  now rewrite use_client_points_total_spent, H1.
Qed.

Lemma update_client_after_sale_total_spent (w : World) (t : Totals)
  (cid : Z) (snap c : Client) :
  cart_client (cart w) = Some (cid, snap) ->
  clients (db w) !! cid = Some c ->
  total_spent <$> clients (db (update_client_after_sale w t)) !! cid
  = Some (total_spent c + t_total t)%Q.
Proof.
  intros Hcart Hc. unfold update_client_after_sale. rewrite Hcart.
  pose proof (add_points_to_client_total_spent w cid (t_total t) cid) as H.
  rewrite Hc in H. simpl in H.
  set (w1 := (add_points_to_client w cid (t_total t)).1) in *.
  unfold update_total_spent.
  destruct (clients (db w1) !! cid) as [c1|]; [|discriminate].
  simpl in H. injection H as H. simpl.
  now rewrite lookup_insert_eq, <- H.
Qed.

(** [X18].  Lifetime spend is only ever added to.  A committed sale to an
    attached, registered customer raises the customer's [total_spent] by the
    sale's total; [cancel_sale] leaves the [total_spent] of every customer as
    it is, so the total of a cancelled sale stays counted. *)
Theorem total_spent_counts_cancelled_sales (w : World) :
  (forall w' msg sid s cid snap c,
     validate_sale w = (w', (true, msg, Some (sid, s))) ->
     cart_client (cart w) = Some (cid, snap) ->
     clients (db w) !! cid = Some c ->
     total_spent <$> clients (db w') !! cid
     = Some (total_spent c + sale_total s)%Q) /\
  (forall sid j,
     total_spent <$> clients (db (cancel_sale w sid).1) !! j
     = total_spent <$> clients (db w) !! j).
Proof.
  split; [|intros; apply cancel_sale_total_spent].
  intros w' msg sid s cid snap c Hv Hcart Hc.
  apply validate_sale_state in Hv as (u & _ & _ & Hb & _ & ->).
  apply build_sale_fields in Hb as (_ & _ & _ & _ & _ & Ht & _).
  rewrite Ht.
  set (w1 := (sale_create w s).1).
  change (total_spent <$>
            clients (db (update_client_after_sale (commit_stock w1 sid)
                           (calculate_totals w))) !! cid
          = Some (total_spent c + t_total (calculate_totals w))%Q).
  destruct (commit_stock_untouched w1 sid) as (Hcl & _ & _ & _ & Hct & _).
  apply (update_client_after_sale_total_spent _ _ cid snap).
  - rewrite Hct. exact Hcart.
  - rewrite Hcl. exact Hc.
Qed.

Lemma total_spent_counts_cancelled_sales_witness :
  total_spent <$> clients (db sold_world) !! 1
  = Some (total_spent gold_client + sale_total gold_sale)%Q /\
  total_spent <$> clients (db (cancel_sale sold_world 1).1) !! 1
  = total_spent <$> clients (db sold_world) !! 1.
Proof.
  destruct (total_spent_counts_cancelled_sales gold_world) as [Hv _].
  destruct (total_spent_counts_cancelled_sales sold_world) as [_ Hc].
  split; [|exact (Hc 1 1)].
  exact (Hv sold_world _ 1 gold_sale 1 gold_client gold_client
           gold_world_commit eq_refl eq_refl).
Defined.

(** ** Logical deletion *)

(** [X19].  [delete_medicament] is a logical deletion.  For a medicine that
    exists it succeeds, keeps the row with its name, price and stock and only
    clears [is_active]; every other row, the cart and the ledger stay as they
    are.  Afterwards [add_to_cart] refuses the medicine as unavailable,
    whatever the quantity, while [check_stock_availability], which
    [validate_sale] uses for its re-check, answers as before.  For an unknown
    medicine nothing changes. *)
Theorem delete_medicament_is_logical (w : World) (i : Z) :
  (medicaments (db w) !! i = None ->
   delete_medicament w i = (w, (false, MsgDeleteNotFound))) /\
  (forall m, medicaments (db w) !! i = Some m ->
     let w' := (delete_medicament w i).1 in
     (delete_medicament w i).2 = (true, MsgDeleted) /\
     medicaments (db w') !! i = Some (set_med_active m false) /\
     (forall j, j <> i ->
        medicaments (db w') !! j = medicaments (db w) !! j) /\
     untouched_by_stock w w' /\
     stock_movements (db w') = stock_movements (db w) /\
     (forall q, 0 < q ->
        add_to_cart w' i q = (w', (false, MsgMedicamentUnavailable))) /\
     (forall j q,
        check_stock_availability w' j q = check_stock_availability w j q)).
Proof.
  unfold delete_medicament, medicament_delete, medicament_get_by_id. split.
  { now intros ->. }
  intros m Hm. rewrite Hm. simpl.
  split; [reflexivity|]. split; [apply lookup_insert_eq|].
  split; [intros j Hj; now apply lookup_insert_ne|].
  split; [unfold untouched_by_stock; repeat split; reflexivity|].
  split; [reflexivity|]. split.
  - intros q Hq. unfold add_to_cart, medicament_get_by_id.
    destruct (Z.leb_spec q 0); [lia|]. simpl.
    now rewrite lookup_insert_eq.
  - intros j q. unfold check_stock_availability, medicament_get_by_id. simpl.
    destruct (decide (i = j)) as [->|Hne].
    + now rewrite lookup_insert_eq, Hm.
    + now rewrite lookup_insert_ne.
Qed.

Lemma delete_medicament_is_logical_witness :
  medicaments (db anonymous_world) !! 1 = Some para500 /\
  (delete_medicament anonymous_world 1).2 = (true, MsgDeleted) /\
  (add_to_cart (delete_medicament anonymous_world 1).1 1 1).2
  = (false, MsgMedicamentUnavailable) /\
  check_stock_availability (delete_medicament anonymous_world 1).1 1 1
  = (true, 20) /\
  delete_medicament anonymous_world 7
  = (anonymous_world, (false, MsgDeleteNotFound)).
Proof.
  destruct (delete_medicament_is_logical anonymous_world 1) as [_ H].
  destruct (delete_medicament_is_logical anonymous_world 7) as [Hn _].
  assert (Hm : medicaments (db anonymous_world) !! 1 = Some para500)
    by (vm_compute; reflexivity).
  destruct (H para500 Hm) as (Hok & _ & _ & _ & _ & Hadd & Hchk).
  split; [exact Hm|]. split; [exact Hok|].
  split; [rewrite (Hadd 1); [reflexivity|lia]|].
  split; [rewrite Hchk; vm_compute; reflexivity|].
  apply Hn. vm_compute. reflexivity.
Defined.

(** [X20].  [ClientRepository.delete] only clears [is_active]: the balance
    of points and the lifetime spend stay on the row.  Afterwards
    [set_client] refuses the customer and leaves the cart as it is, so a
    customer who was attached before the deletion stays attached. *)
Theorem deleted_client_cannot_be_attached (w : World) (cid : Z) (c : Client) :
  clients (db w) !! cid = Some c ->
  let w' := (client_delete w cid).1 in
  (client_delete w cid).2 = true /\
  clients (db w') !! cid = Some (set_client_active c false) /\
  (forall j, j <> cid -> clients (db w') !! j = clients (db w) !! j) /\
  untouched_by_loyalty w w' /\
  set_client w' cid = (w', (false, MsgClientDisabled)).
Proof.
  intros Hc. unfold client_delete. rewrite Hc. simpl.
  split; [reflexivity|]. split; [apply lookup_insert_eq|].
  split; [intros j Hj; now apply lookup_insert_ne|].
  split; [unfold untouched_by_loyalty; repeat split; reflexivity|].
  unfold set_client, client_get_by_id. simpl.
  now rewrite lookup_insert_eq.
Qed.

Lemma deleted_client_cannot_be_attached_witness :
  clients (db gold_world) !! 1 = Some gold_client /\
  set_client (client_delete gold_world 1).1 1
  = ((client_delete gold_world 1).1, (false, MsgClientDisabled)) /\
  cart_client (cart (client_delete gold_world 1).1) = Some (1, gold_client).
Proof.
  assert (Hc : clients (db gold_world) !! 1 = Some gold_client)
    by (vm_compute; reflexivity).
  destruct (deleted_client_cannot_be_attached gold_world 1 gold_client Hc)
    as (_ & _ & _ & Hu & Hset).
  split; [exact Hc|]. split; [exact Hset|].
  destruct Hu as (_ & _ & _ & _ & Hcart & _). rewrite Hcart.
  vm_compute. reflexivity.
Defined.

(** ** The record of a sale *)

Lemma foldr_max_bound (l : list Z) (k : Z) : k ∈ l -> k <= foldr Z.max 0 l.
Proof.
  induction l as [|x l IH]; simpl.
  - intros H. now apply elem_of_nil in H.
  - intros H. apply elem_of_cons in H as [->|H]; [lia|].
    specialize (IH H). lia.
Qed.

Lemma max_key_bound {A} (m : gmap Z A) (k : Z) (x : A) :
  m !! k = Some x -> k <= max_key m.
Proof.
  intros H. unfold max_key. apply foldr_max_bound.
  apply list_elem_of_fmap. exists (k, x). split; [reflexivity|].
  now apply elem_of_map_to_list.
Qed.

Lemma sale_create_fresh (w : World) (s : Sale) :
  sales (db w) !! (sale_create w s).2 = None.
Proof.
  simpl. destruct (sales (db w) !! (max_key (sales (db w)) + 1)) as [x|] eqn:E;
    [|reflexivity].
  apply max_key_bound in E. lia.
Qed.

Lemma max_seq_bound (l : list Z) (x : Z) :
  x ∈ l ->
  exists n,
    foldr (fun x acc =>
             Some (match acc with Some a => Z.max x a | None => x end))
      None l = Some n /\ x <= n.
Proof.
  induction l as [|y l IH]; simpl.
  - intros H. now apply elem_of_nil in H.
  - intros H. apply elem_of_cons in H as [->|H].
    + destruct (foldr _ None l) as [a|]; eexists; split; eauto; lia.
    + destruct (IH H) as (n & -> & Hn). eexists; split; eauto. lia.
Qed.

Lemma generate_sale_number_above (w : World) (j : Z) (s : Sale) :
  sales (db w) !! j = Some s -> sn_date (sale_number s) = today w ->
  sn_seq (sale_number s) < sn_seq (generate_sale_number w).
Proof.
  intros Hs Hd. unfold generate_sale_number, max_seq_of_day. simpl.
  match goal with |- context [foldr ?f None ?l] =>
    destruct (max_seq_bound l (sn_seq (sale_number s))) as (n & -> & Hn)
  end.
  - apply list_elem_of_omap. exists (j, s). split.
    + now apply elem_of_map_to_list.
    + simpl. rewrite Hd, Z.eqb_refl. reflexivity.
  - destruct (Z.eqb_spec n 0); lia.
Qed.

Lemma generate_sale_number_unused (w : World) (j : Z) (s : Sale) :
  sales (db w) !! j = Some s -> sale_number s <> generate_sale_number w.
Proof.
  intros Hs E.
  assert (Hd : sn_date (sale_number s) = today w) by now rewrite E.
  pose proof (generate_sale_number_above w j s Hs Hd) as Hlt.
  rewrite E in Hlt. lia.
Qed.

(** [X21].  The number that [generate_sale_number] gives is dated today and
    its sequence is above the sequence of every stored sale numbered today,
    so no stored sale carries it; without a sale numbered today the sequence
    is 1. *)
Theorem generate_sale_number_is_new (w : World) :
  sn_date (generate_sale_number w) = today w /\
  (forall j s, sales (db w) !! j = Some s ->
     sn_date (sale_number s) = today w ->
     sn_seq (sale_number s) < sn_seq (generate_sale_number w)) /\
  (forall j s, sales (db w) !! j = Some s ->
     sale_number s <> generate_sale_number w) /\
  ((forall j s, sales (db w) !! j = Some s ->
      sn_date (sale_number s) <> today w) ->
   sn_seq (generate_sale_number w) = 1).
Proof.
  split; [reflexivity|].
  split; [apply generate_sale_number_above|].
  split; [apply generate_sale_number_unused|].
  intros Hnone. unfold generate_sale_number, max_seq_of_day. simpl.
  assert (E : omap (fun kv : Z * Sale =>
                      if sn_date (sale_number kv.2) =? today w
                      then Some (sn_seq (sale_number kv.2)) else None)
                (map_to_list (sales (db w))) = []).
  { assert (H : forall kv, kv ∈ map_to_list (sales (db w)) ->
                sn_date (sale_number kv.2) <> today w).
    { intros [j s] Hin. apply elem_of_map_to_list in Hin. simpl. eauto. }
    induction (map_to_list (sales (db w))) as [|kv l IH]; [reflexivity|].
    simpl.
    destruct (Z.eqb_spec (sn_date (sale_number kv.2)) (today w)) as [E|_].
    - exfalso. apply (H kv); [left|exact E].
    - apply IH. intros kv' Hin. apply H. now right. }
  now rewrite E.
Qed.

Lemma generate_sale_number_is_new_witness :
  sn_seq (generate_sale_number opening_world) = 1 /\
  sn_seq (generate_sale_number sold_world) = 2.
Proof.
  destruct (generate_sale_number_is_new opening_world) as (_ & _ & _ & H1).
  split; [|vm_compute; reflexivity].
  apply H1. intros j s Hs. vm_compute in Hs. discriminate.
Defined.

Lemma build_sale_header (w : World) (u : User) (t : Totals) (s : Sale) :
  build_sale w u t = Some s ->
  sale_number s = generate_sale_number w /\
  sale_user_id s = user_id u /\
  sale_client_id s = fst <$> cart_client (cart w) /\
  sale_date s = today w /\
  loyalty_points_used s = 0 /\
  status s = completed /\
  lines s = List.map line_of_item (items (cart w)).
Proof.
  unfold build_sale.
  match goal with |- context [if ?b then _ else _] => destruct b end;
    [|discriminate].
  intros [= <-]. simpl. repeat split; reflexivity.
Qed.

Lemma commit_stock_sales (w : World) (sid : Z) :
  sales (db (commit_stock w sid)) = sales (db w).
Proof. apply commit_stock_untouched. Qed.

Lemma update_client_after_sale_sales (w : World) (t : Totals) :
  sales (db (update_client_after_sale w t)) = sales (db w).
Proof. apply update_client_after_sale_untouched. Qed.

Lemma validate_sale_sales (w w' : World) (msg : Msg) (sid : Z) (s : Sale) :
  validate_sale w = (w', (true, msg, Some (sid, s))) ->
  sales (db w) !! sid = None /\
  sales (db w') = <[sid := s]> (sales (db w)) /\
  cart w' = empty_cart.
Proof.
  intros Hv.
  apply validate_sale_state in Hv as (u & _ & _ & _ & -> & ->).
  split; [apply sale_create_fresh|]. split; [|reflexivity].
  change (sales (db (update_client_after_sale
                       (commit_stock (sale_create w s).1 (sale_create w s).2)
                       (calculate_totals w)))
          = <[(sale_create w s).2 := s]> (sales (db w))).
  now rewrite update_client_after_sale_sales, commit_stock_sales.
Qed.

(** [X22].  A successful [validate_sale] files the sale it returns under an
    id that no sale had, leaves every other sale as it was and empties the
    cart.  The sale is completed, dated today, sold by the current user to
    the customer of the cart, has one line per line of the cart in the same
    order, and its number is carried by no earlier sale. *)
Theorem validate_sale_files_a_new_sale
  (w w' : World) (msg : Msg) (sid : Z) (s : Sale) :
  validate_sale w = (w', (true, msg, Some (sid, s))) ->
  msg = MsgSaleRecorded (sale_number s) /\
  sales (db w) !! sid = None /\
  sales (db w') !! sid = Some s /\
  (forall j, j <> sid -> sales (db w') !! j = sales (db w) !! j) /\
  (forall j s0, sales (db w) !! j = Some s0 ->
     sale_number s0 <> sale_number s) /\
  cart w' = empty_cart /\
  status s = completed /\ sale_date s = today w /\
  Some (sale_user_id s) = user_id <$> current_user w /\
  sale_client_id s = fst <$> cart_client (cart w) /\
  lines s = List.map line_of_item (items (cart w)).
Proof.
  intros Hv.
  destruct (validate_sale_sales _ _ _ _ _ Hv) as (Hfresh & Hsales & Hcart).
  pose proof Hv as Hv'.
  apply validate_sale_success in Hv' as (u0 & s0 & _ & _ & _ & _ & Hfin).
  apply finish_sale_result in Hfin as (_ & Hmsg & Hr & _).
  injection Hr as _ <-.
  apply validate_sale_state in Hv as (u & Hu & _ & Hb & _ & _).
  apply build_sale_header in Hb as (Hn & Huid & Hcid & Hd & _ & Hst & Hl).
  split; [exact Hmsg|]. split; [exact Hfresh|].
  split; [rewrite Hsales; apply lookup_insert_eq|].
  split; [intros j Hj; rewrite Hsales; now apply lookup_insert_ne|].
  split; [intros j s1 Hs1; rewrite Hn; now apply (generate_sale_number_unused w j)|].
  split; [exact Hcart|]. split; [exact Hst|]. split; [exact Hd|].
  split; [now rewrite Hu, Huid|]. split; [exact Hcid|exact Hl].
Qed.

Lemma validate_sale_files_a_new_sale_witness :
  sales (db gold_world) !! 1 = None /\
  sales (db sold_world) !! 1 = Some gold_sale /\
  cart sold_world = empty_cart.
Proof.
  destruct (validate_sale_files_a_new_sale gold_world sold_world _ 1 gold_sale
              gold_world_commit)
    as (_ & H1 & H2 & _ & _ & H3 & _).
  exact (conj H1 (conj H2 H3)).
Defined.

(** ** Cancellation *)

Lemma sale_get_by_id_row (w : World) (sid : Z) (s : Sale) :
  sale_get_by_id w sid = Some s ->
  exists s0, sales (db w) !! sid = Some s0 /\
             is_Some (users (db w) !! sale_user_id s0) /\
             status s = status s0 /\ sale_date s = sale_date s0 /\
             sale_number s = sale_number s0.
Proof.
  unfold sale_get_by_id.
  destruct (sales (db w) !! sid) as [s0|]; [|discriminate].
  destruct (users (db w) !! sale_user_id s0) as [u|] eqn:Hu; [|discriminate].
  intros [= <-]. exists s0. simpl. repeat split; eauto.
Qed.

Lemma cancel_sale_frame (w : World) (sid : Z) (s : Sale) (s0 : Sale) :
  sale_get_by_id w sid = Some s -> status s = completed ->
  sales (db w) !! sid = Some s0 ->
  (cancel_sale w sid).2 = (true, MsgSaleCancelled) /\
  sales (db (cancel_sale w sid).1)
  = <[sid := set_status s0 cancelled]> (sales (db w)) /\
  users (db (cancel_sale w sid).1) = users (db w) /\
  cart (cancel_sale w sid).1 = cart w.
Proof.
  intros Hg Hst Hs0. unfold cancel_sale, sale_cancel.
  rewrite Hg, Hst, Hs0. simpl.
  set (w1 := with_db w (with_sales (db w)
               (<[sid := set_status s0 cancelled]> (sales (db w))))).
  destruct (restock_untouched w1 s) as (_ & Hu & Hs & _ & Hc & _).
  destruct (take_back_points_untouched (restock w1 s) s)
    as (_ & Hu' & Hs' & _ & Hc' & _).
  split; [reflexivity|].
  split; [now rewrite Hs', Hs|]. split; [now rewrite Hu', Hu|].
  now rewrite Hc', Hc.
Qed.

(** [X23].  [cancel_sale] succeeds exactly on a sale that [get_by_id] finds
    and that is completed, and changes nothing otherwise.  On success only
    the status of that sale changes among the sales, the cart is left alone,
    and a second cancellation of the same sale is refused as already
    cancelled and changes nothing. *)
Theorem cancel_sale_once (w : World) (sid : Z) :
  let res := cancel_sale w sid in
  (sale_get_by_id w sid = None -> res = (w, (false, MsgSaleNotFound))) /\
  (res.2.1 = true <->
   exists s, sale_get_by_id w sid = Some s /\ status s = completed) /\
  (res.2.1 = false -> res.1 = w) /\
  (res.2.1 = true ->
   res.2.2 = MsgSaleCancelled /\
   (forall s0, sales (db w) !! sid = Some s0 ->
      sales (db res.1) !! sid = Some (set_status s0 cancelled)) /\
   (forall j, j <> sid -> sales (db res.1) !! j = sales (db w) !! j) /\
   cart res.1 = cart w /\
   cancel_sale res.1 sid = (res.1, (false, MsgAlreadyCancelled))).
Proof.
  cbv zeta.
  split. { intros H. unfold cancel_sale. now rewrite H. }
  destruct (sale_get_by_id w sid) as [s|] eqn:Hg.
  2: { unfold cancel_sale. rewrite Hg. simpl.
       split; [split; [discriminate|intros (s & [=] & _)]|].
       split; [reflexivity|discriminate]. }
  destruct (status s) eqn:Hst.
  2: { unfold cancel_sale. rewrite Hg, Hst. simpl.
       split; [split; [discriminate|intros (s' & [= <-] & E); congruence]|].
       split; [reflexivity|discriminate]. }
  destruct (sale_get_by_id_row _ _ _ Hg) as (s0 & Hs0 & [u Hu] & _).
  destruct (cancel_sale_frame w sid s s0 Hg Hst Hs0) as (Hres & Hs & Hus & Hc).
  rewrite Hres. simpl.
  split; [split; [eauto|reflexivity]|].
  split; [discriminate|]. intros _.
  split; [reflexivity|].
  split; [intros s1 Hs1; rewrite Hs; rewrite Hs0 in Hs1;
          injection Hs1 as <-; apply lookup_insert_eq|].
  split; [intros j Hj; rewrite Hs; now apply lookup_insert_ne|].
  split; [exact Hc|].
  set (w' := (cancel_sale w sid).1) in *.
  unfold cancel_sale at 1, sale_get_by_id.
  rewrite Hs, lookup_insert_eq, Hus. simpl. rewrite Hu. reflexivity.
Qed.

(** ** The movements of a commit and of a cancellation *)

Lemma record_movement_ledger (w : World) (i : Z) (t : MovementType) (q : Z)
  (r : Reason) (ref : option Z) :
  ledger (record_movement w i t q r ref)
  = ledger w ++ [{| mv_medicament_id := i; mv_user_id := acting_user w;
                    mv_type := t; mv_quantity := q;
                    mv_reference_id := ref; mv_reason := r |}].
Proof. reflexivity. Qed.

Lemma commit_ledger_loop (sid : Z) (xs : list CartItem) (a : World) :
  NoDup (List.map item_medicament_id xs) ->
  (forall it, In it xs ->
     exists m, meds a !! item_medicament_id it = Some m /\
               0 < item_quantity it /\
               item_quantity it <= quantity_in_stock m) ->
  ledger (fold_left
            (fun acc it =>
               (remove_stock acc (item_medicament_id it) (item_quantity it)
                  ReasonVente (Some sid)).1) xs a)
  = ledger a ++ List.map (exit_of_item (acting_user a) sid) xs.
Proof.
  revert a. induction xs as [|x xs IH]; intros a Hnd Hok; simpl.
  { now rewrite app_nil_r. }
  apply NoDup_cons in Hnd as [Hx Hnd].
  destruct (Hok x (or_introl eq_refl)) as (m & Hm & Hq & Hle).
  pose proof (remove_stock_meds a (item_medicament_id x) (item_quantity x)
                ReasonVente (Some sid) m Hm (conj Hq Hle)) as Hmeds.
  destruct (remove_stock_cases a (item_medicament_id x) (item_quantity x)
              ReasonVente (Some sid))
    as [(m' & Hm' & _ & _ & E)|([Hn|Hn] & _)].
  - rewrite E in *. simpl in Hmeds |- *.
    rewrite IH; auto.
    + rewrite record_movement_ledger. simpl.
      rewrite <- app_assoc. reflexivity.
    + intros y Hy. destruct (Hok y (or_intror Hy)) as (my & Hmy & Hoky).
      exists my. split; auto. rewrite Hmeds, lookup_insert_ne; auto.
      intros Eid. apply Hx. rewrite Eid. apply list_elem_of_In, in_map, Hy.
  - lia.
  - specialize (Hn m Hm). lia.
Qed.

Lemma validate_sale_stock_covered (w : World) (u : User) (s : Sale) :
  first_unavailable w = None ->
  build_sale w u (calculate_totals w) = Some s ->
  forall it, In it (items (cart w)) ->
    exists m, meds w !! item_medicament_id it = Some m /\
              0 < item_quantity it /\
              item_quantity it <= quantity_in_stock m.
Proof.
  intros Hf Hb it Hin.
  destruct (first_unavailable_none w Hf it Hin) as (m & Hm & Hle).
  exists m. split; [exact Hm|]. split; [|exact Hle].
  pose proof (build_sale_fields _ _ _ _ Hb) as (_ & Hlines & _).
  pose proof (build_sale_header _ _ _ _ Hb) as (_ & _ & _ & _ & _ & _ & Hl).
  rewrite Hl in Hlines.
  exact (lines_valid_quantities _ Hlines it Hin).
Qed.

(** [X24].  The commit of a cart that holds each medicine once records, after
    the movements already in the ledger, one exit per line of the cart, in
    the order of the cart: the medicine of the line, the negated quantity,
    the acting user, the reason of a sale and the id of the new sale as
    reference.  The stock of each medicine goes down by its quantity in the
    cart. *)
Theorem validate_sale_records_one_exit_per_line
  (w w' : World) (msg : Msg) (sid : Z) (s : Sale) :
  NoDup (cart_ids (cart w)) ->
  validate_sale w = (w', (true, msg, Some (sid, s))) ->
  ledger w'
  = ledger w ++ List.map (exit_of_item (acting_user w) sid) (items (cart w))
  /\ forall i,
       stock_of w' i = stock_of w i - quantity_in_cart i (items (cart w)).
Proof.
  intros Hnd Hv.
  apply validate_sale_state in Hv as (u & Hu & Hf & Hb & _ & ->).
  pose proof (validate_sale_stock_covered w u s Hf Hb) as Hok.
  set (w1 := (sale_create w s).1).
  set (w2 := commit_stock w1 sid).
  destruct (update_client_after_sale_untouched w2 (calculate_totals w))
    as (Hm & _ & _ & Hl & _).
  split.
  - change (stock_movements
              (db (update_client_after_sale w2 (calculate_totals w)))
            = ledger w
              ++ List.map (exit_of_item (acting_user w) sid) (items (cart w))).
    rewrite Hl. exact (commit_ledger_loop sid (items (cart w)) w1 Hnd Hok).
  - intros i. unfold stock_of.
    change (medicaments
              (db (with_cart
                     (update_client_after_sale w2 (calculate_totals w))
                     empty_cart)))
      with (meds (update_client_after_sale w2 (calculate_totals w))).
    rewrite Hm. unfold w2.
    rewrite (commit_stock_meds w1 sid Hnd Hok i).
    change (meds w1) with (medicaments (db w)).
    change (cart w1) with (cart w).
    unfold quantity_in_cart.
    destruct (find_item i (items (cart w))) as [it|] eqn:Hfind.
    + apply find_some in Hfind as [Hin Hid]. apply Z.eqb_eq in Hid.
      destruct (Hok it Hin) as (m & Hmi & _). rewrite Hid in Hmi.
      unfold meds in Hmi. rewrite Hmi. reflexivity.
    + destruct (medicaments (db w) !! i); simpl; lia.
Qed.

Lemma validate_sale_records_one_exit_per_line_witness :
  ledger sold_world
  = ledger gold_world
    ++ [{| mv_medicament_id := 1; mv_user_id := 1; mv_type := EXIT;
           mv_quantity := -1; mv_reference_id := Some 1;
           mv_reason := ReasonVente |}] /\
  stock_of sold_world 1 = 19.
Proof.
  destruct (validate_sale_records_one_exit_per_line gold_world sold_world _ 1
              gold_sale gold_cart_nodup gold_world_commit) as [Hl Hs].
  split; [exact Hl|]. rewrite (Hs 1). vm_compute. reflexivity.
Defined.





Lemma sold_world_sale : sale_get_by_id sold_world 1 = Some gold_sale.
Proof. vm_compute. reflexivity. Defined.


(** ** Daily count *)

Lemma counted_on_cancelled (d i : Z) (s : Sale) :
  ~ counted_on d (i, set_status s cancelled).
Proof.
  unfold counted_on. simpl. rewrite andb_false_r. exact id.
Qed.

Lemma daily_count_insert_new (m : gmap Z Sale) (d i : Z) (s : Sale) :
  m !! i = None -> sale_date s = d -> status s = completed ->
  size (filter (counted_on d) (<[i := s]> m))
  = S (size (filter (counted_on d) m)).
Proof.
  intros Hi Hd Hst.
  rewrite map_filter_insert_True.
  - apply map_size_insert_None, map_lookup_filter_None_2. now left.
  - unfold counted_on. simpl. rewrite Hd, Hst, Z.eqb_refl. exact I.
Qed.

Lemma daily_count_insert_other (m : gmap Z Sale) (d i : Z) (s : Sale) :
  m !! i = None -> sale_date s <> d ->
  filter (counted_on d) (<[i := s]> m) = filter (counted_on d) m.
Proof.
  intros Hi Hd. apply map_filter_insert_not'.
  - unfold counted_on. simpl.
    destruct (Z.eqb_spec (sale_date s) d); [contradiction|exact id].
  - intros y Hy. congruence.
Qed.

Lemma daily_count_cancel_counted (m : gmap Z Sale) (d i : Z) (s0 : Sale) :
  m !! i = Some s0 -> sale_date s0 = d -> status s0 = completed ->
  size (filter (counted_on d) m)
  = S (size (filter (counted_on d) (<[i := set_status s0 cancelled]> m))).
Proof.
  intros Hi Hd Hst.
  rewrite map_filter_insert_False by apply counted_on_cancelled.
  rewrite map_filter_delete.
  assert (Hf : filter (counted_on d) m !! i = Some s0).
  { apply map_lookup_filter_Some_2; [exact Hi|].
    unfold counted_on. simpl. rewrite Hd, Hst, Z.eqb_refl. exact I. }
  rewrite <- (insert_id _ _ _ Hf) at 1.
  rewrite <- insert_delete_eq.
  apply map_size_insert_None, lookup_delete_eq.
Qed.

Lemma daily_count_cancel_other (m : gmap Z Sale) (d i : Z) (s0 : Sale) :
  m !! i = Some s0 -> sale_date s0 <> d ->
  filter (counted_on d) (<[i := set_status s0 cancelled]> m)
  = filter (counted_on d) m.
Proof.
  intros Hi Hd. apply map_filter_insert_not'.
  - apply counted_on_cancelled.
  - intros y Hy. rewrite Hi in Hy. injection Hy as <-.
    unfold counted_on. simpl.
    destruct (Z.eqb_spec (sale_date s0) d); [contradiction|exact id].
Qed.

(** [X26].  [get_daily_count] follows the sales: a committed sale raises the
    count of today by one and leaves the count of every other day, and the
    cancellation of a completed sale lowers the count of the day of the sale
    by one and leaves the count of every other day. *)
Theorem get_daily_count_follows_sales (w : World) :
  (forall w' msg sid s d,
     validate_sale w = (w', (true, msg, Some (sid, s))) ->
     get_daily_count w' d
     = get_daily_count w d + (if d =? today w then 1 else 0)) /\
  (forall sid s d,
     sale_get_by_id w sid = Some s -> status s = completed ->
     get_daily_count (cancel_sale w sid).1 d
     = get_daily_count w d - (if d =? sale_date s then 1 else 0)).
Proof.
  split.
  - intros w' msg sid s d Hv.
    destruct (validate_sale_sales _ _ _ _ _ Hv) as (Hfresh & Hsales & _).
    apply validate_sale_state in Hv as (u & _ & _ & Hb & _ & _).
    apply build_sale_header in Hb as (_ & _ & _ & Hd & _ & Hst & _).
    unfold get_daily_count. rewrite Hsales.
    destruct (Z.eqb_spec d (today w)) as [->|Hne].
    + rewrite (daily_count_insert_new _ _ _ _ Hfresh Hd Hst). lia.
    + rewrite daily_count_insert_other; [lia|exact Hfresh|congruence].
  - intros sid s d Hg Hst.
    destruct (sale_get_by_id_row _ _ _ Hg) as (s0 & Hs0 & _ & Hst0 & Hd0 & _).
    destruct (cancel_sale_frame w sid s s0 Hg Hst Hs0) as (_ & Hs & _).
    unfold get_daily_count. rewrite Hs, Hd0.
    destruct (Z.eqb_spec d (sale_date s0)) as [->|Hne].
    + rewrite (daily_count_cancel_counted (sales (db w)) (sale_date s0) sid s0
                 Hs0 eq_refl); [lia|congruence].
    + rewrite daily_count_cancel_other; [lia|exact Hs0|congruence].
Qed.

Lemma get_daily_count_follows_sales_witness :
  get_daily_count sold_world 20250115
  = get_daily_count gold_world 20250115 + 1 /\
  get_daily_count (cancel_sale sold_world 1).1 20250115
  = get_daily_count sold_world 20250115 - 1.
Proof.
  destruct (get_daily_count_follows_sales gold_world) as [Hv _].
  destruct (get_daily_count_follows_sales sold_world) as [_ Hc].
  split.
  - exact (Hv sold_world _ 1 gold_sale 20250115 gold_world_commit).
  - exact (Hc 1 gold_sale 20250115 sold_world_sale eq_refl).
Defined.

(** ** Snapshots of the cart *)

Lemma calculate_totals_frame (w w' : World) :
  cart w' = cart w -> loyalty_tiers (db w') = loyalty_tiers (db w) ->
  config w' = config w -> calculate_totals w' = calculate_totals w.
Proof.
  intros Hc Ht Hk.
  unfold calculate_totals, apply_discount, get_client_discount,
    get_client_tier, get_tier_for_points, calculate_points_earned.
  now rewrite Hc, Ht, Hk.
Qed.

(** [X27].  The totals of the open cart are computed from what the cart
    captured: a later change of a row of the catalogue (price included), of a
    row of a customer (balance included), or of the stock leaves
    [calculate_totals] as it was. *)
Theorem calculate_totals_uses_snapshots (w : World) :
  (forall i m, calculate_totals (medicament_update w i m).1
               = calculate_totals w) /\
  (forall cid c, calculate_totals (client_update w cid c).1
                 = calculate_totals w) /\
  (forall cid d, calculate_totals (update_loyalty_points w cid d).1
                 = calculate_totals w) /\
  (forall i nq r, calculate_totals (adjust_stock w i nq r).1
                  = calculate_totals w) /\
  (forall sid, calculate_totals (cancel_sale w sid).1 = calculate_totals w).
Proof.
  split; [|split; [|split; [|split]]].
  - intros i m. unfold medicament_update.
    destruct (medicaments (db w) !! i); reflexivity.
  - intros cid c. unfold client_update.
    destruct (clients (db w) !! cid); reflexivity.
  - intros cid d.
    destruct (update_loyalty_points_cases w cid d)
      as [(c & _ & _ & ->)|[_ ->]]; reflexivity.
  - intros i nq r. unfold adjust_stock, medicament_get_by_id, medicament_update.
    destruct (nq <? 0); [reflexivity|].
    destruct (medicaments (db w) !! i) as [m|]; [|reflexivity].
    destruct (nq - quantity_in_stock m =? 0); reflexivity.
  - intros sid. unfold cancel_sale, sale_cancel.
    destruct (sale_get_by_id w sid) as [s|]; [|reflexivity].
    destruct (status s); [|reflexivity].
    destruct (sales (db w) !! sid) as [s0|]; [|reflexivity]. simpl.
    set (w1 := with_db w (with_sales (db w)
                 (<[sid := set_status s0 cancelled]> (sales (db w))))).
    destruct (restock_untouched w1 s) as (_ & _ & _ & Ht & Hc & _ & _ & Hk).
    destruct (take_back_points_untouched (restock w1 s) s)
      as (_ & _ & _ & _ & Hc' & _ & Hk').
    apply calculate_totals_frame.
    + now rewrite Hc', Hc.
    + unfold take_back_points.
      destruct (sale_client_id s) as [cid|]; [|exact Ht].
      destruct (negb (cid =? 0) && (0 <? loyalty_points_earned s));
        [|exact Ht].
      unfold use_client_points.
      destruct (loyalty_points_earned s <=? 0); [exact Ht|].
      destruct (client_get_by_id (restock w1 s) cid) as [c|]; [|exact Ht].
      destruct (loyalty_points c <? loyalty_points_earned s); [exact Ht|].
      destruct (update_loyalty_points_cases (restock w1 s) cid
                  (- loyalty_points_earned s))
        as [(c0 & _ & _ & ->)|[_ ->]]; exact Ht.
    + now rewrite Hk', Hk.
Qed.

(** ** Number of items *)

Lemma fold_left_line_quantities (its : list CartItem) (acc : Z) :
  fold_left (fun a l => a + line_quantity l) (List.map line_of_item its) acc
  = fold_left (fun a it => a + item_quantity it) its acc.
Proof.
  revert acc. induction its as [|it its IH]; intros acc; simpl;
    [reflexivity|apply IH].
Qed.

(** [X28].  The number of items of a committed sale, counted on its lines by
    [Sale.get_items_count], is the number of items of the cart it was
    committed from, which is also the [items_count] of the totals. *)
Theorem committed_sale_items_count
  (w w' : World) (msg : Msg) (sid : Z) (s : Sale) :
  validate_sale w = (w', (true, msg, Some (sid, s))) ->
  get_items_count s = items_count (cart w) /\
  get_items_count s = t_items_count (calculate_totals w).
Proof.
  intros Hv.
  apply validate_sale_state in Hv as (u & _ & _ & Hb & _ & _).
  apply build_sale_header in Hb as (_ & _ & _ & _ & _ & _ & Hl).
  assert (E : get_items_count s = items_count (cart w)).
  { unfold get_items_count, items_count. rewrite Hl.
    apply fold_left_line_quantities. }
  split; [exact E|]. rewrite E. unfold calculate_totals.
  destruct (cart_client (cart w)) as [[cid c]|]; [|reflexivity].
  destruct (apply_discount w (subtotal (cart w)) (Some c)) as [[f p] a].
  reflexivity.
Qed.

Lemma committed_sale_items_count_witness :
  get_items_count gold_sale = items_count (cart gold_world) /\
  get_items_count gold_sale = t_items_count (calculate_totals gold_world).
Proof.
  exact (committed_sale_items_count gold_world sold_world _ 1 gold_sale
           gold_world_commit).
Defined.
